(** * Clinic API: bookings, results, push tokens and accounts

    A shallow embedding of the Express controllers of the clinic API
    (consultaController.js, exameController.js, resultadoController.js,
    pushTokenController.js, authController.js, userController.js), of the
    middlewares of middlewares/auth.js, and of the JavaScript and Prisma
    operations they call.

    Conventions.
    - A JavaScript string is a sequence of UTF-16 code units; code units
      below 256 are embedded as [ascii], so [String.length] is the
      [.length] of the source.
    - A property of [req.body] is absent ([Undefined]), [Null], a boolean
      or a string; numbers, arrays and objects in a body are outside the
      model.
    - A JavaScript number that matters here is an integer-valued double,
      an infinity or NaN ([JS.number]): a product or a sum is rounded to
      53 significant bits as IEEE 754 does, so what [parseInt] reads and
      what [MakeTime] adds up are the doubles of the runtime.  A time
      value is an integer of at most 8.64e15 in absolute value or NaN; it
      is an [option Z], [None] being NaN.  The offset of a time zone is
      less than a day, so the sums of time values and offsets are below
      2^53 and exact ([JS.setHours_IEEE]).
    - An [async] handler is a function from the database to a response
      and a database; a rejected [await] is an exception caught by the
      handler's [try]/[catch].
    - A table is a finite map from the primary key [id] to the other
      columns of the row; a row travels with its key. *)

From stdpp Require Import gmap strings list fin_maps sorting pretty.
From Stdlib Require Import ZArith Ascii String.

Open Scope string_scope.
Open Scope Z_scope.

(** ** JavaScript values and built-ins used by the controllers *)

Module JS.

Inductive value :=
  | Undefined
  | Null
  | Bool (b : bool)
  | Str (s : string).

#[global] Instance value_eq_dec : EqDecision value.
Proof. solve_decision. Defined.

  (** [ToBoolean]: what [!x] and [if (x)] test. *)
Definition truthy (v : value) : bool :=
    match v with
    | Undefined | Null => false
    | Bool b => b
    | Str s => negb (String.eqb s "")
    end.

  (** [a === b] and [a !== b]. *)
Definition strict_eq (a b : value) : bool := bool_decide (a = b).
Definition strict_ne (a b : value) : bool := negb (strict_eq a b).

Definition typeof (v : value) : string :=
    match v with
    | Undefined => "undefined"
    | Null => "object"
    | Bool _ => "boolean"
    | Str _ => "string"
    end.

Definition ToString (v : value) : string :=
    match v with
    | Undefined => "undefined"
    | Null => "null"
    | Bool true => "true"
    | Bool false => "false"
    | Str s => s
    end.

  (** [Array.prototype.includes] on an array of strings. *)
Definition includes (l : list string) (v : value) : bool :=
    match v with
    | Str s => bool_decide (s ∈ l)
    | _ => false
    end.

  (** [s.split(sep)] for a one-character separator. *)
Fixpoint split (sep : ascii) (s : string) : list string :=
    match s with
    | EmptyString => [EmptyString]
    | String c rest =>
        if Ascii.eqb c sep then EmptyString :: split sep rest
        else match split sep rest with
             | piece :: pieces => String c piece :: pieces
             | [] => [String c EmptyString]
             end
    end.

  (** [const [a, b] = arr]: a missing element is [undefined]. *)
Definition element (l : list string) (i : nat) : value :=
    match l !! i with
    | Some s => Str s
    | None => Undefined
    end.

  (** *** parseInt *)

Definition code (c : ascii) : Z := Z.of_nat (nat_of_ascii c).

Definition is_white_space (c : ascii) : bool :=
    let n := code c in
    ((9 <=? n) && (n <=? 13)) || (n =? 32) || (n =? 160).

Fixpoint trim_start (s : string) : string :=
    match s with
    | String c rest => if is_white_space c then trim_start rest else s
    | EmptyString => s
    end.

Definition digit_value (c : ascii) : option Z :=
    let n := code c in
    if (48 <=? n) && (n <=? 57) then Some (n - 48)
    else if (97 <=? n) && (n <=? 122) then Some (n - 87)
    else if (65 <=? n) && (n <=? 90) then Some (n - 55)
    else None.

Definition radix_digit (R : Z) (c : ascii) : option Z :=
    match digit_value c with
    | Some d => if d <? R then Some d else None
    | None => None
    end.

  (** *** Numbers

      The numbers of this program are integers: what [parseInt] reads, the
      constants of the Date arithmetic, their products and their sums.  A
      double holds an integer below 2^53 as it is and a larger one rounded
      to 53 significant bits, ties to even; from 2^1024 - 2^970 on it is
      an infinity.  The sign of a zero is not kept: a time value has
      none. *)

Inductive number :=
  | NaN
  | Infinity (negative : bool)
  | Finite (n : Z).

Definition two53 : Z := 9007199254740992.
Definition overflow : Z := 2 ^ 1024.

  (** The nearest integer of 53 significant bits, ties to even. *)
Definition round53 (x : Z) : Z :=
    let a := Z.abs x in
    if a <? two53 then x
    else
      let e := Z.log2 a - 52 in
      let q := a `div` 2 ^ e in
      let r := a `mod` 2 ^ e in
      let half := 2 ^ (e - 1) in
      let q' := if (r <? half) || ((r =? half) && Z.even q) then q
                else q + 1 in
      Z.sgn x * (q' * 2 ^ e).

  (** The double of a mathematical integer. *)
Definition of_integer (x : Z) : number :=
    let r := round53 x in
    if overflow <=? Z.abs r then Infinity (x <? 0) else Finite r.

  (** [a * b] and [a + b] on doubles. *)
Definition mul (a b : number) : number :=
    match a, b with
    | NaN, _ | _, NaN => NaN
    | Finite x, Finite y => of_integer (x * y)
    | Infinity s, Infinity s' => Infinity (xorb s s')
    | Infinity s, Finite y | Finite y, Infinity s =>
        if y =? 0 then NaN else Infinity (xorb s (y <? 0))
    end.

Definition add (a b : number) : number :=
    match a, b with
    | NaN, _ | _, NaN => NaN
    | Finite x, Finite y => of_integer (x + y)
    | Infinity s, Infinity s' => if Bool.eqb s s' then Infinity s else NaN
    | Infinity s, Finite _ | Finite _, Infinity s => Infinity s
    end.

Definition is_finite (a : number) : bool :=
    match a with
    | Finite _ => true
    | _ => false
    end.

  (** The longest prefix of radix-[R] digits, as a mathematical integer;
      [acc] is [None] until a digit has been read. *)
Fixpoint read_digits (R : Z) (s : string) (acc : option Z) : option Z :=
    match s with
    | String c rest =>
        match radix_digit R c with
        | Some d => read_digits R rest (Some (R * default 0 acc + d))
        | None => acc
        end
    | EmptyString => acc
    end.

Definition strip_sign (s : string) : Z * string :=
    match s with
    | String "-" rest => (-1, rest)
    | String "+" rest => (1, rest)
    | _ => (1, s)
    end.

Definition strip_prefix (s : string) : Z * string :=
    match s with
    | String "0" (String "x" rest) => (16, rest)
    | String "0" (String "X" rest) => (16, rest)
    | _ => (10, s)
    end.

  (** [parseInt(v)] with no radix argument: NaN without a digit, else the
      double of the signed integer of the digits. *)
Definition parseInt (v : value) : number :=
    let '(sign, s) := strip_sign (trim_start (ToString v)) in
    let '(R, s) := strip_prefix s in
    match read_digits R s None with
    | Some mathInt => of_integer (sign * mathInt)
    | None => NaN
    end.

  (** *** Date

      A [Date] object is its time value: milliseconds since the epoch, or
      NaN for an invalid date.  [Date.parse] and the local time zone
      adjustment belong to the runtime and are parameters.

      The day and the fields of a time are taken of integers [t] below
      2^53: there the floor of the double quotient [t / k] is the floor
      of the quotient, the double being less than [1 / k] away from the
      quotient. *)

Definition msPerDay : Z := 86400000.
Definition msPerHour : Z := 3600000.
Definition msPerMinute : Z := 60000.
Definition msPerSecond : Z := 1000.

Definition Day (t : Z) : Z := t `div` msPerDay.
Definition TimeWithinDay (t : Z) : Z := t `mod` msPerDay.
Definition HourFromTime (t : Z) : Z := (t `div` msPerHour) `mod` 24.
Definition MinFromTime (t : Z) : Z := (t `div` msPerMinute) `mod` 60.
Definition SecFromTime (t : Z) : Z := (t `div` msPerSecond) `mod` 60.
Definition msFromTime (t : Z) : Z := t `mod` msPerSecond.

  (** [MakeTime]: NaN unless the four are finite, else
      [((h * msPerHour + m * msPerMinute) + s * msPerSecond) + milli] in
      the arithmetic of doubles. *)
Definition MakeTime (hour min sec ms : number) : number :=
    if is_finite hour && is_finite min && is_finite sec && is_finite ms
    then add (add (add (mul hour (Finite msPerHour))
                       (mul min (Finite msPerMinute)))
                  (mul sec (Finite msPerSecond)))
             ms
    else NaN.

  (** [MakeDate] of the day of a time value: NaN unless [time] is finite.
      The day is within 10^8 days of the epoch, so [day * msPerDay] is
      below 2^53; the sum is either below 2^53, and exact, or beyond the
      range of time values in the double as in the integer. *)
Definition MakeDate (day : Z) (time : number) : option Z :=
    match time with
    | Finite t => Some (day * msPerDay + t)
    | _ => None
    end.

Definition TimeClip (t : Z) : option Z :=
    if 8640000000000000 <? Z.abs t then None else Some t.

Section LocalTime.
Variable Date_parse : string → option Z.
Variable LocalTZA : Z → bool → Z.

    (** A time value and an offset are below 2^53 and so is their sum;
        the difference of [UTC] is below 2^53 or beyond the range of time
        values, and then NaN by [TimeClip]. *)
Definition LocalTime (t : Z) : Z := t + LocalTZA t true.
Definition UTC (t : Z) : Z := t - LocalTZA t false.

    (** [new Date(v)] for one argument. *)
Definition new_Date (v : value) : option Z :=
      match v with
      | Str s => Date_parse s ≫= TimeClip
      | Bool true => Some 1
      | Bool false => Some 0
      | Null => Some 0
      | Undefined => None
      end.

    (** [d.setHours(hour, min, sec, ms)]: the new time value of [d],
        [TimeClip(UTC(MakeDate(Day(LocalTime(t)), MakeTime(...))))]. *)
Definition setHours (d : option Z) (hour min sec ms : number) : option Z :=
      match d with
      | Some t =>
          match MakeDate (Day (LocalTime t)) (MakeTime hour min sec ms) with
          | Some date => TimeClip (UTC date)
          | None => None
          end
      | None => None
      end.

Definition finite (a : number) : option Z :=
      match a with
      | Finite n => Some n
      | _ => None
      end.

    (** [setHours] with every sum and product of [LocalTime], [MakeDate]
        and [UTC] rounded as a double too. *)
Definition setHours_IEEE (d : option Z) (hour min sec ms : number)
      : option Z :=
      t ← d;
      local ← finite (add (Finite t) (Finite (LocalTZA t true)));
      date ← finite (add (mul (Finite (Day local)) (Finite msPerDay))
                         (MakeTime hour min sec ms));
      u ← finite (add (Finite date) (Finite (- LocalTZA date false)));
      TimeClip u.

Definition getHours (t : Z) : Z := HourFromTime (LocalTime t).
Definition getMinutes (t : Z) : Z := MinFromTime (LocalTime t).
Definition getSeconds (t : Z) : Z := SecFromTime (LocalTime t).
Definition getMilliseconds (t : Z) : Z := msFromTime (LocalTime t).
End LocalTime.

End JS.


(** ** The database

    Modelled from the spec: the Prisma schema (schema.prisma) is not among
    the sources.  Tables and columns are the ones the controllers read and
    write.  The relations are the ones the controllers [include]; [email]
    and [token] are unique because the controllers call [findUnique] on
    them.  Defaults and enumerations follow the data model of the
    specification: a booking starts as AGENDADA, active flags start true,
    users carry creation and update times and results a publication
    time. *)

Module Usuario.
Record t := mk {
  nome : string; email : string; senhaHash : string;
  perfil : string; ativo : bool; criadoEm : Z; atualizadoEm : Z }.
End Usuario.

Module Consulta.
Record t := mk {
  pacienteId : string; medicoId : string;
  dia : Z; hora : string; dataHora : Z;
  detalhes : option string; status : string }.
Definition set_status (s : string) (c : t) : t :=
  mk (pacienteId c) (medicoId c) (dia c) (hora c) (dataHora c) (detalhes c) s.
Definition set_detalhes (d : option string) (c : t) : t :=
  mk (pacienteId c) (medicoId c) (dia c) (hora c) (dataHora c) d (status c).
End Consulta.

Module Exame.
Record t := mk {
  nome : string; pacienteId : string; medicoId : string;
  dia : Z; hora : string; dataHora : Z;
  detalhes : option string; status : string }.
Definition set_status (s : string) (e : t) : t :=
  mk (nome e) (pacienteId e) (medicoId e) (dia e) (hora e) (dataHora e)
     (detalhes e) s.
Definition set_detalhes (d : option string) (e : t) : t :=
  mk (nome e) (pacienteId e) (medicoId e) (dia e) (hora e) (dataHora e)
     d (status e).
End Exame.

Module ResultadoExame.
Record t := mk {
  exameId : string; pacienteId : string; medicoId : string;
  detalhes : option string; arquivoUrl : option string; publicadoEm : Z }.
End ResultadoExame.

Module PushToken.
Record t := mk {
  usuarioId : string; token : string; plataforma : string; ativo : bool }.
End PushToken.

Record DB := mkDB {
  usuario : gmap string Usuario.t;
  consulta : gmap string Consulta.t;
  exame : gmap string Exame.t;
  resultadoExame : gmap string ResultadoExame.t;
  pushToken : gmap string PushToken.t }.

Definition with_usuario (t : gmap string Usuario.t) (db : DB) : DB :=
  mkDB t (consulta db) (exame db) (resultadoExame db) (pushToken db).
Definition with_consulta (t : gmap string Consulta.t) (db : DB) : DB :=
  mkDB (usuario db) t (exame db) (resultadoExame db) (pushToken db).
Definition with_exame (t : gmap string Exame.t) (db : DB) : DB :=
  mkDB (usuario db) (consulta db) t (resultadoExame db) (pushToken db).
Definition with_resultadoExame (t : gmap string ResultadoExame.t) (db : DB)
  : DB :=
  mkDB (usuario db) (consulta db) (exame db) t (pushToken db).
Definition with_pushToken (t : gmap string PushToken.t) (db : DB) : DB :=
  mkDB (usuario db) (consulta db) (exame db) (resultadoExame db) t.

(** ** Awaited operations

    An awaited call reads and writes the database and either resolves to
    a value or rejects. *)

Inductive exn :=
| TypeError                     (* a method called on a non-string *)
| IllegalArguments              (* bcrypt.hash on a non-string *)
| PrismaClientValidationError   (* an argument of the wrong type *)
| P2002                         (* unique constraint failed *)
| P2003                         (* foreign key constraint failed *)
| P2025.                        (* record to update or delete not found *)

Definition Async (A : Type) : Type := DB → (exn + A) * DB.

Definition resolve {A} (a : A) : Async A := λ db, (inr a, db).
Definition throw {A} (e : exn) : Async A := λ db, (inl e, db).
Definition await {A B} (m : Async A) (k : A → Async B) : Async B :=
  λ db, match m db with
        | (inr a, db') => k a db'
        | (inl e, db') => (inl e, db')
        end.
Definition read : Async DB := λ db, (inr db, db).
Definition write (db' : DB) : Async unit := λ _, (inr tt, db').

Notation "'let*' x := m 'in' k" := (await m (λ x, k))
  (at level 10, x pattern, m at level 100, k at level 200).

(** Arguments as Prisma validates them before it touches the store. *)
Definition String_arg (v : JS.value) : Async string :=
  match v with
  | JS.Str s => resolve s
  | _ => throw PrismaClientValidationError
  end.

(** An optional column: [undefined] leaves it out, [null] stores null. *)
Definition optional_String_arg (v : JS.value) : Async (option string) :=
  match v with
  | JS.Str s => resolve (Some s)
  | JS.Undefined | JS.Null => resolve None
  | JS.Bool _ => throw PrismaClientValidationError
  end.

(** A [Date] argument must be a valid date. *)
Definition DateTime_arg (d : option Z) : Async Z :=
  match d with
  | Some t => resolve t
  | None => throw PrismaClientValidationError
  end.

Definition require (holds : bool) (e : exn) : Async unit :=
  if holds then resolve tt else throw e.

(** ** Requests and responses *)

Record Request := mkRequest {
  userId : string;               (* req.userId, set by authMiddleware *)
  userPerfil : string;           (* req.userPerfil *)
  params_id : string;            (* req.params.id *)
  body : gmap string JS.value }. (* req.body *)

(** [req.body.k]: a missing property reads as [undefined]. *)
Definition prop (r : Request) (k : string) : JS.value :=
  default JS.Undefined (body r !! k).

(** The columns picked by [select] in an [include]; a column that is not
    selected is [None], and so is a relation that is not included. *)
Record UserRef := mkUserRef {
  ref_id : string; ref_nome : string; ref_email : option string }.

Record ExameRef := mkExameRef {
  ex_id : string; ex_nome : string;
  ex_dia : option Z; ex_hora : option string }.

Record ConsultaView := mkConsultaView {
  consulta_id : string;
  consulta_row : Consulta.t;
  consulta_paciente : option UserRef;
  consulta_medico : option UserRef }.

Record ExameView := mkExameView {
  exame_id : string;
  exame_row : Exame.t;
  exame_paciente : option UserRef;
  exame_medico : option UserRef;
  exame_resultados : option (list (string * ResultadoExame.t)) }.

Record ResultadoView := mkResultadoView {
  resultado_id : string;
  resultado_row : ResultadoExame.t;
  resultado_exame : option ExameRef;
  resultado_paciente : option UserRef;
  resultado_medico : option UserRef }.

Record UsuarioView := mkUsuarioView {
  view_id : string; view_nome : string; view_email : string;
  view_perfil : string; view_ativo : option bool;
  view_criadoEm : option Z; view_atualizadoEm : option Z }.

Inductive Body :=
| Error (code message : string)
| Message (message : string)
| OneConsulta (message : option string) (c : ConsultaView)
| ManyConsultas (l : list ConsultaView)
| OneExame (message : option string) (e : ExameView)
| ManyExames (l : list ExameView)
| OneResultado (message : option string) (r : ResultadoView)
| ManyResultados (l : list ResultadoView)
| OnePushToken (message : string) (id : string) (p : PushToken.t)
| OneUsuario (message : string) (u : UsuarioView).

Record Response := mkResponse { status : Z; json : Body }.

(** [return res.status(n).json(b)] and [return res.json(b)]. *)
Definition respond (n : Z) (b : Body) : Async Response :=
  resolve (mkResponse n b).
Definition ok (b : Body) : Async Response := respond 200 b.

(** [try { ... } catch (error) { return res.status(500).json(...) }]. *)
Definition try_catch (block : Async Response) (message : string)
  : DB → Response * DB :=
  λ db, match block db with
        | (inr r, db') => (r, db')
        | (inl _, db') =>
            (mkResponse 500 (Error "INTERNAL_SERVER_ERROR" message), db')
        end.

(** ** Prisma client operations *)

Definition statusValidos : list string :=
  ["AGENDADA"; "REALIZADA"; "CANCELADA"; "NAO_COMPARECEU"].
Definition perfisValidos : list string :=
  ["ADMIN"; "PACIENTE"; "ATENDENTE"; "MEDICO"].
Definition plataformasValidas : list string := ["ios"; "android"; "web"].

(** [prisma.<model>.findUnique({ where: { id } })]. *)
Definition findUnique {A} (table : DB → gmap string A) (id : JS.value)
  : Async (option A) :=
  let* id := String_arg id in
  let* db := read in
  resolve (table db !! id).

(** [prisma.<model>.findFirst({ where })]: the first row in the order the
    store yields them. *)
Definition findFirst {A} (table : DB → gmap string A)
    (P : string * A → Prop) `{∀ r, Decision (P r)}
  : Async (option (string * A)) :=
  let* db := read in
  resolve (head (filter P (map_to_list (table db)))).

(** [prisma.<model>.findMany({ where, orderBy })]; [R] is the order. *)
Definition findMany {A} (table : DB → gmap string A)
    (P : string * A → Prop) `{∀ r, Decision (P r)}
    (R : relation (string * A)) `{∀ x y, Decision (R x y)}
  : Async (list (string * A)) :=
  let* db := read in
  resolve (merge_sort R (filter P (map_to_list (table db)))).

(** [include]: the joined view of what the operation returns. *)
Definition including {A B} (view : DB → A → B) (m : Async A) : Async B :=
  let* a := m in
  let* db := read in
  resolve (view db a).

(** A key of a [where] or [data] object; an absent key constrains and
    changes nothing. *)
Definition where_field (w : gmap string string) (k : string) (x : string)
  : Prop :=
  match w !! k with
  | Some y => x = y
  | None => True
  end.

#[global] Instance where_field_dec w k x : Decision (where_field w k x).
Proof. unfold where_field. destruct (w !! k); apply _. Defined.

Definition data_field (data : gmap string JS.value) (k : string) : JS.value :=
  default JS.Undefined (data !! k).

(** A required [String] column of [data]: kept when the key is absent. *)
Definition set_String (v : JS.value) (old : string) : Async string :=
  match v with
  | JS.Undefined => resolve old
  | JS.Str s => resolve s
  | _ => throw PrismaClientValidationError
  end.

(** A column of an enumerated type. *)
Definition set_enum (values : list string) (v : JS.value) (old : string)
  : Async string :=
  match v with
  | JS.Undefined => resolve old
  | JS.Str s =>
      if bool_decide (s ∈ values) then resolve s
      else throw PrismaClientValidationError
  | _ => throw PrismaClientValidationError
  end.

(** An optional [String?] column. *)
Definition set_optional_String (v : JS.value) (old : option string)
  : Async (option string) :=
  match v with
  | JS.Undefined => resolve old
  | JS.Null => resolve None
  | JS.Str s => resolve (Some s)
  | JS.Bool _ => throw PrismaClientValidationError
  end.

Definition set_Boolean (v : JS.value) (old : bool) : Async bool :=
  match v with
  | JS.Undefined => resolve old
  | JS.Bool b => resolve b
  | _ => throw PrismaClientValidationError
  end.

(** [paciente: { select: { id: true, nome: true, email: true } }]. *)
Definition select_usuario (with_email : bool) (db : DB) (id : string)
  : option UserRef :=
  (λ u, mkUserRef id (Usuario.nome u)
          (if with_email then Some (Usuario.email u) else None))
    <$> usuario db !! id.

Definition consulta_include (db : DB) (r : string * Consulta.t)
  : ConsultaView :=
  mkConsultaView r.1 r.2
    (select_usuario true db (Consulta.pacienteId r.2))
    (select_usuario true db (Consulta.medicoId r.2)).

Definition consulta_plain (db : DB) (r : string * Consulta.t)
  : ConsultaView :=
  mkConsultaView r.1 r.2 None None.

Definition of_exame (id : string) (r : string * ResultadoExame.t) : Prop :=
  ResultadoExame.exameId r.2 = id.

#[global] Instance of_exame_dec id r : Decision (of_exame id r).
Proof. unfold of_exame. apply _. Defined.

(** [resultados: true] joins every result row of the exam. *)
Definition exame_include (resultados : bool) (db : DB) (r : string * Exame.t)
  : ExameView :=
  mkExameView r.1 r.2
    (select_usuario true db (Exame.pacienteId r.2))
    (select_usuario true db (Exame.medicoId r.2))
    (if resultados
     then Some (filter (of_exame r.1) (map_to_list (resultadoExame db)))
     else None).

Definition exame_plain (db : DB) (r : string * Exame.t) : ExameView :=
  mkExameView r.1 r.2 None None None.

Definition resultado_include (with_date : bool) (db : DB)
    (r : string * ResultadoExame.t) : ResultadoView :=
  mkResultadoView r.1 r.2
    ((λ e, mkExameRef (ResultadoExame.exameId r.2) (Exame.nome e)
             (if with_date then Some (Exame.dia e) else None)
             (if with_date then Some (Exame.hora e) else None))
       <$> exame db !! ResultadoExame.exameId r.2)
    (select_usuario true db (ResultadoExame.pacienteId r.2))
    (select_usuario false db (ResultadoExame.medicoId r.2)).

(** [where: { medicoId, dataHora }]. *)
Definition consulta_slot (medicoId : string) (dataHora : Z)
    (r : string * Consulta.t) : Prop :=
  Consulta.medicoId r.2 = medicoId ∧ Consulta.dataHora r.2 = dataHora.
Definition exame_slot (medicoId : string) (dataHora : Z)
    (r : string * Exame.t) : Prop :=
  Exame.medicoId r.2 = medicoId ∧ Exame.dataHora r.2 = dataHora.

#[global] Instance consulta_slot_dec m t r : Decision (consulta_slot m t r).
Proof. unfold consulta_slot. apply _. Defined.
#[global] Instance exame_slot_dec m t r : Decision (exame_slot m t r).
Proof. unfold exame_slot. apply _. Defined.

(** [prisma.consulta.findFirst({ where: { medicoId, dataHora } })]. *)
Definition consulta_findFirst_slot (medicoId : JS.value) (dataHora : option Z)
  : Async (option (string * Consulta.t)) :=
  let* medicoId := String_arg medicoId in
  let* dataHora := DateTime_arg dataHora in
  findFirst consulta (consulta_slot medicoId dataHora).

(** [prisma.exame.findFirst({ where: { medicoId, dataHora } })]. *)
Definition exame_findFirst_slot (medicoId : JS.value) (dataHora : option Z)
  : Async (option (string * Exame.t)) :=
  let* medicoId := String_arg medicoId in
  let* dataHora := DateTime_arg dataHora in
  findFirst exame (exame_slot medicoId dataHora).

Definition has_token (token : string) (r : string * PushToken.t) : Prop :=
  PushToken.token r.2 = token.
Definition has_email (email : string) (r : string * Usuario.t) : Prop :=
  Usuario.email r.2 = email.
Definition other_with_email (id email : string) (r : string * Usuario.t)
  : Prop :=
  Usuario.email r.2 = email ∧ r.1 ≠ id.

#[global] Instance has_token_dec token r : Decision (has_token token r).
Proof. unfold has_token. apply _. Defined.
#[global] Instance has_email_dec email r : Decision (has_email email r).
Proof. unfold has_email. apply _. Defined.
#[global] Instance other_with_email_dec id email r :
  Decision (other_with_email id email r).
Proof. unfold other_with_email. apply _. Defined.

(** [prisma.pushToken.findUnique({ where: { token } })]. *)
Definition pushToken_findUnique_token (token : JS.value)
  : Async (option (string * PushToken.t)) :=
  let* token := String_arg token in
  findFirst pushToken (has_token token).

(** [prisma.usuario.findUnique({ where: { email } })]. *)
Definition usuario_findUnique_email (email : JS.value)
  : Async (option (string * Usuario.t)) :=
  let* email := String_arg email in
  findFirst usuario (has_email email).

Definition foreign_key {A} (table : DB → gmap string A) (id : string)
  : Async unit :=
  let* db := read in
  require (bool_decide (is_Some (table db !! id))) P2003.

Definition fresh_key {A} (table : DB → gmap string A) (id : string)
  : Async unit :=
  let* db := read in
  require (bool_decide (table db !! id = None)) P2002.

(** [prisma.consulta.update({ where: { id }, data })]. *)
Definition consulta_update (id : JS.value) (data : gmap string JS.value)
  : Async (string * Consulta.t) :=
  let* id := String_arg id in
  let* db := read in
  match consulta db !! id with
  | None => throw P2025
  | Some c =>
      let* status :=
        set_enum statusValidos (data_field data "status") (Consulta.status c) in
      let* detalhes :=
        set_optional_String (data_field data "detalhes") (Consulta.detalhes c) in
      let row := Consulta.set_detalhes detalhes (Consulta.set_status status c) in
      let* _ := write (with_consulta (<[id := row]> (consulta db)) db) in
      resolve (id, row)
  end.

(** [prisma.exame.update({ where: { id }, data })]. *)
Definition exame_update (id : JS.value) (data : gmap string JS.value)
  : Async (string * Exame.t) :=
  let* id := String_arg id in
  let* db := read in
  match exame db !! id with
  | None => throw P2025
  | Some e =>
      let* status :=
        set_enum statusValidos (data_field data "status") (Exame.status e) in
      let* detalhes :=
        set_optional_String (data_field data "detalhes") (Exame.detalhes e) in
      let row := Exame.set_detalhes detalhes (Exame.set_status status e) in
      let* _ := write (with_exame (<[id := row]> (exame db)) db) in
      resolve (id, row)
  end.

(** [prisma.pushToken.update({ where: { token }, data: { usuarioId,
    plataforma, ativo } })]. *)
Definition pushToken_update_token (token usuarioId plataforma ativo : JS.value)
  : Async (string * PushToken.t) :=
  let* found := pushToken_findUnique_token token in
  match found with
  | None => throw P2025
  | Some (id, p) =>
      let* usuarioId := set_String usuarioId (PushToken.usuarioId p) in
      let* plataforma :=
        set_enum plataformasValidas plataforma (PushToken.plataforma p) in
      let* ativo := set_Boolean ativo (PushToken.ativo p) in
      let row := PushToken.mk usuarioId (PushToken.token p) plataforma ativo in
      let* db := read in
      let* _ := write (with_pushToken (<[id := row]> (pushToken db)) db) in
      resolve (id, row)
  end.

(** [prisma.pushToken.delete({ where: { id } })]. *)
Definition pushToken_delete (id : JS.value) : Async (string * PushToken.t) :=
  let* id := String_arg id in
  let* db := read in
  match pushToken db !! id with
  | None => throw P2025
  | Some p =>
      let* _ := write (with_pushToken (delete id (pushToken db)) db) in
      resolve (id, p)
  end.

Section Prisma.

(** The generated primary key and the clock of the store. *)
Variable cuid : DB → string.
Variable now : DB → Z.

(** [prisma.consulta.create({ data })]. *)
Definition consulta_create (pacienteId medicoId : JS.value) (dia : option Z)
    (hora : JS.value) (dataHora : option Z) (detalhes : JS.value)
  : Async (string * Consulta.t) :=
  let* pacienteId := String_arg pacienteId in
  let* medicoId := String_arg medicoId in
  let* dia := DateTime_arg dia in
  let* hora := String_arg hora in
  let* dataHora := DateTime_arg dataHora in
  let* detalhes := optional_String_arg detalhes in
  let* _ := foreign_key usuario pacienteId in
  let* _ := foreign_key usuario medicoId in
  let* db := read in
  let id := cuid db in
  let row := Consulta.mk pacienteId medicoId dia hora dataHora detalhes
               "AGENDADA" in
  let* _ := fresh_key consulta id in
  let* _ := write (with_consulta (<[id := row]> (consulta db)) db) in
  resolve (id, row).

(** [prisma.exame.create({ data })]. *)
Definition exame_create (nome pacienteId medicoId : JS.value)
    (dia : option Z) (hora : JS.value) (dataHora : option Z)
    (detalhes : JS.value) : Async (string * Exame.t) :=
  let* nome := String_arg nome in
  let* pacienteId := String_arg pacienteId in
  let* medicoId := String_arg medicoId in
  let* dia := DateTime_arg dia in
  let* hora := String_arg hora in
  let* dataHora := DateTime_arg dataHora in
  let* detalhes := optional_String_arg detalhes in
  let* _ := foreign_key usuario pacienteId in
  let* _ := foreign_key usuario medicoId in
  let* db := read in
  let id := cuid db in
  let row := Exame.mk nome pacienteId medicoId dia hora dataHora detalhes
               "AGENDADA" in
  let* _ := fresh_key exame id in
  let* _ := write (with_exame (<[id := row]> (exame db)) db) in
  resolve (id, row).

(** [prisma.resultadoExame.create({ data })]. *)
Definition resultadoExame_create
    (exameId pacienteId medicoId detalhes arquivoUrl : JS.value)
  : Async (string * ResultadoExame.t) :=
  let* exameId := String_arg exameId in
  let* pacienteId := String_arg pacienteId in
  let* medicoId := String_arg medicoId in
  let* detalhes := optional_String_arg detalhes in
  let* arquivoUrl := optional_String_arg arquivoUrl in
  let* _ := foreign_key exame exameId in
  let* _ := foreign_key usuario pacienteId in
  let* _ := foreign_key usuario medicoId in
  let* db := read in
  let id := cuid db in
  let row := ResultadoExame.mk exameId pacienteId medicoId detalhes
               arquivoUrl (now db) in
  let* _ := fresh_key resultadoExame id in
  let* _ := write (with_resultadoExame (<[id := row]> (resultadoExame db)) db) in
  resolve (id, row).

(** [prisma.pushToken.create({ data: { usuarioId, token, plataforma } })]. *)
Definition pushToken_create (usuarioId token plataforma : JS.value)
  : Async (string * PushToken.t) :=
  let* usuarioId := String_arg usuarioId in
  let* token := String_arg token in
  let* plataforma := set_enum plataformasValidas plataforma "" in
  let* taken := findFirst pushToken (has_token token) in
  let* _ := require (bool_decide (taken = None)) P2002 in
  let* db := read in
  let id := cuid db in
  let row := PushToken.mk usuarioId token plataforma true in
  let* _ := fresh_key pushToken id in
  let* _ := write (with_pushToken (<[id := row]> (pushToken db)) db) in
  resolve (id, row).

(** [prisma.usuario.create({ data: { nome, email, senhaHash, perfil } })]. *)
Definition usuario_create (nome email senhaHash perfil : JS.value)
  : Async (string * Usuario.t) :=
  let* nome := String_arg nome in
  let* email := String_arg email in
  let* senhaHash := String_arg senhaHash in
  let* perfil := set_enum perfisValidos perfil "" in
  let* taken := findFirst usuario (has_email email) in
  let* _ := require (bool_decide (taken = None)) P2002 in
  let* db := read in
  let id := cuid db in
  let row := Usuario.mk nome email senhaHash perfil true (now db) (now db) in
  let* _ := fresh_key usuario id in
  let* _ := write (with_usuario (<[id := row]> (usuario db)) db) in
  resolve (id, row).

(** [prisma.usuario.update({ where: { id }, data })]. *)
Definition usuario_update (id : JS.value) (data : gmap string JS.value)
  : Async (string * Usuario.t) :=
  let* id := String_arg id in
  let* db := read in
  match usuario db !! id with
  | None => throw P2025
  | Some u =>
      let* nome := set_String (data_field data "nome") (Usuario.nome u) in
      let* email := set_String (data_field data "email") (Usuario.email u) in
      let* perfil :=
        set_enum perfisValidos (data_field data "perfil") (Usuario.perfil u) in
      let* ativo := set_Boolean (data_field data "ativo") (Usuario.ativo u) in
      let* senhaHash :=
        set_String (data_field data "senhaHash") (Usuario.senhaHash u) in
      let* taken := findFirst usuario (other_with_email id email) in
      let* _ := require (bool_decide (taken = None)) P2002 in
      let row := Usuario.mk nome email senhaHash perfil ativo
                   (Usuario.criadoEm u) (now db) in
      let* _ := write (with_usuario (<[id := row]> (usuario db)) db) in
      resolve (id, row)
  end.

End Prisma.

(** ** Controllers

    The messages of the responses are transliterated to ASCII. *)

Definition Handler : Type := Request → DB → Response * DB.

(** [hora.split(':')]: a method of strings only. *)
Definition split_method (v : JS.value) (sep : ascii) : Async (list string) :=
  match v with
  | JS.Str s => resolve (JS.split sep s)
  | _ => throw TypeError
  end.

(** [senha.length < n]: a boolean has no [length], and [undefined < n] is
    false. *)
Definition length_lt (v : JS.value) (n : Z) : Async bool :=
  match v with
  | JS.Str s => resolve (Z.of_nat (String.length s) <? n)
  | JS.Bool _ => resolve false
  | JS.Undefined | JS.Null => throw TypeError
  end.

Definition is_PACIENTE (req : Request) : bool :=
  String.eqb (userPerfil req) "PACIENTE".
Definition is_MEDICO (req : Request) : bool :=
  String.eqb (userPerfil req) "MEDICO".

(** [let whereClause = {}; if (PACIENTE) whereClause.pacienteId = userId;
    else if (MEDICO) whereClause.medicoId = userId]. *)
Definition whereClause (req : Request) : gmap string string :=
  if is_PACIENTE req then <["pacienteId" := userId req]> ∅
  else if is_MEDICO req then <["medicoId" := userId req]> ∅
  else ∅.

Definition consulta_where (w : gmap string string) (r : string * Consulta.t)
  : Prop :=
  where_field w "pacienteId" (Consulta.pacienteId r.2)
  ∧ where_field w "medicoId" (Consulta.medicoId r.2).
Definition exame_where (w : gmap string string) (r : string * Exame.t)
  : Prop :=
  where_field w "pacienteId" (Exame.pacienteId r.2)
  ∧ where_field w "medicoId" (Exame.medicoId r.2).
Definition resultado_where (w : gmap string string)
    (r : string * ResultadoExame.t) : Prop :=
  where_field w "pacienteId" (ResultadoExame.pacienteId r.2)
  ∧ where_field w "medicoId" (ResultadoExame.medicoId r.2).

#[global] Instance consulta_where_dec w r : Decision (consulta_where w r).
Proof. unfold consulta_where. apply _. Defined.
#[global] Instance exame_where_dec w r : Decision (exame_where w r).
Proof. unfold exame_where. apply _. Defined.
#[global] Instance resultado_where_dec w r : Decision (resultado_where w r).
Proof. unfold resultado_where. apply _. Defined.

(** [orderBy: { dataHora: 'asc' }] and [orderBy: { publicadoEm: 'desc' }]. *)
Definition consulta_dataHora_asc : relation (string * Consulta.t) :=
  λ a b, Consulta.dataHora a.2 ≤ Consulta.dataHora b.2.
Definition exame_dataHora_asc : relation (string * Exame.t) :=
  λ a b, Exame.dataHora a.2 ≤ Exame.dataHora b.2.
Definition resultado_publicadoEm_desc : relation (string * ResultadoExame.t) :=
  λ a b, ResultadoExame.publicadoEm b.2 ≤ ResultadoExame.publicadoEm a.2.

#[global] Instance consulta_dataHora_asc_dec a b :
  Decision (consulta_dataHora_asc a b).
Proof. unfold consulta_dataHora_asc. apply _. Defined.
#[global] Instance exame_dataHora_asc_dec a b :
  Decision (exame_dataHora_asc a b).
Proof. unfold exame_dataHora_asc. apply _. Defined.
#[global] Instance resultado_publicadoEm_desc_dec a b :
  Decision (resultado_publicadoEm_desc a b).
Proof. unfold resultado_publicadoEm_desc. apply _. Defined.

(** [const dadosAtualizacao = {}; if (status) { ... } if (detalhes !==
    undefined) ...]: [None] when the status is not one of the valid ones. *)
Definition dadosAtualizacao (status detalhes : JS.value)
  : option (gmap string JS.value) :=
  let dados : gmap string JS.value := ∅ in
  if JS.truthy status && negb (JS.includes statusValidos status) then None
  else
    let dados := if JS.truthy status then <["status" := status]> dados
                 else dados in
    let dados := if JS.strict_ne detalhes JS.Undefined
                 then <["detalhes" := detalhes]> dados else dados in
    Some dados.

Definition set_if (cond : bool) (k : string) (v : JS.value)
    (dados : gmap string JS.value) : gmap string JS.value :=
  if cond then <[k := v]> dados else dados.

Section Controllers.

Variable Date_parse : string → option Z.
Variable LocalTZA : Z → bool → Z.
Variable bcrypt_hash : string → string.
Variable cuid : DB → string.
Variable now : DB → Z.

(** [const [horas, minutos] = parts; const dataHora = new Date(dia);
    dataHora.setHours(parseInt(horas), parseInt(minutos), 0, 0)]. *)
Definition dataHora_from (dia : JS.value) (parts : list string) : option Z :=
  let horas := JS.element parts 0 in
  let minutos := JS.element parts 1 in
  let dataHora := JS.new_Date Date_parse dia in
  JS.setHours LocalTZA dataHora (JS.parseInt horas) (JS.parseInt minutos)
    (JS.Finite 0) (JS.Finite 0).

Definition combine (dia hora : JS.value) : Async (option Z) :=
  let* parts := split_method hora ":" in
  resolve (dataHora_from dia parts).

(** *** consultaController.js *)

Definition createConsulta : Handler := λ req,
  try_catch
    (let pacienteId := prop req "pacienteId" in
     let medicoId := prop req "medicoId" in
     let dia := prop req "dia" in
     let hora := prop req "hora" in
     let detalhes := prop req "detalhes" in
     if negb (JS.truthy pacienteId) || negb (JS.truthy medicoId)
        || negb (JS.truthy dia) || negb (JS.truthy hora)
     then respond 400 (Error "VALIDATION_ERROR"
                         "Paciente, medico, dia e hora sao obrigatorios")
     else if is_PACIENTE req && JS.strict_ne pacienteId (JS.Str (userId req))
     then respond 403 (Error "AUTH_FORBIDDEN"
                         "Voce so pode agendar consultas para si mesmo")
     else
       let* medico := findUnique usuario medicoId in
       if (if medico is Some m
           then negb (String.eqb (Usuario.perfil m) "MEDICO") else true)
       then respond 400 (Error "VALIDATION_ERROR" "Medico invalido")
       else
         let* paciente := findUnique usuario pacienteId in
         if paciente is None
         then respond 400 (Error "VALIDATION_ERROR" "Paciente nao encontrado")
         else
           let* dataHora := combine dia hora in
           let* consultaExistente :=
             consulta_findFirst_slot medicoId dataHora in
           if consultaExistente is Some _
           then respond 409 (Error "SLOT_UNAVAILABLE"
                               "Horario indisponivel para este medico")
           else
             let* consulta :=
               including consulta_include
                 (consulta_create cuid pacienteId medicoId
                    (JS.new_Date Date_parse dia) hora dataHora detalhes) in
             respond 201
               (OneConsulta (Some "Consulta agendada com sucesso") consulta))
    "Erro ao criar consulta".

Definition listConsultas : Handler := λ req,
  try_catch
    (let* consultas :=
       findMany consulta (consulta_where (whereClause req))
         consulta_dataHora_asc in
     let* db := read in
     ok (ManyConsultas (consulta_include db <$> consultas)))
    "Erro ao listar consultas".

Definition getConsulta : Handler := λ req,
  try_catch
    (let id := params_id req in
     let* consulta := findUnique consulta (JS.Str id) in
     match consulta with
     | None => respond 404 (Error "RESOURCE_NOT_FOUND" "Consulta nao encontrada")
     | Some consulta =>
         if is_PACIENTE req
            && negb (String.eqb (Consulta.pacienteId consulta) (userId req))
         then respond 403
                (Error "AUTH_FORBIDDEN"
                   "Voce nao tem permissao para acessar esta consulta")
         else if is_MEDICO req
                 && negb (String.eqb (Consulta.medicoId consulta) (userId req))
         then respond 403
                (Error "AUTH_FORBIDDEN"
                   "Voce nao tem permissao para acessar esta consulta")
         else
           let* db := read in
           ok (OneConsulta None (consulta_include db (id, consulta)))
     end)
    "Erro ao buscar consulta".

Definition updateConsulta : Handler := λ req,
  try_catch
    (let id := params_id req in
     let status := prop req "status" in
     let detalhes := prop req "detalhes" in
     let* consulta := findUnique consulta (JS.Str id) in
     match consulta with
     | None => respond 404 (Error "RESOURCE_NOT_FOUND" "Consulta nao encontrada")
     | Some consulta =>
         if is_PACIENTE req
            && negb (String.eqb (Consulta.pacienteId consulta) (userId req))
         then respond 403
                (Error "AUTH_FORBIDDEN"
                   "Voce nao tem permissao para atualizar esta consulta")
         else if is_MEDICO req
                 && negb (String.eqb (Consulta.medicoId consulta) (userId req))
         then respond 403
                (Error "AUTH_FORBIDDEN"
                   "Voce nao tem permissao para atualizar esta consulta")
         else
           match dadosAtualizacao status detalhes with
           | None => respond 400 (Error "VALIDATION_ERROR" "Status invalido")
           | Some dados =>
               let* consultaAtualizada :=
                 including consulta_include
                   (consulta_update (JS.Str id) dados) in
               ok (OneConsulta (Some "Consulta atualizada com sucesso")
                     consultaAtualizada)
           end
     end)
    "Erro ao atualizar consulta".

Definition deleteConsulta : Handler := λ req,
  try_catch
    (let id := params_id req in
     let* consulta := findUnique consulta (JS.Str id) in
     match consulta with
     | None => respond 404 (Error "RESOURCE_NOT_FOUND" "Consulta nao encontrada")
     | Some consulta =>
         if is_PACIENTE req
            && negb (String.eqb (Consulta.pacienteId consulta) (userId req))
         then respond 403
                (Error "AUTH_FORBIDDEN"
                   "Voce nao tem permissao para cancelar esta consulta")
         else
           let* consultaCancelada :=
             including consulta_plain
               (consulta_update (JS.Str id)
                  {["status" := JS.Str "CANCELADA"]}) in
           ok (OneConsulta (Some "Consulta cancelada com sucesso")
                 consultaCancelada)
     end)
    "Erro ao cancelar consulta".

(** *** exameController.js *)

Definition createExame : Handler := λ req,
  try_catch
    (let nome := prop req "nome" in
     let pacienteId := prop req "pacienteId" in
     let medicoId := prop req "medicoId" in
     let dia := prop req "dia" in
     let hora := prop req "hora" in
     let detalhes := prop req "detalhes" in
     if negb (JS.truthy nome) || negb (JS.truthy pacienteId)
        || negb (JS.truthy medicoId) || negb (JS.truthy dia)
        || negb (JS.truthy hora)
     then respond 400 (Error "VALIDATION_ERROR"
                         "Nome, paciente, medico, dia e hora sao obrigatorios")
     else if is_PACIENTE req && JS.strict_ne pacienteId (JS.Str (userId req))
     then respond 403 (Error "AUTH_FORBIDDEN"
                         "Voce so pode agendar exames para si mesmo")
     else
       let* medico := findUnique usuario medicoId in
       if (if medico is Some m
           then negb (String.eqb (Usuario.perfil m) "MEDICO") else true)
       then respond 400 (Error "VALIDATION_ERROR" "Medico invalido")
       else
         let* paciente := findUnique usuario pacienteId in
         if paciente is None
         then respond 400 (Error "VALIDATION_ERROR" "Paciente nao encontrado")
         else
           let* dataHora := combine dia hora in
           let* exameExistente := exame_findFirst_slot medicoId dataHora in
           if exameExistente is Some _
           then respond 409 (Error "SLOT_UNAVAILABLE"
                               "Horario indisponivel para este medico")
           else
             let* exame :=
               including (exame_include false)
                 (exame_create cuid nome pacienteId medicoId
                    (JS.new_Date Date_parse dia) hora dataHora detalhes) in
             respond 201 (OneExame (Some "Exame agendado com sucesso") exame))
    "Erro ao criar exame".

Definition listExames : Handler := λ req,
  try_catch
    (let* exames :=
       findMany exame (exame_where (whereClause req)) exame_dataHora_asc in
     let* db := read in
     ok (ManyExames (exame_include false db <$> exames)))
    "Erro ao listar exames".

Definition getExame : Handler := λ req,
  try_catch
    (let id := params_id req in
     let* exame := findUnique exame (JS.Str id) in
     match exame with
     | None => respond 404 (Error "RESOURCE_NOT_FOUND" "Exame nao encontrado")
     | Some exame =>
         if is_PACIENTE req
            && negb (String.eqb (Exame.pacienteId exame) (userId req))
         then respond 403
                (Error "AUTH_FORBIDDEN"
                   "Voce nao tem permissao para acessar este exame")
         else if is_MEDICO req
                 && negb (String.eqb (Exame.medicoId exame) (userId req))
         then respond 403
                (Error "AUTH_FORBIDDEN"
                   "Voce nao tem permissao para acessar este exame")
         else
           let* db := read in
           ok (OneExame None (exame_include true db (id, exame)))
     end)
    "Erro ao buscar exame".

Definition updateExame : Handler := λ req,
  try_catch
    (let id := params_id req in
     let status := prop req "status" in
     let detalhes := prop req "detalhes" in
     let* exame := findUnique exame (JS.Str id) in
     match exame with
     | None => respond 404 (Error "RESOURCE_NOT_FOUND" "Exame nao encontrado")
     | Some exame =>
         if is_PACIENTE req
            && negb (String.eqb (Exame.pacienteId exame) (userId req))
         then respond 403
                (Error "AUTH_FORBIDDEN"
                   "Voce nao tem permissao para atualizar este exame")
         else if is_MEDICO req
                 && negb (String.eqb (Exame.medicoId exame) (userId req))
         then respond 403
                (Error "AUTH_FORBIDDEN"
                   "Voce nao tem permissao para atualizar este exame")
         else
           match dadosAtualizacao status detalhes with
           | None => respond 400 (Error "VALIDATION_ERROR" "Status invalido")
           | Some dados =>
               let* exameAtualizado :=
                 including (exame_include false)
                   (exame_update (JS.Str id) dados) in
               ok (OneExame (Some "Exame atualizado com sucesso")
                     exameAtualizado)
           end
     end)
    "Erro ao atualizar exame".

Definition deleteExame : Handler := λ req,
  try_catch
    (let id := params_id req in
     let* exame := findUnique exame (JS.Str id) in
     match exame with
     | None => respond 404 (Error "RESOURCE_NOT_FOUND" "Exame nao encontrado")
     | Some exame =>
         if is_PACIENTE req
            && negb (String.eqb (Exame.pacienteId exame) (userId req))
         then respond 403
                (Error "AUTH_FORBIDDEN"
                   "Voce nao tem permissao para cancelar este exame")
         else
           let* exameCancelado :=
             including exame_plain
               (exame_update (JS.Str id)
                  {["status" := JS.Str "CANCELADA"]}) in
           ok (OneExame (Some "Exame cancelado com sucesso") exameCancelado)
     end)
    "Erro ao cancelar exame".

(** *** resultadoController.js *)

Definition createResultado : Handler := λ req,
  try_catch
    (let exameId := prop req "exameId" in
     let pacienteId := prop req "pacienteId" in
     let medicoId := prop req "medicoId" in
     let detalhes := prop req "detalhes" in
     let arquivoUrl := prop req "arquivoUrl" in
     if negb (JS.truthy exameId) || negb (JS.truthy pacienteId)
        || negb (JS.truthy medicoId)
     then respond 400 (Error "VALIDATION_ERROR"
                         "Exame, paciente e medico sao obrigatorios")
     else if negb (JS.includes ["MEDICO"; "ADMIN"] (JS.Str (userPerfil req)))
     then respond 403
            (Error "AUTH_FORBIDDEN"
               "Apenas medicos e administradores podem criar resultados")
     else
       let* exame := findUnique exame exameId in
       if exame is None
       then respond 404 (Error "RESOURCE_NOT_FOUND" "Exame nao encontrado")
       else
         let* resultado :=
           including (resultado_include false)
             (resultadoExame_create cuid now exameId pacienteId medicoId
                detalhes arquivoUrl) in
         respond 201 (OneResultado (Some "Resultado criado com sucesso")
                        resultado))
    "Erro ao criar resultado".

Definition listResultados : Handler := λ req,
  try_catch
    (let* resultados :=
       findMany resultadoExame (resultado_where (whereClause req))
         resultado_publicadoEm_desc in
     let* db := read in
     ok (ManyResultados (resultado_include true db <$> resultados)))
    "Erro ao listar resultados".

Definition getResultado : Handler := λ req,
  try_catch
    (let id := params_id req in
     let* resultado := findUnique resultadoExame (JS.Str id) in
     match resultado with
     | None =>
         respond 404 (Error "RESOURCE_NOT_FOUND" "Resultado nao encontrado")
     | Some resultado =>
         if is_PACIENTE req
            && negb (String.eqb (ResultadoExame.pacienteId resultado)
                       (userId req))
         then respond 403
                (Error "AUTH_FORBIDDEN"
                   "Voce nao tem permissao para acessar este resultado")
         else if is_MEDICO req
                 && negb (String.eqb (ResultadoExame.medicoId resultado)
                            (userId req))
         then respond 403
                (Error "AUTH_FORBIDDEN"
                   "Voce nao tem permissao para acessar este resultado")
         else
           let* db := read in
           ok (OneResultado None (resultado_include true db (id, resultado)))
     end)
    "Erro ao buscar resultado".

(** *** pushTokenController.js *)

Definition registerPushToken : Handler := λ req,
  try_catch
    (let token := prop req "token" in
     let plataforma := prop req "plataforma" in
     if negb (JS.truthy token) || negb (JS.truthy plataforma)
     then respond 400 (Error "VALIDATION_ERROR"
                         "Token e plataforma sao obrigatorios")
     else if negb (JS.includes plataformasValidas plataforma)
     then respond 400 (Error "VALIDATION_ERROR" "Plataforma invalida")
     else
       let* tokenExistente := pushToken_findUnique_token token in
       if tokenExistente is Some _
       then
         let* pushToken :=
           pushToken_update_token token (JS.Str (userId req)) plataforma
             (JS.Bool true) in
         ok (OnePushToken "Token atualizado com sucesso"
               pushToken.1 pushToken.2)
       else
         let* pushToken :=
           pushToken_create cuid (JS.Str (userId req)) token plataforma in
         respond 201 (OnePushToken "Token registrado com sucesso"
                        pushToken.1 pushToken.2))
    "Erro ao registrar push token".

Definition deletePushToken : Handler := λ req,
  try_catch
    (let id := params_id req in
     let* pushToken := findUnique pushToken (JS.Str id) in
     match pushToken with
     | None => respond 404 (Error "RESOURCE_NOT_FOUND" "Token nao encontrado")
     | Some pushToken =>
         if negb (String.eqb (PushToken.usuarioId pushToken) (userId req))
         then respond 403
                (Error "AUTH_FORBIDDEN"
                   "Voce nao tem permissao para remover este token")
         else
           let* _ := pushToken_delete (JS.Str id) in
           ok (Message "Token removido com sucesso")
     end)
    "Erro ao remover push token".

(** *** authController.js and userController.js *)

(** [await bcrypt.hash(senha, 10)]. *)
Definition bcrypt_hash_async (senha : JS.value) : Async JS.value :=
  match senha with
  | JS.Str s => resolve (JS.Str (bcrypt_hash s))
  | _ => throw IllegalArguments
  end.

Definition register : Handler := λ req,
  try_catch
    (let nome := prop req "nome" in
     let email := prop req "email" in
     let senha := prop req "senha" in
     if negb (JS.truthy nome) || negb (JS.truthy email)
        || negb (JS.truthy senha)
     then respond 400 (Error "VALIDATION_ERROR"
                         "Nome, email e senha sao obrigatorios")
     else
       let* curta := length_lt senha 8 in
       if curta
       then respond 400 (Error "VALIDATION_ERROR"
                           "A senha deve ter no minimo 8 caracteres")
       else
         let* existingUser := usuario_findUnique_email email in
         if existingUser is Some _
         then respond 409 (Error "RESOURCE_CONFLICT" "Email ja cadastrado")
         else
           let* senhaHash := bcrypt_hash_async senha in
           let* usuario := usuario_create cuid now nome email senhaHash
                             (JS.Str "PACIENTE") in
           let u := usuario.2 in
           respond 201
             (OneUsuario "Usuario criado com sucesso"
                (mkUsuarioView usuario.1 (Usuario.nome u) (Usuario.email u)
                   (Usuario.perfil u) None (Some (Usuario.criadoEm u)) None)))
    "Erro ao registrar usuario".

Definition updateUser : Handler := λ req,
  try_catch
    (let id := JS.Str (params_id req) in
     let nome := prop req "nome" in
     let email := prop req "email" in
     let senha := prop req "senha" in
     let perfil := prop req "perfil" in
     let ativo := prop req "ativo" in
     let* usuarioExistente := findUnique usuario id in
     if usuarioExistente is None
     then respond 404 (Error "RESOURCE_NOT_FOUND" "Usuario nao encontrado")
     else
       let dados : gmap string JS.value := ∅ in
       let dados := set_if (JS.truthy nome) "nome" nome dados in
       let dados := set_if (JS.truthy email) "email" email dados in
       if JS.truthy perfil && negb (JS.includes perfisValidos perfil)
       then respond 400 (Error "VALIDATION_ERROR" "Perfil invalido")
       else
         let dados := set_if (JS.truthy perfil) "perfil" perfil dados in
         let dados :=
           set_if (String.eqb (JS.typeof ativo) "boolean") "ativo" ativo dados in
         let finish (dados : gmap string JS.value) : Async Response :=
           let* usuario := usuario_update now id dados in
           let u := usuario.2 in
           ok (OneUsuario "Usuario atualizado com sucesso"
                 (mkUsuarioView usuario.1 (Usuario.nome u) (Usuario.email u)
                    (Usuario.perfil u) (Some (Usuario.ativo u)) None
                    (Some (Usuario.atualizadoEm u)))) in
         if JS.truthy senha
         then
           let* curta := length_lt senha 8 in
           if curta
           then respond 400 (Error "VALIDATION_ERROR"
                               "A senha deve ter no minimo 8 caracteres")
           else
             let* senhaHash := bcrypt_hash_async senha in
             finish (<["senhaHash" := senhaHash]> dados)
         else finish dados)
    "Erro ao atualizar usuario".

End Controllers.

(** ** Notions of the specification *)

(** A booking is an appointment or an exam; the two controllers have the
    same shape. *)
Inductive Kind := Appointment | Exam.

Record Booking := mkBooking {
  b_nome : option string;
  b_pacienteId : string; b_medicoId : string;
  b_dia : Z; b_hora : string; b_dataHora : Z;
  b_detalhes : option string; b_status : string }.

Definition booking_of_consulta (c : Consulta.t) : Booking :=
  mkBooking None (Consulta.pacienteId c) (Consulta.medicoId c)
    (Consulta.dia c) (Consulta.hora c) (Consulta.dataHora c)
    (Consulta.detalhes c) (Consulta.status c).

Definition booking_of_exame (e : Exame.t) : Booking :=
  mkBooking (Some (Exame.nome e)) (Exame.pacienteId e) (Exame.medicoId e)
    (Exame.dia e) (Exame.hora e) (Exame.dataHora e)
    (Exame.detalhes e) (Exame.status e).

(** The stored bookings of a kind, by id. *)
Definition bookings (k : Kind) (db : DB) : gmap string Booking :=
  match k with
  | Appointment => booking_of_consulta <$> consulta db
  | Exam => booking_of_exame <$> exame db
  end.

Definition cancelled (b : Booking) : Booking :=
  mkBooking (b_nome b) (b_pacienteId b) (b_medicoId b) (b_dia b) (b_hora b)
    (b_dataHora b) (b_detalhes b) "CANCELADA".

(** The bookings a response carries. *)
Definition returned (r : Response) : list (string * Booking) :=
  match json r with
  | OneConsulta _ v => [(consulta_id v, booking_of_consulta (consulta_row v))]
  | ManyConsultas l =>
      (λ v, (consulta_id v, booking_of_consulta (consulta_row v))) <$> l
  | OneExame _ v => [(exame_id v, booking_of_exame (exame_row v))]
  | ManyExames l =>
      (λ v, (exame_id v, booking_of_exame (exame_row v))) <$> l
  | _ => []
  end.

(** The patient and doctor references of every record a response carries,
    joined result rows included. *)
Definition references_of_exame (v : ExameView) : list (string * string) :=
  (Exame.pacienteId (exame_row v), Exame.medicoId (exame_row v))
  :: ((λ r : string * ResultadoExame.t,
         (ResultadoExame.pacienteId r.2, ResultadoExame.medicoId r.2))
        <$> default [] (exame_resultados v)).

Definition references (r : Response) : list (string * string) :=
  match json r with
  | OneConsulta _ v =>
      [(Consulta.pacienteId (consulta_row v), Consulta.medicoId (consulta_row v))]
  | ManyConsultas l =>
      (λ v, (Consulta.pacienteId (consulta_row v),
             Consulta.medicoId (consulta_row v))) <$> l
  | OneExame _ v => references_of_exame v
  | ManyExames l => l ≫= references_of_exame
  | OneResultado _ v =>
      [(ResultadoExame.pacienteId (resultado_row v),
        ResultadoExame.medicoId (resultado_row v))]
  | ManyResultados l =>
      (λ v, (ResultadoExame.pacienteId (resultado_row v),
             ResultadoExame.medicoId (resultado_row v))) <$> l
  | _ => []
  end.

(** The error code of a response, if it is an error. *)
Definition code_of (r : Response) : option string :=
  match json r with
  | Error code _ => Some code
  | _ => None
  end.

Definition is_digit (c : ascii) : bool :=
  (48 <=? JS.code c) && (JS.code c <=? 57).

(** A time of day of the form HH:MM. *)
Definition HH_MM (s : string) : bool :=
  match s with
  | String a (String b (String ":" (String c (String d EmptyString)))) =>
      is_digit a && is_digit b && is_digit c && is_digit d
  | _ => false
  end.

Definition two_digits (a b : ascii) : Z :=
  10 * (JS.code a - 48) + (JS.code b - 48).

(** The hour and the minute an HH:MM string denotes. *)
Definition hour_of (s : string) : Z :=
  match s with
  | String a (String b _) => two_digits a b
  | _ => 0
  end.
Definition minute_of (s : string) : Z :=
  match s with
  | String _ (String _ (String _ (String c (String d _)))) => two_digits c d
  | _ => 0
  end.

(** The date-at of the specification, a date with the hour and the
    minute set and seconds and milliseconds zero: the instant at which
    the server's clock shows the calendar day [day] (counted from
    1970-01-01) at [hour]:[min]:00.000. *)
Definition instant_of (LocalTZA : Z → bool → Z) (day hour min : Z) : Z :=
  JS.UTC LocalTZA
    (day * JS.msPerDay + hour * JS.msPerHour + min * JS.msPerMinute).

(** On the side of the code, what [setHours] makes of an instant [t]:
    [hour]:[min]:00.000 of the day the server's clock shows at [t], which
    west of UTC is not the day of [t] in UTC. *)
Definition date_at (LocalTZA : Z → bool → Z) (t hour min : Z) : Z :=
  JS.UTC LocalTZA
    (JS.Day (JS.LocalTime LocalTZA t) * JS.msPerDay
     + hour * JS.msPerHour + min * JS.msPerMinute).

(** The fields a create request must carry. *)
Definition required (k : Kind) : list string :=
  match k with
  | Appointment => ["pacienteId"; "medicoId"; "dia"; "hora"]
  | Exam => ["nome"; "pacienteId"; "medicoId"; "dia"; "hora"]
  end.

Definition complete (k : Kind) (req : Request) : bool :=
  forallb (λ f, JS.truthy (prop req f)) (required k).

(** Who may not read or update a booking: a patient another patient's, a
    doctor another doctor's. *)
Definition denied (req : Request) (pacienteId medicoId : string) : bool :=
  (is_PACIENTE req && negb (String.eqb pacienteId (userId req)))
  || (is_MEDICO req && negb (String.eqb medicoId (userId req))).

(** Who may not cancel a booking. *)
Definition cancel_denied (req : Request) (pacienteId : string) : bool :=
  is_PACIENTE req && negb (String.eqb pacienteId (userId req)).

(** Every token of the store belongs to one row. *)
Definition unique_tokens (db : DB) : Prop :=
  ∀ i j p q, pushToken db !! i = Some p → pushToken db !! j = Some q →
             PushToken.token p = PushToken.token q → i = j.

Section Routes.

Variable Date_parse : string → option Z.
Variable LocalTZA : Z → bool → Z.
Variable cuid : DB → string.

(** The combined timestamp of a request, NaN included. *)
Definition slot_time (dia hora : JS.value) : option Z :=
  match hora with
  | JS.Str s => dataHora_from Date_parse LocalTZA dia (JS.split ":" s)
  | _ => None
  end.

Definition create (k : Kind) : Handler :=
  match k with
  | Appointment => createConsulta Date_parse LocalTZA cuid
  | Exam => createExame Date_parse LocalTZA cuid
  end.

End Routes.

Definition list_all (k : Kind) : Handler :=
  match k with Appointment => listConsultas | Exam => listExames end.
Definition get (k : Kind) : Handler :=
  match k with Appointment => getConsulta | Exam => getExame end.
Definition update (k : Kind) : Handler :=
  match k with Appointment => updateConsulta | Exam => updateExame end.
Definition cancel (k : Kind) : Handler :=
  match k with Appointment => deleteConsulta | Exam => deleteExame end.

(** ** Notions used in the statements *)

(** The row an update of [c] may leave behind under [data]. *)
Definition consulta_updated (data : gmap string JS.value) (c c' : Consulta.t)
  : Prop :=
  Consulta.pacienteId c' = Consulta.pacienteId c
  ∧ Consulta.medicoId c' = Consulta.medicoId c
  ∧ Consulta.dia c' = Consulta.dia c
  ∧ Consulta.hora c' = Consulta.hora c
  ∧ Consulta.dataHora c' = Consulta.dataHora c
  ∧ (data_field data "status" = JS.Undefined →
     Consulta.status c' = Consulta.status c)
  ∧ (data_field data "detalhes" = JS.Undefined →
     Consulta.detalhes c' = Consulta.detalhes c).

Definition exame_updated (data : gmap string JS.value) (e e' : Exame.t)
  : Prop :=
  Exame.nome e' = Exame.nome e
  ∧ Exame.pacienteId e' = Exame.pacienteId e
  ∧ Exame.medicoId e' = Exame.medicoId e
  ∧ Exame.dia e' = Exame.dia e
  ∧ Exame.hora e' = Exame.hora e
  ∧ Exame.dataHora e' = Exame.dataHora e
  ∧ (data_field data "status" = JS.Undefined →
     Exame.status e' = Exame.status e)
  ∧ (data_field data "detalhes" = JS.Undefined →
     Exame.detalhes e' = Exame.detalhes e).

(** What Prisma stores for the free text of a create request. *)
Definition detalhes_of (v : JS.value) : option string :=
  match v with JS.Str s => Some s | _ => None end.

(** The appointment a request asks for, at the combined timestamp [t]. *)
Definition consulta_of (req : Request) (p m h : string) (d t : Z)
  : Consulta.t :=
  Consulta.mk p m d h t (detalhes_of (prop req "detalhes")) "AGENDADA".

(** The exam a request asks for. *)
Definition exame_of (req : Request) (n p m h : string) (d t : Z) : Exame.t :=
  Exame.mk n p m d h t (detalhes_of (prop req "detalhes")) "AGENDADA".

(** The checks a create request passes before the time of day is looked
    at: fields, caller, doctor and patient. *)
Definition checks (k : Kind) (req : Request) (db : DB) (p m h : string)
  : Prop :=
  complete k req = true
  ∧ prop req "pacienteId" = JS.Str p
  ∧ prop req "medicoId" = JS.Str m
  ∧ prop req "hora" = JS.Str h
  ∧ is_PACIENTE req && negb (String.eqb p (userId req)) = false
  ∧ (∃ u, usuario db !! m = Some u ∧ Usuario.perfil u = "MEDICO")
  ∧ is_Some (usuario db !! p).

(** A slot is occupied when some booking of the kind, whatever its
    status, has that doctor and that combined timestamp. *)
Definition occupied (k : Kind) (db : DB) (m : string) (t : Z) : Prop :=
  ∃ id b, bookings k db !! id = Some b ∧ b_medicoId b = m ∧ b_dataHora b = t.

(** The booking a create request asks for. *)
Definition booked_as (k : Kind) (req : Request) (p m h : string) (d t : Z)
  : Booking :=
  mkBooking
    match k, prop req "nome" with
    | Exam, JS.Str n => Some n
    | _, _ => None
    end
    p m d h t (detalhes_of (prop req "detalhes")) "AGENDADA".

(** Every patient reference is the caller when the caller is a patient,
    every doctor reference is the caller when the caller is a doctor. *)
Definition scoped (req : Request) (refs : list (string * string)) : Prop :=
  ∀ p m, (p, m) ∈ refs →
         (userPerfil req = "PACIENTE" → p = userId req)
         ∧ (userPerfil req = "MEDICO" → m = userId req).

(** ** A concrete runtime for the examples *)

Module Runtime.

Definition days_from_civil (y m d : Z) : Z :=
  let y := if m <=? 2 then y - 1 else y in
  let era := y `div` 400 in
  let yoe := y - era * 400 in
  let doy := (153 * (if 2 <? m then m - 3 else m + 9) + 2) `div` 5 + d - 1 in
  let doe := yoe * 365 + yoe `div` 4 - yoe `div` 100 + doy in
  era * 146097 + doe - 719468.

Fixpoint decimal (s : string) (acc : Z) : option Z :=
  match s with
  | EmptyString => Some acc
  | String c rest =>
      if is_digit c then decimal rest (10 * acc + (JS.code c - 48)) else None
  end.

(** [Date.parse] on the date-only form YYYY-MM-DD, which is UTC midnight
    of that day; as in Node a day up to 31 is taken in every month and
    runs over into the next.  The requests of the examples carry dates of
    this form only: the other forms an engine reads (a date with a time,
    the formats of older engines) are not covered, and this instance
    gives NaN for them. *)
Definition Date_parse (s : string) : option Z :=
  if bool_decide (String.length s = 10%nat
                  ∧ String.substring 4 1 s = "-"
                  ∧ String.substring 7 1 s = "-")
  then
    y ← decimal (String.substring 0 4 s) 0;
    m ← decimal (String.substring 5 2 s) 0;
    d ← decimal (String.substring 8 2 s) 0;
    if (1 <=? m) && (m <=? 12) && (1 <=? d) && (d <=? 31)
    then Some (days_from_civil y m d * JS.msPerDay)
    else None
  else None.

(** A server running in UTC. *)
Definition LocalTZA : Z → bool → Z := λ _ _, 0.

(** A stand-in for the salted hash. *)
Definition bcrypt_hash (s : string) : string := "$2a$10$" +:+ s.

Definition row_count (db : DB) : nat :=
  (size (usuario db) + size (consulta db) + size (exame db)
   + size (resultadoExame db) + size (pushToken db))%nat.

(** Keys and clock: one fresh key and one tick per stored row. *)
Definition cuid (db : DB) : string := "c" +:+ pretty (row_count db).
Definition now (db : DB) : Z := 1704067200000 + Z.of_nat (row_count db).

Definition user (id perfil : string) : Usuario.t :=
  Usuario.mk id (id +:+ "@clinica.test") (bcrypt_hash "12345678") perfil
    true 1704067200000 1704067200000.

(** Two patients, two doctors and an administrator. *)
Definition clinic : DB :=
  mkDB (list_to_map
          [("ana", user "ana" "PACIENTE"); ("bia", user "bia" "PACIENTE");
           ("dr-m", user "dr-m" "MEDICO"); ("dr-n", user "dr-n" "MEDICO");
           ("adm", user "adm" "ADMIN")])
       ∅ ∅ ∅ ∅.

Definition request (userId userPerfil id : string)
    (body : list (string * JS.value)) : Request :=
  mkRequest userId userPerfil id (list_to_map body).

Definition booking (pacienteId medicoId dia hora : string)
  : list (string * JS.value) :=
  [("pacienteId", JS.Str pacienteId); ("medicoId", JS.Str medicoId);
   ("dia", JS.Str dia); ("hora", JS.Str hora)].

Definition create := create Date_parse LocalTZA cuid.
Definition createResultado := createResultado cuid now.
Definition registerPushToken := registerPushToken cuid.
Definition register := register bcrypt_hash cuid now.
Definition updateUser := updateUser bcrypt_hash now.

(** The database after a sequence of requests. *)
Definition after (steps : list (DB → Response * DB)) (db : DB) : DB :=
  foldl (λ db step, (step db).2) db steps.

(** Ana books doctor M on 2024-01-01 at 10:30; the row gets the key c5. *)
Definition ana_books : Request :=
  request "ana" "PACIENTE" "" (booking "ana" "dr-m" "2024-01-01" "10:30").
Definition booked : DB := after [create Appointment ana_books] clinic.
Definition appointment : Booking :=
  mkBooking None "ana" "dr-m" 1704067200000 "10:30" 1704105000000 None
    "AGENDADA".

(** Ana then cancels: the row stays, with status CANCELADA. *)
Definition cancelled_slot : DB :=
  after [cancel Appointment (request "ana" "PACIENTE" "c5" [])] booked.

(** Bia asks for the slot of Ana's appointment. *)
Definition bia_books : Request :=
  request "bia" "PACIENTE" "" (booking "bia" "dr-m" "2024-01-01" "10:30").

(** Bia asks for an appointment in Ana's name, in the same slot. *)
Definition bia_books_for_ana : Request :=
  request "bia" "PACIENTE" "" (booking "ana" "dr-m" "2024-01-01" "10:30").

(** The same without a time of day. *)
Definition bia_books_for_ana_no_hora : Request :=
  request "bia" "PACIENTE" ""
    [("pacienteId", JS.Str "ana"); ("medicoId", JS.Str "dr-m");
     ("dia", JS.Str "2024-01-01")].


Definition ana_books_abc : Request :=
  request "ana" "PACIENTE" "" (booking "ana" "dr-m" "2024-01-01" "abc").

(** Ana books an exam with doctor M (key c5); doctor M then files a
    result of that exam under Bia's name (key c6). *)
Definition ana_books_exam : Request :=
  request "ana" "PACIENTE" ""
    (("nome", JS.Str "Hemograma") :: booking "ana" "dr-m" "2024-01-02" "08:00").
Definition result_for_bia : Request :=
  request "dr-m" "MEDICO" ""
    [("exameId", JS.Str "c5"); ("pacienteId", JS.Str "bia");
     ("medicoId", JS.Str "dr-m"); ("detalhes", JS.Str "normal")].
Definition exam_with_result : DB :=
  after [create Exam ana_books_exam; createResultado result_for_bia] clinic.

(** Ana registers a device token (key c5); Bia registers the same token
    again from another platform. *)
Definition ana_registers : Request :=
  request "ana" "PACIENTE" ""
    [("token", JS.Str "ExponentPushToken[x]"); ("plataforma", JS.Str "ios")].
Definition bia_registers : Request :=
  request "bia" "PACIENTE" ""
    [("token", JS.Str "ExponentPushToken[x]");
     ("plataforma", JS.Str "android")].
Definition bia_registers_windows : Request :=
  request "bia" "PACIENTE" ""
    [("token", JS.Str "ExponentPushToken[x]");
     ("plataforma", JS.Str "windows")].
Definition token_registered : DB := after [registerPushToken ana_registers] clinic.
Definition ana_token : PushToken.t :=
  PushToken.mk "ana" "ExponentPushToken[x]" "ios" true.

(** Requests on accounts with a password that is too short. *)
Definition register_short : Request :=
  request "" "" ""
    [("nome", JS.Str "Caio"); ("email", JS.Str "caio@clinica.test");
     ("senha", JS.Str "1234567")].
Definition update_short : Request :=
  request "adm" "ADMIN" "ana"
    [("nome", JS.Str "Ana Maria"); ("senha", JS.Str "1234567")].
Definition update_empty : Request :=
  request "adm" "ADMIN" "ana"
    [("nome", JS.Str "Ana Maria"); ("senha", JS.Str "")].
Definition update_nobody : Request :=
  request "adm" "ADMIN" "zed" [("senha", JS.Str "1234567")].

End Runtime.

(** ** Accounts, sessions and the access gate

    The rest of authController.js and userController.js, the two
    middlewares of middlewares/auth.js and the router of the users. *)

(** The variables of the environment the handlers read; a variable is a
    string or it is not set. *)
Record Env := mkEnv {
  JWT_SECRET : option string;
  JWT_EXPIRES_IN : option string;
  REFRESH_JWT_SECRET : option string;
  REFRESH_JWT_EXPIRES_IN : option string }.

(** [a || b] on two variables, and [a || 'literal']: the empty string is
    falsy. *)
Definition or_else (a b : option string) : option string :=
  match a with
  | Some s => if String.eqb s "" then b else a
  | None => b
  end.
Definition or_literal (a : option string) (d : string) : string :=
  match a with
  | Some s => if String.eqb s "" then d else s
  | None => d
  end.

(** The payload of a token: an object of the values of this model. *)
Definition Payload : Type := gmap string JS.value.

(** The bodies these handlers answer with, beside the ones above. *)
Inductive AccountBody :=
| Plain (b : Body)
| TheUsuario (u : UsuarioView)                 (* { usuario } *)
| Usuarios (l : list UsuarioView)              (* { usuarios } *)
| Session (message accessToken refreshToken : string) (u : UsuarioView)
| Renewed (message accessToken : string).

Record Reply := mkReply { reply_status : Z; reply_json : AccountBody }.

Definition AccountHandler : Type := Request → DB → Reply * DB.

Definition reply (n : Z) (b : AccountBody) : Async Reply :=
  resolve (mkReply n b).

Definition failure (n : Z) (code message : string) : Reply :=
  mkReply n (Plain (Error code message)).

(** [try { ... } catch (error) { return res.status(500).json(...) }]. *)
Definition try_catch_reply (block : Async Reply) (message : string)
  : DB → Reply * DB :=
  λ db, match block db with
        | (inr r, db') => (r, db')
        | (inl _, db') => (failure 500 "INTERNAL_SERVER_ERROR" message, db')
        end.

(** A handler of the controllers above, seen as one of these. *)
Definition lift (h : Handler) : AccountHandler :=
  λ req db, (mkReply (status (h req db).1) (Plain (json (h req db).1)),
             (h req db).2).

(** [select: { id, nome, email, perfil, ativo, criadoEm, atualizadoEm }]. *)
Definition usuario_select (r : string * Usuario.t) : UsuarioView :=
  mkUsuarioView r.1 (Usuario.nome r.2) (Usuario.email r.2) (Usuario.perfil r.2)
    (Some (Usuario.ativo r.2)) (Some (Usuario.criadoEm r.2))
    (Some (Usuario.atualizadoEm r.2)).

(** [orderBy: { criadoEm: 'desc' }]. *)
Definition usuario_criadoEm_desc : relation (string * Usuario.t) :=
  λ a b, Usuario.criadoEm b.2 ≤ Usuario.criadoEm a.2.

#[global] Instance usuario_criadoEm_desc_dec a b :
  Decision (usuario_criadoEm_desc a b).
Proof. unfold usuario_criadoEm_desc. apply _. Defined.

(** [findMany] without a [where]. *)
Definition every_row {A} (r : string * A) : Prop := True.

#[global] Instance every_row_dec {A} (r : string * A) : Decision (every_row r).
Proof. unfold every_row. apply _. Defined.

(** [prisma.usuario.findUnique({ where: { id } })], the row with its key. *)
Definition usuario_findUnique_id (id : JS.value)
  : Async (option (string * Usuario.t)) :=
  let* id := String_arg id in
  let* db := read in
  resolve ((λ u, (id, u)) <$> usuario db !! id).

(** [/^Bearer$/i.test(scheme)]: the six letters, each in either case.  No
    code unit outside the ASCII letters is folded onto one of them. *)
Definition upper (c : ascii) : ascii :=
  let n := nat_of_ascii c in
  if (97 <=? n)%nat && (n <=? 122)%nat then ascii_of_nat (n - 32) else c.

Fixpoint to_upper (s : string) : string :=
  match s with
  | EmptyString => EmptyString
  | String c rest => String (upper c) (to_upper rest)
  end.

Definition test_Bearer (scheme : string) : bool :=
  String.eqb (to_upper scheme) "BEARER".

(** The handlers, one name for each. *)
Inductive Endpoint :=
| RegisterUser | Login | Refresh
| ListUsers | CreateUser | GetUser | UpdateUser | DeleteUser
| Create (k : Kind) | ListAll (k : Kind) | Get (k : Kind)
| Update (k : Kind) | Cancel (k : Kind)
| CreateResultado | ListResultados | GetResultado
| RegisterPushToken | DeletePushToken.

Section Accounts.

(** bcryptjs and jsonwebtoken.  [jwt_sign payload secret expiresIn] is the
    token made with a secret that is not empty, [None] when [jwt.sign]
    throws; [jwt_verify token secret] is the payload [jwt.verify] hands to
    its callback, [None] when it hands it an error.  The time of a call,
    which goes into a token and decides whether it has expired, is left
    out: no statement compares tokens made at different times. *)
Variable bcrypt_hash : string → string.
Variable bcrypt_compare : string → string → bool.
Variable jwt_sign : Payload → string → string → option string.
Variable jwt_verify : string → string → option Payload.
Variable env : Env.
Variable cuid : DB → string.
Variable now : DB → Z.

(** Modelled from the spec: the schema is not among the sources, so what
    the store does with the rows that refer to a user when the user is
    deleted (refuse, cascade, set null) is a parameter: the store after
    that, or the exception. *)
Variable on_delete_usuario : string → DB → exn + DB.

(** [prisma.usuario.delete({ where: { id } })]. *)
Definition usuario_delete (id : JS.value) : Async (string * Usuario.t) :=
  let* id := String_arg id in
  let* db := read in
  match usuario db !! id with
  | None => throw P2025
  | Some u =>
      match on_delete_usuario id db with
      | inl e => throw e
      | inr db' =>
          let* _ := write (with_usuario (delete id (usuario db')) db') in
          resolve (id, u)
      end
  end.

(** [await bcrypt.compare(senha, hash)]: rejects on a password that is
    not a string. *)
Definition bcrypt_compare_async (senha : JS.value) (hash : string)
  : Async bool :=
  match senha with
  | JS.Str s => resolve (bcrypt_compare s hash)
  | _ => throw IllegalArguments
  end.

(** [jwt.sign(payload, secret, { expiresIn })] without a callback: it
    throws on a secret that is not set or empty.  The handler's catch
    makes no difference between exceptions. *)
Definition sign (payload : Payload) (secret : option string)
    (expiresIn : string) : Async string :=
  match secret with
  | Some s =>
      if String.eqb s "" then throw IllegalArguments
      else match jwt_sign payload s expiresIn with
           | Some token => resolve token
           | None => throw IllegalArguments
           end
  | None => throw IllegalArguments
  end.

(** [jwt.verify(token, secret, callback)]: the callback gets an error on
    a token that is not a string and on a secret that is not set. *)
Definition verify (token : JS.value) (secret : option string)
  : option Payload :=
  match token, secret with
  | JS.Str t, Some s => if String.eqb s "" then None else jwt_verify t s
  | _, _ => None
  end.

(** *** authController.js: login and refresh *)

Definition login : AccountHandler := λ req,
  try_catch_reply
    (let email := prop req "email" in
     let senha := prop req "senha" in
     if negb (JS.truthy email) || negb (JS.truthy senha)
     then reply 400 (Plain (Error "VALIDATION_ERROR"
                              "Email e senha sao obrigatorios"))
     else
       let* usuario := usuario_findUnique_email email in
       match usuario with
       | None =>
           reply 401 (Plain (Error "AUTH_INVALID_CREDENTIALS"
                               "Email ou senha invalidos"))
       | Some usuario =>
           let u := usuario.2 in
           if negb (Usuario.ativo u)
           then reply 401 (Plain (Error "AUTH_FORBIDDEN" "Usuario inativo"))
           else
             let* senhaValida :=
               bcrypt_compare_async senha (Usuario.senhaHash u) in
             if negb senhaValida
             then reply 401 (Plain (Error "AUTH_INVALID_CREDENTIALS"
                                      "Email ou senha invalidos"))
             else
               let* accessToken :=
                 sign {[ "id" := JS.Str usuario.1;
                         "perfil" := JS.Str (Usuario.perfil u) ]}
                   (JWT_SECRET env)
                   (or_literal (JWT_EXPIRES_IN env) "15m") in
               let* refreshToken :=
                 sign {[ "id" := JS.Str usuario.1 ]}
                   (or_else (REFRESH_JWT_SECRET env) (JWT_SECRET env))
                   (or_literal (REFRESH_JWT_EXPIRES_IN env) "7d") in
               reply 200
                 (Session "Login realizado com sucesso" accessToken
                    refreshToken
                    (mkUsuarioView usuario.1 (Usuario.nome u)
                       (Usuario.email u) (Usuario.perfil u) None None None))
       end)
    "Erro ao fazer login".

(** The [async] callback handed to [jwt.verify]: a rejection inside it is
    caught by nobody, and the request gets no answer. *)
Definition uncaught (block : Async Reply) : DB → option Reply * DB :=
  λ db, match block db with
        | (inr r, db') => (Some r, db')
        | (inl _, db') => (None, db')
        end.

Definition refresh (req : Request) : DB → option Reply * DB := λ db,
  let refreshToken := prop req "refreshToken" in
  if negb (JS.truthy refreshToken)
  then (Some (failure 400 "VALIDATION_ERROR" "Refresh token e obrigatorio"), db)
  else
    match verify refreshToken
            (or_else (REFRESH_JWT_SECRET env) (JWT_SECRET env)) with
    | None =>
        (Some (failure 401 "AUTH_INVALID_TOKEN"
                 "Refresh token invalido ou expirado"), db)
    | Some decoded =>
        uncaught
          (let* usuario := usuario_findUnique_id (data_field decoded "id") in
           match usuario with
           | None =>
               reply 401 (Plain (Error "AUTH_FORBIDDEN"
                                   "Usuario nao encontrado ou inativo"))
           | Some usuario =>
               let u := usuario.2 in
               if negb (Usuario.ativo u)
               then reply 401 (Plain (Error "AUTH_FORBIDDEN"
                                        "Usuario nao encontrado ou inativo"))
               else
                 let* accessToken :=
                   sign {[ "id" := JS.Str usuario.1;
                           "perfil" := JS.Str (Usuario.perfil u) ]}
                     (JWT_SECRET env)
                     (or_literal (JWT_EXPIRES_IN env) "15m") in
                 reply 200 (Renewed "Token renovado com sucesso" accessToken)
           end)
          db
    end.

(** *** userController.js *)

Definition listUsers : AccountHandler := λ req,
  try_catch_reply
    (let* usuarios := findMany usuario every_row usuario_criadoEm_desc in
     reply 200 (Usuarios (usuario_select <$> usuarios)))
    "Erro ao listar usuarios".

Definition createUser : Handler := λ req,
  try_catch
    (let nome := prop req "nome" in
     let email := prop req "email" in
     let senha := prop req "senha" in
     let perfil := prop req "perfil" in
     if negb (JS.truthy nome) || negb (JS.truthy email)
        || negb (JS.truthy senha) || negb (JS.truthy perfil)
     then respond 400 (Error "VALIDATION_ERROR"
                         "Nome, email, senha e perfil sao obrigatorios")
     else
       let* curta := length_lt senha 8 in
       if curta
       then respond 400 (Error "VALIDATION_ERROR"
                           "A senha deve ter no minimo 8 caracteres")
       else if negb (JS.includes perfisValidos perfil)
       then respond 400 (Error "VALIDATION_ERROR" "Perfil invalido")
       else
         let* existingUser := usuario_findUnique_email email in
         if existingUser is Some _
         then respond 409 (Error "RESOURCE_CONFLICT" "Email ja cadastrado")
         else
           let* senhaHash := bcrypt_hash_async bcrypt_hash senha in
           let* usuario := usuario_create cuid now nome email senhaHash
                             perfil in
           let u := usuario.2 in
           respond 201
             (OneUsuario "Usuario criado com sucesso"
                (mkUsuarioView usuario.1 (Usuario.nome u) (Usuario.email u)
                   (Usuario.perfil u) (Some (Usuario.ativo u))
                   (Some (Usuario.criadoEm u)) None)))
    "Erro ao criar usuario".

Definition getUser : AccountHandler := λ req,
  try_catch_reply
    (let id := params_id req in
     let* usuario := findUnique usuario (JS.Str id) in
     match usuario with
     | None =>
         reply 404 (Plain (Error "RESOURCE_NOT_FOUND" "Usuario nao encontrado"))
     | Some u => reply 200 (TheUsuario (usuario_select (id, u)))
     end)
    "Erro ao buscar usuario".

Definition deleteUser : Handler := λ req,
  try_catch
    (let id := JS.Str (params_id req) in
     let* usuario := findUnique usuario id in
     if usuario is None
     then respond 404 (Error "RESOURCE_NOT_FOUND" "Usuario nao encontrado")
     else
       let* _ := usuario_delete id in
       ok (Message "Usuario removido com sucesso"))
    "Erro ao remover usuario".

(** *** middlewares/auth.js *)

(** [authMiddleware]: the answer it sends, or the [userId] and the
    [userPerfil] it puts on the request before it calls [next].
    [authorization] is the header, when the request has one.  The catch
    of the middleware is not reached: the header is a string or is
    absent, and [jwt.verify] hands its errors to the callback. *)
Definition authMiddleware (authorization : option string)
  : Response + JS.value * JS.value :=
  match authorization with
  | None | Some "" =>
      inl (mkResponse 401
             (Error "AUTH_MISSING_TOKEN" "Token de autenticacao nao fornecido"))
  | Some authHeader =>
      let parts := JS.split " " authHeader in
      if negb (List.length parts =? 2)%nat
      then inl (mkResponse 401
                  (Error "AUTH_INVALID_TOKEN" "Formato de token invalido"))
      else
        let scheme := default "" (parts !! 0%nat) in
        let token := JS.element parts 1 in
        if negb (test_Bearer scheme)
        then inl (mkResponse 401
                    (Error "AUTH_INVALID_TOKEN" "Token mal formatado"))
        else
          match verify token (JWT_SECRET env) with
          | None =>
              inl (mkResponse 401
                     (Error "AUTH_INVALID_TOKEN" "Token invalido ou expirado"))
          | Some decoded =>
              inr (data_field decoded "id", data_field decoded "perfil")
          end
  end.

(** [requireRole(roles)] in front of a handler: the empty string is the
    one [userPerfil] of this model that is falsy. *)
Definition requireRole (roles : list string) (next : AccountHandler)
  : AccountHandler := λ req db,
  if String.eqb (userPerfil req) ""
  then (failure 401 "AUTH_FORBIDDEN" "Usuario nao autenticado", db)
  else if negb (bool_decide (userPerfil req ∈ roles))
  then (failure 403 "AUTH_FORBIDDEN"
          "Voce nao tem permissao para acessar este recurso", db)
  else next req db.

(** *** The handlers behind their routers

    routes/users.js puts [requireRole(['ADMIN'])] in front of the five
    handlers of the users; the other routers put nothing but
    [authMiddleware] in front of theirs, which has set [userId] and
    [userPerfil] when a handler runs. *)

Variable Date_parse : string → option Z.
Variable LocalTZA : Z → bool → Z.

Definition answered (h : AccountHandler) : Request → DB → option Reply * DB :=
  λ req db, (Some (h req db).1, (h req db).2).

Definition serve (e : Endpoint) : Request → DB → option Reply * DB :=
  match e with
  | RegisterUser => answered (lift (register bcrypt_hash cuid now))
  | Login => answered login
  | Refresh => refresh
  | ListUsers => answered (requireRole ["ADMIN"] listUsers)
  | CreateUser => answered (requireRole ["ADMIN"] (lift createUser))
  | GetUser => answered (requireRole ["ADMIN"] getUser)
  | UpdateUser =>
      answered (requireRole ["ADMIN"] (lift (updateUser bcrypt_hash now)))
  | DeleteUser => answered (requireRole ["ADMIN"] (lift deleteUser))
  | Create k => answered (lift (create Date_parse LocalTZA cuid k))
  | ListAll k => answered (lift (list_all k))
  | Get k => answered (lift (get k))
  | Update k => answered (lift (update k))
  | Cancel k => answered (lift (cancel k))
  | CreateResultado => answered (lift (createResultado cuid now))
  | ListResultados => answered (lift listResultados)
  | GetResultado => answered (lift getResultado)
  | RegisterPushToken => answered (lift (registerPushToken cuid))
  | DeletePushToken => answered (lift deletePushToken)
  end.

End Accounts.

(** ** Notions used in the further statements *)

(** Every email of the store belongs to one user. *)
Definition unique_emails (db : DB) : Prop :=
  ∀ i j u v, usuario db !! i = Some u → usuario db !! j = Some v →
             Usuario.email u = Usuario.email v → i = j.

(** The result rows a response carries. *)
Definition returned_resultados (r : Response)
  : list (string * ResultadoExame.t) :=
  match json r with
  | OneResultado _ v => [(resultado_id v, resultado_row v)]
  | ManyResultados l => (λ v, (resultado_id v, resultado_row v)) <$> l
  | _ => []
  end.

(** An answer that reports success; no answer does not. *)
Definition succeeded (r : option Reply) : bool :=
  match r with
  | Some r => bool_decide (reply_status r ∈ [200; 201])
  | None => false
  end.

(** The handlers of the GET routes and of the two session routes. *)
Definition reads_only (e : Endpoint) : bool :=
  match e with
  | Login | Refresh | ListUsers | GetUser | ListAll _ | Get _
  | ListResultados | GetResultado => true
  | _ => false
  end.

(** The handlers behind [requireRole(['ADMIN'])]. *)
Definition of_users (e : Endpoint) : bool :=
  match e with
  | ListUsers | CreateUser | GetUser | UpdateUser | DeleteUser => true
  | _ => false
  end.

(** *** What an awaited computation does to the store *)

(** It never writes. *)
Definition reads {A} (m : Async A) : Prop := ∀ db, (m db).2 = db.

(** When it rejects, it has not written. *)
Definition atomic {A} (m : Async A) : Prop :=
  ∀ db e db', m db = (inl e, db') → db' = db.

(** It resolves, without a write, to a value that is [good]. *)
Definition answers {A} (good : A → Prop) (m : Async A) : Prop :=
  ∀ db, ∃ a, m db = (inr a, db) ∧ good a.

(** Whenever it has written, it resolves to a value that is [good]. *)
Definition settles {A} (good : A → Prop) (m : Async A) : Prop :=
  ∀ db, (m db).2 = db ∨ ∃ a, (m db).1 = inr a ∧ good a.

Definition success (r : Response) : Prop := status r = 200 ∨ status r = 201.

(** Whether the row a handler addresses by [req.params.id] is stored;
    [None] for the handlers that address no row. *)
Definition addressed (e : Endpoint) (db : DB) (id : string) : option bool :=
  match e with
  | Get k | Update k | Cancel k =>
      Some (bool_decide (is_Some (bookings k db !! id)))
  | GetResultado => Some (bool_decide (is_Some (resultadoExame db !! id)))
  | DeletePushToken => Some (bool_decide (is_Some (pushToken db !! id)))
  | GetUser | UpdateUser | DeleteUser =>
      Some (bool_decide (is_Some (usuario db !! id)))
  | _ => None
  end.

(** What an update does to the free text: a string is stored, [null]
    clears it, an absent key keeps it. *)
Definition detalhes_after (v : JS.value) (old : option string)
  : option string :=
  match v with
  | JS.Str x => Some x
  | JS.Null => None
  | _ => old
  end.

(** A booking with its status and its free text replaced. *)
Definition amended (s : string) (detalhes : JS.value) (b : Booking)
  : Booking :=
  mkBooking (b_nome b) (b_pacienteId b) (b_medicoId b) (b_dia b) (b_hora b)
    (b_dataHora b) (detalhes_after detalhes (b_detalhes b)) s.

(** A string that does not go on with a digit. *)
Definition no_leading_digit (x : string) : bool :=
  match x with
  | String c _ => negb (is_digit c)
  | EmptyString => true
  end.

(** A string with a space in it. *)
Fixpoint has_space (s : string) : bool :=
  match s with
  | EmptyString => false
  | String c rest => Ascii.eqb c " " || has_space rest
  end.

(** ** A concrete runtime for sessions and users *)

Module Scenario.

(** A stand-in for signed tokens: the secret, the id and the profile in
    clear, joined by dots. *)
Definition jwt_sign (payload : Payload) (secret expiresIn : string)
  : option string :=
  match payload !! "id", payload !! "perfil" with
  | Some (JS.Str id), Some (JS.Str perfil) =>
      Some (secret +:+ "." +:+ id +:+ "." +:+ perfil)
  | Some (JS.Str id), None => Some (secret +:+ "." +:+ id)
  | _, _ => None
  end.

Definition jwt_verify (token secret : string) : option Payload :=
  match JS.split "." token with
  | [s; id] =>
      if String.eqb s secret then Some {[ "id" := JS.Str id ]} else None
  | [s; id; perfil] =>
      if String.eqb s secret
      then Some {[ "id" := JS.Str id; "perfil" := JS.Str perfil ]}
      else None
  | _ => None
  end.

Definition bcrypt_compare (s hash : string) : bool :=
  String.eqb (Runtime.bcrypt_hash s) hash.

(** One secret for both kinds of token, and the default life times. *)
Definition env : Env := mkEnv (Some "segredo") None None None.

(** A store that refuses to delete a user some row refers to. *)
Definition refers_to (id : string) (db : DB) : bool :=
  existsb (λ r : string * Consulta.t,
             String.eqb (Consulta.pacienteId r.2) id
             || String.eqb (Consulta.medicoId r.2) id)
    (map_to_list (consulta db))
  || existsb (λ r : string * Exame.t,
                String.eqb (Exame.pacienteId r.2) id
                || String.eqb (Exame.medicoId r.2) id)
       (map_to_list (exame db))
  || existsb (λ r : string * ResultadoExame.t,
                String.eqb (ResultadoExame.pacienteId r.2) id
                || String.eqb (ResultadoExame.medicoId r.2) id)
       (map_to_list (resultadoExame db))
  || existsb (λ r : string * PushToken.t,
                String.eqb (PushToken.usuarioId r.2) id)
       (map_to_list (pushToken db)).

Definition on_delete_usuario (id : string) (db : DB) : exn + DB :=
  if refers_to id db then inl P2003 else inr db.

Definition login := login bcrypt_compare jwt_sign env.
Definition refresh := refresh jwt_sign jwt_verify env.
Definition authMiddleware := authMiddleware jwt_verify env.
Definition createUser :=
  createUser Runtime.bcrypt_hash Runtime.cuid Runtime.now.
Definition deleteUser := deleteUser on_delete_usuario.
Definition serve :=
  serve Runtime.bcrypt_hash bcrypt_compare jwt_sign jwt_verify env
    Runtime.cuid Runtime.now on_delete_usuario Runtime.Date_parse
    Runtime.LocalTZA.

(** A server three hours west of UTC. *)
Definition west : Z → bool → Z := λ _ _, -10800000.

(** Ana logs in; her two tokens. *)
Definition ana_logs_in : Request :=
  Runtime.request "" "" ""
    [("email", JS.Str "ana@clinica.test"); ("senha", JS.Str "12345678")].
Definition ana_access : string := "segredo.ana.PACIENTE".
Definition ana_refresh : string := "segredo.ana".

(** Somebody nobody knows logs in. *)
Definition zed_logs_in : Request :=
  Runtime.request "" "" ""
    [("email", JS.Str "zed@clinica.test"); ("senha", JS.Str "12345678")].

(** Caio registers, asking to be an administrator. *)
Definition caio_registers : Request :=
  Runtime.request "" "" ""
    [("nome", JS.Str "Caio"); ("email", JS.Str "caio@clinica.test");
     ("senha", JS.Str "12345678"); ("perfil", JS.Str "ADMIN")].

(** Ana asks for an appointment with Bia, who is no doctor. *)
Definition ana_books_bia : Request :=
  Runtime.request "ana" "PACIENTE" ""
    (Runtime.booking "ana" "bia" "2024-01-01" "10:30").

Definition caio_logs_in : Request :=
  Runtime.request "" "" ""
    [("email", JS.Str "caio@clinica.test"); ("senha", JS.Str "12345678")].

(** The administrator switches Ana off. *)
Definition adm_switches_ana_off : Request :=
  Runtime.request "adm" "ADMIN" "ana" [("ativo", JS.Bool false)].

(** The administrator creates a doctor, gives Ana the email of Bia, and
    deletes Bia. *)
Definition adm_creates : Request :=
  Runtime.request "adm" "ADMIN" ""
    [("nome", JS.Str "Davi"); ("email", JS.Str "dr-d@clinica.test");
     ("senha", JS.Str "12345678"); ("perfil", JS.Str "MEDICO")].
Definition adm_moves_ana : Request :=
  Runtime.request "adm" "ADMIN" "ana" [("email", JS.Str "bia@clinica.test")].
Definition adm_deletes_bia : Request := Runtime.request "adm" "ADMIN" "bia" [].

(** The administrator books Ana again in the slot she cancelled. *)
Definition adm_reopens : Request :=
  Runtime.request "adm" "ADMIN" "c5" [("status", JS.Str "AGENDADA")].

(** Ana's exam, before any result; Ana then files a result herself. *)
Definition exam_booked : DB :=
  Runtime.after [Runtime.create Exam Runtime.ana_books_exam] Runtime.clinic.
Definition result_row : ResultadoExame.t :=
  ResultadoExame.mk "c5" "bia" "dr-m" (Some "normal") None 1704067200006.
Definition ana_files_result : Request :=
  Runtime.request "ana" "PACIENTE" ""
    [("exameId", JS.Str "c5"); ("pacienteId", JS.Str "ana");
     ("medicoId", JS.Str "dr-m")].

End Scenario.


(** * Properties *)

(** ** Awaited operations, step by step *)

Ltac async :=
  unfold try_catch, including, findUnique, findFirst, findMany, respond, ok,
    await, resolve, throw, read, write, require, String_arg.

Lemma data_field_insert_eq data k v : data_field (<[k := v]> data) k = v.
Proof. unfold data_field. by rewrite lookup_insert_eq. Qed.

Lemma data_field_insert_ne data k k' v :
  k ≠ k' → data_field (<[k := v]> data) k' = data_field data k'.
Proof. intros. unfold data_field. by rewrite lookup_insert_ne. Qed.

Lemma data_field_empty k : data_field ∅ k = JS.Undefined.
Proof. unfold data_field. by rewrite lookup_empty. Qed.

Lemma data_field_singleton_eq k v : data_field {[k := v]} k = v.
Proof. unfold data_field. by rewrite lookup_singleton_eq. Qed.

Lemma data_field_singleton_ne k k' v :
  k ≠ k' → data_field {[k := v]} k' = JS.Undefined.
Proof. intros. unfold data_field. by rewrite lookup_singleton_ne. Qed.

(** ** Cancelling *)

Lemma consulta_update_cancel db id c :
  consulta db !! id = Some c →
  consulta_update (JS.Str id) {["status" := JS.Str "CANCELADA"]} db
  = (inr (id, Consulta.set_status "CANCELADA" c),
     with_consulta (<[id := Consulta.set_status "CANCELADA" c]> (consulta db))
       db).
Proof.
  intros Hc. unfold consulta_update. async. simpl. rewrite Hc.
  rewrite data_field_singleton_eq, data_field_singleton_ne by done.
  reflexivity.
Qed.

Lemma exame_update_cancel db id e :
  exame db !! id = Some e →
  exame_update (JS.Str id) {["status" := JS.Str "CANCELADA"]} db
  = (inr (id, Exame.set_status "CANCELADA" e),
     with_exame (<[id := Exame.set_status "CANCELADA" e]> (exame db)) db).
Proof.
  intros He. unfold exame_update. async. simpl. rewrite He.
  rewrite data_field_singleton_eq, data_field_singleton_ne by done.
  reflexivity.
Qed.

Lemma deleteConsulta_found req db c :
  consulta db !! params_id req = Some c →
  deleteConsulta req db =
    if cancel_denied req (Consulta.pacienteId c)
    then (mkResponse 403
            (Error "AUTH_FORBIDDEN"
               "Voce nao tem permissao para cancelar esta consulta"), db)
    else (mkResponse 200
            (OneConsulta (Some "Consulta cancelada com sucesso")
               (mkConsultaView (params_id req)
                  (Consulta.set_status "CANCELADA" c) None None)),
          with_consulta
            (<[params_id req := Consulta.set_status "CANCELADA" c]>
               (consulta db)) db).
Proof.
  intros Hc. unfold deleteConsulta, cancel_denied.
  unfold try_catch, including, findUnique, await at 1 2 3 4 5.
  simpl. unfold read at 1, resolve at 1. rewrite Hc.
  destruct (is_PACIENTE req && _); [done|].
  unfold await. rewrite (consulta_update_cancel _ _ _ Hc). done.
Qed.

Lemma deleteExame_found req db e :
  exame db !! params_id req = Some e →
  deleteExame req db =
    if cancel_denied req (Exame.pacienteId e)
    then (mkResponse 403
            (Error "AUTH_FORBIDDEN"
               "Voce nao tem permissao para cancelar este exame"), db)
    else (mkResponse 200
            (OneExame (Some "Exame cancelado com sucesso")
               (mkExameView (params_id req)
                  (Exame.set_status "CANCELADA" e) None None None)),
          with_exame
            (<[params_id req := Exame.set_status "CANCELADA" e]> (exame db))
            db).
Proof.
  intros He. unfold deleteExame, cancel_denied.
  unfold try_catch, including, findUnique, await at 1 2 3 4 5.
  simpl. unfold read at 1, resolve at 1. rewrite He.
  destruct (is_PACIENTE req && _); [done|].
  unfold await. rewrite (exame_update_cancel _ _ _ He). done.
Qed.

Lemma deleteConsulta_missing req db :
  consulta db !! params_id req = None →
  deleteConsulta req db
  = (mkResponse 404 (Error "RESOURCE_NOT_FOUND" "Consulta nao encontrada"), db).
Proof. intros Hc. unfold deleteConsulta. async. simpl. by rewrite Hc. Qed.

Lemma bookings_consulta db id b :
  bookings Appointment db !! id = Some b →
  ∃ c, consulta db !! id = Some c ∧ b = booking_of_consulta c.
Proof.
  unfold bookings. rewrite lookup_fmap. intros H.
  apply fmap_Some in H as (c & ? & ?). eauto.
Qed.

Lemma bookings_exame db id b :
  bookings Exam db !! id = Some b →
  ∃ e, exame db !! id = Some e ∧ b = booking_of_exame e.
Proof.
  unfold bookings. rewrite lookup_fmap. intros H.
  apply fmap_Some in H as (e & ? & ?). eauto.
Qed.

Lemma returned_no_error r : returned r ≠ [] → code_of r = None.
Proof. unfold returned, code_of. by destruct (json r). Qed.

(** What a cancel request does to a stored booking. *)
Lemma cancel_found k req db b :
  bookings k db !! params_id req = Some b →
  if cancel_denied req (b_pacienteId b)
  then cancel k req db
       = (mkResponse 403
            (Error "AUTH_FORBIDDEN"
               match k with
               | Appointment =>
                   "Voce nao tem permissao para cancelar esta consulta"
               | Exam => "Voce nao tem permissao para cancelar este exame"
               end), db)
  else status (cancel k req db).1 = 200
       ∧ returned (cancel k req db).1 = [(params_id req, cancelled b)]
       ∧ bookings k (cancel k req db).2
         = <[params_id req := cancelled b]> (bookings k db).
Proof.
  destruct k; intros Hb.
  - apply bookings_consulta in Hb as (c & Hc & ->).
    simpl. rewrite (deleteConsulta_found _ _ _ Hc).
    destruct (cancel_denied _ _); [done|].
    simpl. split_and!; try done. by rewrite fmap_insert.
  - apply bookings_exame in Hb as (e & He & ->).
    simpl. rewrite (deleteExame_found _ _ _ He).
    destruct (cancel_denied _ _); [done|].
    simpl. split_and!; try done. by rewrite fmap_insert.
Qed.

(** A cancel request that goes through changes the one row and nothing
    else of the database. *)
Lemma cancel_twice_same_database k req1 req2 db b :
  bookings k db !! params_id req1 = Some b →
  params_id req2 = params_id req1 →
  cancel_denied req1 (b_pacienteId b) = false →
  cancel_denied req2 (b_pacienteId b) = false →
  (cancel k req2 (cancel k req1 db).2).2 = (cancel k req1 db).2.
Proof.
  destruct k; intros Hb Hid H1 H2.
  - apply bookings_consulta in Hb as (c & Hc & ->). simpl in *.
    rewrite (deleteConsulta_found _ _ _ Hc), H1. simpl.
    erewrite deleteConsulta_found
      by (simpl; rewrite Hid; apply lookup_insert_eq).
    simpl. rewrite H2. simpl. unfold with_consulta. simpl.
    rewrite Hid. by rewrite insert_insert_eq.
  - apply bookings_exame in Hb as (e & He & ->). simpl in *.
    rewrite (deleteExame_found _ _ _ He), H1. simpl.
    erewrite deleteExame_found
      by (simpl; rewrite Hid; apply lookup_insert_eq).
    simpl. rewrite H2. simpl. unfold with_exame. simpl.
    rewrite Hid. by rewrite insert_insert_eq.
Qed.

(** C5: cancelling an existing booking twice, each time by a caller the
    permission check lets through, succeeds both times; after each call
    the stored status is CANCELADA, and the second call leaves the
    database as the first one left it. *)
Theorem cancel_twice_idempotent k req1 req2 db b :
  bookings k db !! params_id req1 = Some b →
  params_id req2 = params_id req1 →
  cancel_denied req1 (b_pacienteId b) = false →
  cancel_denied req2 (b_pacienteId b) = false →
  let first := cancel k req1 db in
  let second := cancel k req2 first.2 in
  status first.1 = 200
  ∧ b_status <$> bookings k first.2 !! params_id req1 = Some "CANCELADA"
  ∧ status second.1 = 200
  ∧ code_of second.1 = None
  ∧ b_status <$> bookings k second.2 !! params_id req1 = Some "CANCELADA"
  ∧ returned second.1 = returned first.1
  ∧ second.2 = first.2.
Proof.
  intros Hb Hid H1 H2 first second.
  pose proof (cancel_found k req1 db b Hb) as F1. rewrite H1 in F1.
  destruct F1 as (S1 & R1 & B1). fold first in S1, R1, B1.
  assert (Hb1 : bookings k first.2 !! params_id req2 = Some (cancelled b)).
  { rewrite B1, Hid. apply lookup_insert_eq. }
  pose proof (cancel_found k req2 first.2 _ Hb1) as F2.
  simpl in F2. rewrite H2 in F2. destruct F2 as (S2 & R2 & B2).
  fold second in S2, R2, B2.
  split_and!.
  - done.
  - rewrite <-Hid, Hb1. done.
  - done.
  - apply returned_no_error. by rewrite R2.
  - rewrite B2, <-Hid, lookup_insert_eq. done.
  - rewrite R1, R2, Hid. done.
  - by apply cancel_twice_same_database with b.
Qed.

(** C6: cancelling an appointment is refused for one reason only, a
    patient who is not the patient of the appointment; a doctor who is
    not the doctor of the appointment is let through, and the cancel
    keeps the row: after it the row under the key has status CANCELADA,
    its other columns are what they were, and so is every other row. *)
Theorem deleteConsulta_permission req db c :
  consulta db !! params_id req = Some c →
  let r := (deleteConsulta req db).1 in
  let db' := (deleteConsulta req db).2 in
  (status r = 403 ↔
     userPerfil req = "PACIENTE" ∧ Consulta.pacienteId c ≠ userId req)
  ∧ (status r = 403 → code_of r = Some "AUTH_FORBIDDEN" ∧ db' = db)
  ∧ (userPerfil req = "MEDICO" → Consulta.medicoId c ≠ userId req →
     status r = 200)
  ∧ (status r ≠ 403 →
     status r = 200
     ∧ (∃ c', consulta db' !! params_id req = Some c'
              ∧ Consulta.status c' = "CANCELADA"
              ∧ Consulta.pacienteId c' = Consulta.pacienteId c
              ∧ Consulta.medicoId c' = Consulta.medicoId c
              ∧ Consulta.dia c' = Consulta.dia c
              ∧ Consulta.hora c' = Consulta.hora c
              ∧ Consulta.dataHora c' = Consulta.dataHora c
              ∧ Consulta.detalhes c' = Consulta.detalhes c)
     ∧ dom (consulta db') = dom (consulta db)
     ∧ ∀ id, id ≠ params_id req → consulta db' !! id = consulta db !! id).
Proof.
  intros Hc r db'. subst r db'. rewrite (deleteConsulta_found _ _ _ Hc).
  unfold cancel_denied, is_PACIENTE.
  destruct (String.eqb_spec (userPerfil req) "PACIENTE") as [HP|HP];
    destruct (String.eqb_spec (Consulta.pacienteId c) (userId req)) as [HI|HI];
    simpl.
  1, 3, 4: split_and!;
    [ split; [done | intros [? ?]; congruence]
    | done
    | done
    | intros _; split_and!;
      [ done
      | exists (Consulta.set_status "CANCELADA" c);
        split; [apply lookup_insert_eq | done]
      | by apply dom_insert_lookup_L
      | intros; by apply lookup_insert_ne ] ].
  split_and!; [done | done | | done].
  intros HM. rewrite HM in HP. done.
Qed.

(** ** Updating *)

Lemma with_consulta_id db c id :
  consulta db !! id = Some c →
  with_consulta (<[id := c]> (consulta db)) db = db.
Proof. intros H. rewrite (insert_id _ _ _ H). by destruct db. Qed.

Lemma with_exame_id db e id :
  exame db !! id = Some e → with_exame (<[id := e]> (exame db)) db = db.
Proof. intros H. rewrite (insert_id _ _ _ H). by destruct db. Qed.

Lemma dadosAtualizacao_absent status detalhes dados :
  dadosAtualizacao status detalhes = Some dados →
  (status = JS.Undefined → data_field dados "status" = JS.Undefined)
  ∧ (detalhes = JS.Undefined → data_field dados "detalhes" = JS.Undefined).
Proof.
  unfold dadosAtualizacao. intros H. split; intros ->.
  - simpl in H. destruct (JS.strict_ne detalhes JS.Undefined);
      inversion H; subst; clear H.
    + rewrite data_field_insert_ne by done. apply data_field_empty.
    + apply data_field_empty.
  - destruct (JS.truthy status && _); [done|].
    destruct (JS.truthy status); inversion H; subst; clear H.
    + unfold JS.strict_ne, JS.strict_eq. simpl.
      rewrite data_field_insert_ne by done. apply data_field_empty.
    + apply data_field_empty.
Qed.

Ltac updated :=
  unfold consulta_updated, exame_updated; simpl;
  split_and!; try done; intros; congruence.

Lemma consulta_update_frame id data db c :
  consulta db !! id = Some c →
  ∃ c', (consulta_update (JS.Str id) data db).2
        = with_consulta (<[id := c']> (consulta db)) db
        ∧ consulta_updated data c c'.
Proof.
  intros Hc. unfold consulta_update. async. simpl. rewrite Hc.
  unfold set_enum, set_optional_String.
  destruct (data_field data "status") as [| |?|s] eqn:Es;
    try (exists c; split; [by rewrite with_consulta_id | updated]).
  - destruct (data_field data "detalhes") as [| |?|d] eqn:Ed; simpl.
    + eexists; split; [reflexivity | updated].
    + eexists; split; [reflexivity | updated].
    + exists c; split; [by rewrite with_consulta_id | updated].
    + eexists; split; [reflexivity | updated].
  - destruct (bool_decide (s ∈ statusValidos)); simpl;
      try (exists c; split; [by rewrite with_consulta_id | updated]).
    destruct (data_field data "detalhes") as [| |?|d] eqn:Ed; simpl.
    + eexists; split; [reflexivity | updated].
    + eexists; split; [reflexivity | updated].
    + exists c; split; [by rewrite with_consulta_id | updated].
    + eexists; split; [reflexivity | updated].
Qed.

Lemma exame_update_frame id data db e :
  exame db !! id = Some e →
  ∃ e', (exame_update (JS.Str id) data db).2
        = with_exame (<[id := e']> (exame db)) db
        ∧ exame_updated data e e'.
Proof.
  intros He. unfold exame_update. async. simpl. rewrite He.
  unfold set_enum, set_optional_String.
  destruct (data_field data "status") as [| |?|s] eqn:Es;
    try (exists e; split; [by rewrite with_exame_id | updated]).
  - destruct (data_field data "detalhes") as [| |?|d] eqn:Ed; simpl.
    + eexists; split; [reflexivity | updated].
    + eexists; split; [reflexivity | updated].
    + exists e; split; [by rewrite with_exame_id | updated].
    + eexists; split; [reflexivity | updated].
  - destruct (bool_decide (s ∈ statusValidos)); simpl;
      try (exists e; split; [by rewrite with_exame_id | updated]).
    destruct (data_field data "detalhes") as [| |?|d] eqn:Ed; simpl.
    + eexists; split; [reflexivity | updated].
    + eexists; split; [reflexivity | updated].
    + exists e; split; [by rewrite with_exame_id | updated].
    + eexists; split; [reflexivity | updated].
Qed.

Lemma prop_absent req k : body req !! k = None → prop req k = JS.Undefined.
Proof. unfold prop. by intros ->. Qed.

Lemma updateConsulta_frame req db c :
  consulta db !! params_id req = Some c →
  ∃ c', (updateConsulta req db).2
        = with_consulta (<[params_id req := c']> (consulta db)) db
        ∧ Consulta.pacienteId c' = Consulta.pacienteId c
        ∧ Consulta.medicoId c' = Consulta.medicoId c
        ∧ Consulta.dia c' = Consulta.dia c
        ∧ Consulta.hora c' = Consulta.hora c
        ∧ Consulta.dataHora c' = Consulta.dataHora c
        ∧ (body req !! "status" = None →
           Consulta.status c' = Consulta.status c)
        ∧ (body req !! "detalhes" = None →
           Consulta.detalhes c' = Consulta.detalhes c).
Proof.
  intros Hc.
  assert (Same : ∃ c', db = with_consulta (<[params_id req := c']> (consulta db)) db
        ∧ Consulta.pacienteId c' = Consulta.pacienteId c
        ∧ Consulta.medicoId c' = Consulta.medicoId c
        ∧ Consulta.dia c' = Consulta.dia c
        ∧ Consulta.hora c' = Consulta.hora c
        ∧ Consulta.dataHora c' = Consulta.dataHora c
        ∧ (body req !! "status" = None →
           Consulta.status c' = Consulta.status c)
        ∧ (body req !! "detalhes" = None →
           Consulta.detalhes c' = Consulta.detalhes c)).
  { exists c. split; [by rewrite with_consulta_id | by repeat split]. }
  unfold updateConsulta.
  unfold try_catch, including, findUnique, await at 1 2.
  simpl. unfold read at 1, resolve at 1, await at 1. simpl. rewrite Hc.
  destruct (is_PACIENTE req && _); [exact Same|].
  destruct (is_MEDICO req && _); [exact Same|].
  destruct (dadosAtualizacao _ _) as [dados|] eqn:Ed; [|exact Same].
  destruct (consulta_update_frame (params_id req) dados db c Hc)
    as (c' & Hdb & Hp & Hm & Hd & Hh & Ht & Hs & Hx).
  apply dadosAtualizacao_absent in Ed as [Es Ex].
  exists c'. split.
  - rewrite <-Hdb. unfold await, read, resolve, respond, ok.
    destruct (consulta_update _ _ _) as [[?|?] ?]; done.
  - split_and!; try done.
    + intros Hn. apply Hs, Es. by apply prop_absent.
    + intros Hn. apply Hx, Ex. by apply prop_absent.
Qed.

Lemma updateExame_frame req db e :
  exame db !! params_id req = Some e →
  ∃ e', (updateExame req db).2
        = with_exame (<[params_id req := e']> (exame db)) db
        ∧ Exame.nome e' = Exame.nome e
        ∧ Exame.pacienteId e' = Exame.pacienteId e
        ∧ Exame.medicoId e' = Exame.medicoId e
        ∧ Exame.dia e' = Exame.dia e
        ∧ Exame.hora e' = Exame.hora e
        ∧ Exame.dataHora e' = Exame.dataHora e
        ∧ (body req !! "status" = None → Exame.status e' = Exame.status e)
        ∧ (body req !! "detalhes" = None →
           Exame.detalhes e' = Exame.detalhes e).
Proof.
  intros He.
  assert (Same : ∃ e', db = with_exame (<[params_id req := e']> (exame db)) db
        ∧ Exame.nome e' = Exame.nome e
        ∧ Exame.pacienteId e' = Exame.pacienteId e
        ∧ Exame.medicoId e' = Exame.medicoId e
        ∧ Exame.dia e' = Exame.dia e
        ∧ Exame.hora e' = Exame.hora e
        ∧ Exame.dataHora e' = Exame.dataHora e
        ∧ (body req !! "status" = None → Exame.status e' = Exame.status e)
        ∧ (body req !! "detalhes" = None →
           Exame.detalhes e' = Exame.detalhes e)).
  { exists e. split; [by rewrite with_exame_id | by repeat split]. }
  unfold updateExame.
  unfold try_catch, including, findUnique, await at 1 2.
  simpl. unfold read at 1, resolve at 1, await at 1. simpl. rewrite He.
  destruct (is_PACIENTE req && _); [exact Same|].
  destruct (is_MEDICO req && _); [exact Same|].
  destruct (dadosAtualizacao _ _) as [dados|] eqn:Ed; [|exact Same].
  destruct (exame_update_frame (params_id req) dados db e He)
    as (e' & Hdb & Hn & Hp & Hm & Hd & Hh & Ht & Hs & Hx).
  apply dadosAtualizacao_absent in Ed as [Es Ex].
  exists e'. split.
  - rewrite <-Hdb. unfold await, read, resolve, respond, ok.
    destruct (exame_update _ _ _) as [[?|?] ?]; done.
  - split_and!; try done.
    + intros Hn'. apply Hs, Es. by apply prop_absent.
    + intros Hn'. apply Hx, Ex. by apply prop_absent.
Qed.

(** C9: an update request leaves every field it does not supply as it
    was: the patient, the doctor, the date, the time and the combined
    timestamp always (and the name of an exam), the status when the
    request has no status, the free text when the request has no free
    text.  The other bookings and the other tables do not change
    either. *)
Theorem update_keeps_unsupplied_fields k req db b :
  bookings k db !! params_id req = Some b →
  let db' := (update k req db).2 in
  ∃ b', bookings k db' !! params_id req = Some b'
    ∧ b_nome b' = b_nome b
    ∧ b_pacienteId b' = b_pacienteId b
    ∧ b_medicoId b' = b_medicoId b
    ∧ b_dia b' = b_dia b
    ∧ b_hora b' = b_hora b
    ∧ b_dataHora b' = b_dataHora b
    ∧ (body req !! "status" = None → b_status b' = b_status b)
    ∧ (body req !! "detalhes" = None → b_detalhes b' = b_detalhes b)
    ∧ (∀ id, id ≠ params_id req → bookings k db' !! id = bookings k db !! id)
    ∧ usuario db' = usuario db
    ∧ resultadoExame db' = resultadoExame db
    ∧ pushToken db' = pushToken db.
Proof.
  destruct k; intros Hb db'; subst db'; unfold update.
  - apply bookings_consulta in Hb as (c & Hc & ->).
    destruct (updateConsulta_frame req db c Hc)
      as (c' & -> & Hp & Hm & Hd & Hh & Ht & Hs & Hx).
    exists (booking_of_consulta c'). simpl.
    rewrite lookup_fmap, lookup_insert_eq. simpl.
    split_and!; try done; try congruence.
    + intros id Hid. by rewrite !lookup_fmap, lookup_insert_ne.
  - apply bookings_exame in Hb as (e & He & ->).
    destruct (updateExame_frame req db e He)
      as (e' & -> & Hn & Hp & Hm & Hd & Hh & Ht & Hs & Hx).
    exists (booking_of_exame e'). simpl.
    rewrite lookup_fmap, lookup_insert_eq. simpl.
    split_and!; try done; try congruence.
    + intros id Hid. by rewrite !lookup_fmap, lookup_insert_ne.
Qed.

(** ** Times of day *)

Example parseInt_decimal : JS.parseInt (JS.Str "10") = JS.Finite 10.
Proof. reflexivity. Qed.
Example parseInt_prefix : JS.parseInt (JS.Str " 7h") = JS.Finite 7.
Proof. reflexivity. Qed.
Example parseInt_hex : JS.parseInt (JS.Str "0x1A") = JS.Finite 26.
Proof. reflexivity. Qed.
Example parseInt_negative : JS.parseInt (JS.Str "-3") = JS.Finite (-3).
Proof. reflexivity. Qed.
Example parseInt_letters : JS.parseInt (JS.Str "abc") = JS.NaN.
Proof. reflexivity. Qed.
Example parseInt_undefined : JS.parseInt JS.Undefined = JS.NaN.
Proof. reflexivity. Qed.
Example parseInt_rounds :
  JS.parseInt (JS.Str "9007199254740993") = JS.Finite 9007199254740992.
Proof. vm_compute. reflexivity. Qed.
Example round53_ties :
  JS.round53 9007199254740995 = 9007199254740996
  ∧ JS.round53 (-9007199254740997) = -9007199254740996
  ∧ JS.round53 1152921504610800000 = 1152921504610800128.
Proof. split_and!; vm_compute; reflexivity. Qed.
Example of_integer_overflows :
  JS.of_integer (2 ^ 1024 - 2 ^ 970) = JS.Infinity false
  ∧ JS.of_integer (2 ^ 1024 - 2 ^ 970 - 1) = JS.Finite (2 ^ 1024 - 2 ^ 971)
  ∧ JS.of_integer (- 2 ^ 1024) = JS.Infinity true
  ∧ JS.add (JS.Infinity false) (JS.Infinity true) = JS.NaN.
Proof. split_and!; vm_compute; reflexivity. Qed.
Example MakeTime_rounds :
  JS.MakeTime (JS.Finite 320255973503) (JS.Finite (-19215358410176))
    (JS.Finite 0) (JS.Finite 0)
  = JS.Finite 240128.
Proof. vm_compute. reflexivity. Qed.
Example split_two : JS.split ":" "10:30" = ["10"; "30"].
Proof. reflexivity. Qed.
Example split_one : JS.split ":" "1030" = ["1030"].
Proof. reflexivity. Qed.
Example split_three : JS.split ":" "10:30:" = ["10"; "30"; ""].
Proof. reflexivity. Qed.
Example Date_parse_2024 : Runtime.Date_parse "2024-01-01" = Some 1704067200000.
Proof. reflexivity. Qed.
Example Date_parse_runs_over :
  Runtime.Date_parse "2024-02-30" = Some 1709251200000.
Proof. reflexivity. Qed.

(** *** Doubles

    An integer below 2^53 is its own double; the double of a larger one is
    at least 2^53. *)
Lemma two53_below_overflow : JS.two53 < JS.overflow.
Proof. by vm_compute. Qed.

Lemma round53_exact x : Z.abs x < JS.two53 → JS.round53 x = x.
Proof.
  intros Hx. unfold JS.round53.
  by destruct (Z.ltb_spec (Z.abs x) JS.two53); [|lia].
Qed.

Lemma of_integer_exact x : Z.abs x < JS.two53 → JS.of_integer x = JS.Finite x.
Proof.
  intros Hx. unfold JS.of_integer. rewrite (round53_exact x Hx).
  pose proof two53_below_overflow.
  by destruct (Z.leb_spec JS.overflow (Z.abs x)); [lia|].
Qed.

Lemma round53_large x :
  JS.two53 ≤ Z.abs x → JS.two53 ≤ Z.abs (JS.round53 x).
Proof.
  intros Hx. unfold JS.round53.
  destruct (Z.ltb_spec (Z.abs x) JS.two53); [lia|].
  set (a := Z.abs x) in *.
  assert (Hlog : 53 ≤ Z.log2 a).
  { change 53 with (Z.log2 JS.two53). by apply Z.log2_le_mono. }
  set (e := Z.log2 a - 52).
  assert (He : 1 ≤ e) by (unfold e; lia).
  assert (Ha : 2 ^ 52 * 2 ^ e ≤ a).
  { rewrite <-Z.pow_add_r by lia. replace (52 + e) with (Z.log2 a)
      by (unfold e; lia).
    apply Z.log2_spec. unfold JS.two53 in *. lia. }
  assert (Hp : 2 ≤ 2 ^ e).
  { change 2 with (2 ^ 1) at 1. apply Z.pow_le_mono_r; lia. }
  assert (Hq : 2 ^ 52 ≤ a `div` 2 ^ e).
  { apply Z.div_le_lower_bound; lia. }
  set (q := a `div` 2 ^ e) in *.
  match goal with
  | |- context [if ?c then q else q + 1] =>
      set (q' := if c then q else q + 1)
  end.
  assert (Hq' : q ≤ q') by (unfold q'; case_match; lia).
  assert (Hr : JS.two53 ≤ q' * 2 ^ e).
  { change JS.two53 with (2 ^ 52 * 2). nia. }
  unfold JS.two53 in *. destruct x; simpl Z.sgn; lia.
Qed.

Lemma finite_of_integer_large x u :
  JS.two53 ≤ Z.abs x → JS.finite (JS.of_integer x) = Some u →
  JS.two53 ≤ Z.abs u.
Proof.
  intros Hx. unfold JS.of_integer. case_match; [done|].
  intros [= <-]. by apply round53_large.
Qed.

(** For an hour and a minute of two digits [MakeTime] is exact. *)
Lemma MakeTime_exact h m :
  0 ≤ h < 100 → 0 ≤ m < 100 →
  JS.MakeTime (JS.Finite h) (JS.Finite m) (JS.Finite 0) (JS.Finite 0)
  = JS.Finite (h * JS.msPerHour + m * JS.msPerMinute).
Proof.
  intros Hh Hm. unfold JS.MakeTime, JS.mul. cbn [JS.is_finite andb].
  unfold JS.msPerHour, JS.msPerMinute, JS.msPerSecond.
  rewrite (of_integer_exact (h * 3600000)), (of_integer_exact (m * 60000)),
    (of_integer_exact (0 * 1000)) by (unfold JS.two53; lia).
  cbn [JS.add]. rewrite of_integer_exact by (unfold JS.two53; lia).
  cbn [JS.add]. rewrite of_integer_exact by (unfold JS.two53; lia).
  cbn [JS.add]. rewrite of_integer_exact by (unfold JS.two53; lia).
  f_equal. lia.
Qed.

(** [setHours] computes in integers what the runtime computes in doubles:
    with a time zone, whose offsets are less than a day, the two agree on
    every time value and on all numbers for the hour, the minute, the
    second and the millisecond. *)
Lemma setHours_as_doubles (LocalTZA : Z → bool → Z) t hour min sec ms :
  (∀ t b, Z.abs (LocalTZA t b) ≤ JS.msPerDay) →
  Z.abs t ≤ 8640000000000000 →
  JS.setHours LocalTZA (Some t) hour min sec ms
  = JS.setHours_IEEE LocalTZA (Some t) hour min sec ms.
Proof.
  intros Hzone Ht. unfold JS.setHours, JS.setHours_IEEE, JS.LocalTime.
  simpl. pose proof (Hzone t true) as Hz.
  unfold JS.msPerDay in Hz.
  rewrite of_integer_exact by (unfold JS.two53; lia).
  simpl. set (local := t + LocalTZA t true).
  assert (Hday : Z.abs (JS.Day local * JS.msPerDay) < JS.two53).
  { unfold JS.Day, JS.msPerDay, JS.two53, local.
    Z.div_mod_to_equations. lia. }
  rewrite (of_integer_exact _ Hday).
  destruct (JS.MakeTime hour min sec ms) as [| |time]; try done.
  simpl. unfold JS.UTC, JS.TimeClip.
  set (S := JS.Day local * JS.msPerDay + time) in *.
  destruct (Z.lt_ge_cases (Z.abs S) JS.two53) as [HS|HS].
  - rewrite (of_integer_exact S HS). simpl.
    pose proof (Hzone S false) as Hz'. unfold JS.msPerDay in Hz'.
    destruct (Z.lt_ge_cases (Z.abs (S + - LocalTZA S false)) JS.two53)
      as [Hu|Hu].
    + rewrite (of_integer_exact _ Hu). simpl. by rewrite Z.add_opp_r.
    + destruct (JS.finite _) as [u|] eqn:Eu; simpl.
      * apply finite_of_integer_large in Eu; [|done].
        unfold JS.two53 in *.
        destruct (Z.ltb_spec 8640000000000000 (Z.abs (S - LocalTZA S false)));
          [|lia].
        by destruct (Z.ltb_spec 8640000000000000 (Z.abs u)); [|lia].
      * unfold JS.two53 in *.
        by destruct (Z.ltb_spec 8640000000000000 (Z.abs (S - LocalTZA S false)));
          [|lia].
  - pose proof (Hzone S false) as Hz'. unfold JS.msPerDay in Hz'.
    assert (Hexact : (8640000000000000 <? Z.abs (S - LocalTZA S false)) = true).
    { apply Z.ltb_lt. unfold JS.two53 in *. lia. }
    rewrite Hexact.
    destruct (JS.finite (JS.of_integer S)) as [date|] eqn:Ed; simpl; [|done].
    apply finite_of_integer_large in Ed; [|done].
    pose proof (Hzone date false) as Hz''. unfold JS.msPerDay in Hz''.
    destruct (Z.lt_ge_cases (Z.abs (date + - LocalTZA date false)) JS.two53)
      as [Hu|Hu].
    + rewrite (of_integer_exact _ Hu). simpl. unfold JS.two53 in *.
      by destruct (Z.ltb_spec 8640000000000000
                     (Z.abs (date + - LocalTZA date false))); [|lia].
    + destruct (JS.finite _) as [u|] eqn:Eu; simpl; [|done].
      apply finite_of_integer_large in Eu; [|done]. unfold JS.two53 in *.
      by destruct (Z.ltb_spec 8640000000000000 (Z.abs u)); [|lia].
Qed.

(** In a zone with a fixed offset, [date_at] is the instant whose local
    fields are the given hour and minute, zero seconds and milliseconds,
    on the same local day. *)
Lemma date_at_fields (offset t hour min : Z) :
  0 ≤ hour < 24 → 0 ≤ min < 60 →
  let zone : Z → bool → Z := λ _ _, offset in
  let t' := date_at zone t hour min in
  JS.getHours zone t' = hour
  ∧ JS.getMinutes zone t' = min
  ∧ JS.getSeconds zone t' = 0
  ∧ JS.getMilliseconds zone t' = 0
  ∧ JS.Day (JS.LocalTime zone t') = JS.Day (JS.LocalTime zone t).
Proof.
  intros Hh Hm zone t'. subst t'.
  unfold date_at, JS.getHours, JS.getMinutes, JS.getSeconds,
    JS.getMilliseconds, JS.HourFromTime, JS.MinFromTime, JS.SecFromTime,
    JS.msFromTime, JS.LocalTime, JS.UTC, JS.Day, zone, JS.msPerDay,
    JS.msPerHour, JS.msPerMinute, JS.msPerSecond.
  generalize ((t + offset) `div` 86400000). intros D.
  replace (D * 86400000 + hour * 3600000 + min * 60000 - offset + offset)
    with (D * 86400000 + hour * 3600000 + min * 60000) by lia.
  split_and!; Z.div_mod_to_equations; lia.
Qed.

(** In a zone with a fixed offset, [instant_of] is the instant at which
    the clock shows the given day, hour and minute, zero seconds and
    milliseconds. *)
Lemma instant_of_fields (offset day hour min : Z) :
  0 ≤ hour < 24 → 0 ≤ min < 60 →
  let zone : Z → bool → Z := λ _ _, offset in
  let t := instant_of zone day hour min in
  JS.Day (JS.LocalTime zone t) = day
  ∧ JS.getHours zone t = hour
  ∧ JS.getMinutes zone t = min
  ∧ JS.getSeconds zone t = 0
  ∧ JS.getMilliseconds zone t = 0.
Proof.
  intros Hh Hm zone t. subst t.
  unfold instant_of, JS.getHours, JS.getMinutes, JS.getSeconds,
    JS.getMilliseconds, JS.HourFromTime, JS.MinFromTime, JS.SecFromTime,
    JS.msFromTime, JS.LocalTime, JS.UTC, JS.Day, zone, JS.msPerDay,
    JS.msPerHour, JS.msPerMinute, JS.msPerSecond.
  replace (day * 86400000 + hour * 3600000 + min * 60000 - offset + offset)
    with (day * 86400000 + hour * 3600000 + min * 60000) by lia.
  split_and!; Z.div_mod_to_equations; lia.
Qed.

Lemma is_digit_cases c :
  is_digit c = true →
  c ∈ ["0"; "1"; "2"; "3"; "4"; "5"; "6"; "7"; "8"; "9"]%char.
Proof.
  destruct c as [[] [] [] [] [] [] [] []]; vm_compute; intros H;
    try discriminate H; set_solver.
Qed.

Ltac digit_cases H :=
  apply is_digit_cases in H;
  repeat (apply elem_of_cons in H as [->|H]);
  [ .. | by apply elem_of_nil in H ].

Lemma parseInt_two_digits a b :
  is_digit a = true → is_digit b = true →
  JS.parseInt (JS.Str (String a (String b EmptyString)))
  = JS.Finite (two_digits a b).
Proof. intros Ha Hb. digit_cases Ha; digit_cases Hb; reflexivity. Qed.

Lemma two_digits_range a b :
  is_digit a = true → is_digit b = true → 0 ≤ two_digits a b < 100.
Proof. intros Ha Hb. digit_cases Ha; digit_cases Hb; by vm_compute. Qed.

Lemma digit_not_colon c : is_digit c = true → Ascii.eqb c ":" = false.
Proof. intros Hc. digit_cases Hc; reflexivity. Qed.

Lemma split_HH_MM a b c d :
  is_digit a = true → is_digit b = true →
  is_digit c = true → is_digit d = true →
  JS.split ":" (String a (String b (String ":" (String c (String d EmptyString)))))
  = [String a (String b EmptyString); String c (String d EmptyString)].
Proof.
  intros Ha Hb Hc Hd. cbn [JS.split].
  rewrite (digit_not_colon a Ha), (digit_not_colon b Hb),
    (digit_not_colon c Hc), (digit_not_colon d Hd).
  reflexivity.
Qed.

Lemma HH_MM_inv h :
  HH_MM h = true →
  ∃ a b c d,
    h = String a (String b (String ":" (String c (String d EmptyString))))
    ∧ is_digit a = true ∧ is_digit b = true
    ∧ is_digit c = true ∧ is_digit d = true.
Proof.
  unfold HH_MM. destruct h as [|a [|b [|x rest]]]; try done.
  destruct (Ascii.eqb_spec x ":") as [->|Hx];
    [|destruct x as [[] [] [] [] [] [] [] []]; done].
  destruct rest as [|c [|d [|]]]; try done.
  intros Hh.
  apply andb_prop in Hh as [Hh Hd]. apply andb_prop in Hh as [Hh Hc].
  apply andb_prop in Hh as [Ha Hb]. by exists a, b, c, d.
Qed.

Section Times.
Variable Date_parse : string → option Z.
Variable LocalTZA : Z → bool → Z.

(** The combined timestamp of an HH:MM time is the local day of the date
    at that hour and minute. *)
Lemma slot_time_HH_MM dia h t :
  HH_MM h = true →
  slot_time Date_parse LocalTZA dia (JS.Str h) = Some t →
  ∃ d, JS.new_Date Date_parse dia = Some d
       ∧ t = date_at LocalTZA d (hour_of h) (minute_of h).
Proof.
  intros Hh. apply HH_MM_inv in Hh as (a & b & c & d & -> & Ha & Hb & Hc & Hd).
  unfold slot_time, dataHora_from. rewrite (split_HH_MM a b c d) by done.
  change (JS.element [?x; ?y] 0) with (JS.Str x).
  change (JS.element [?x; ?y] 1) with (JS.Str y).
  rewrite (parseInt_two_digits a b), (parseInt_two_digits c d) by done.
  unfold JS.setHours. destruct (JS.new_Date Date_parse dia) as [t0|]; [|done].
  rewrite MakeTime_exact by by apply two_digits_range.
  unfold JS.MakeDate, JS.TimeClip. case_match; [done|]. intros [= <-].
  exists t0. split; [done|]. unfold date_at.
  simpl hour_of. simpl minute_of. f_equal. lia.
Qed.

End Times.

(** ** Creating a booking *)

Ltac branches :=
  repeat (case_match; unfold resolve, throw in *; simplify_eq/=; try done).

Ltac unfold_create :=
  unfold createConsulta, createExame, combine, consulta_findFirst_slot,
    exame_findFirst_slot, consulta_create, exame_create, foreign_key,
    fresh_key, split_method, optional_String_arg, DateTime_arg, slot_time;
  unfold try_catch, including, findUnique, findFirst, respond, ok, await,
    read, write, require, String_arg.

Lemma truthy_Str s : JS.truthy (JS.Str s) = true ↔ s ≠ "".
Proof.
  simpl. rewrite negb_true_iff. apply String.eqb_neq.
Qed.

Lemma bool_decide_Str p q :
  bool_decide (JS.Str p = JS.Str q) = String.eqb p q.
Proof.
  destruct (String.eqb_spec p q) as [->|Hne].
  - by apply bool_decide_eq_true_2.
  - apply bool_decide_eq_false_2. congruence.
Qed.

Ltac tidy :=
  repeat match goal with
    | H : _ || _ = false |- _ => apply orb_false_elim in H as [? ?]
    | H : _ && _ = true |- _ => apply andb_prop in H as [? ?]
    | H : negb _ = false |- _ => apply negb_false_iff in H
    | H : negb _ = true |- _ => apply negb_true_iff in H
    | H : String.eqb _ _ = true |- _ => apply String.eqb_eq in H
    | H : String.eqb _ "" = false |- _ => apply String.eqb_neq in H
    | H : context [bool_decide (JS.Str _ = JS.Str _)] |- _ =>
        rewrite bool_decide_Str in H
    end.

Section Create.
Variable Date_parse : string → option Z.
Variable LocalTZA : Z → bool → Z.
Variable cuid : DB → string.

(** Once the request has passed the checks on its fields, on the caller,
    on the doctor and on the patient, the outcome depends on the combined
    timestamp, on the slot and on what Prisma makes of the free text. *)
Lemma createConsulta_checked req db p m h u :
  prop req "pacienteId" = JS.Str p → p ≠ "" →
  prop req "medicoId" = JS.Str m → m ≠ "" →
  JS.truthy (prop req "dia") = true →
  prop req "hora" = JS.Str h → h ≠ "" →
  is_PACIENTE req && negb (String.eqb p (userId req)) = false →
  usuario db !! m = Some u → Usuario.perfil u = "MEDICO" →
  is_Some (usuario db !! p) →
  createConsulta Date_parse LocalTZA cuid req db =
    match slot_time Date_parse LocalTZA (prop req "dia") (JS.Str h),
          JS.new_Date Date_parse (prop req "dia") with
    | Some t, Some d =>
        if head (filter (consulta_slot m t) (map_to_list (consulta db)))
             is Some _
        then (mkResponse 409
                (Error "SLOT_UNAVAILABLE"
                   "Horario indisponivel para este medico"), db)
        else if bool_decide (prop req "detalhes" ∈ [JS.Bool true; JS.Bool false])
                || negb (bool_decide (consulta db !! cuid db = None))
        then (mkResponse 500
                (Error "INTERNAL_SERVER_ERROR" "Erro ao criar consulta"), db)
        else
          let row := consulta_of req p m h d t in
          let db' := with_consulta (<[cuid db := row]> (consulta db)) db in
          (mkResponse 201
             (OneConsulta (Some "Consulta agendada com sucesso")
                (consulta_include db' (cuid db, row))), db')
    | _, _ =>
        (mkResponse 500
           (Error "INTERNAL_SERVER_ERROR" "Erro ao criar consulta"), db)
    end.
Proof.
  intros Hp Hp' Hm Hm' Hd Hh Hh' Hperm Hu Hperfil [u' Hu'].
  unfold_create. rewrite Hp, Hm, Hh, Hd. simpl.
  apply String.eqb_neq in Hp', Hm', Hh'. rewrite Hp', Hm', Hh'. simpl.
  unfold JS.strict_ne, JS.strict_eq. rewrite bool_decide_Str, Hperm.
  simpl. rewrite Hu, Hperfil. simpl. rewrite Hu'. simpl.
  destruct (JS.new_Date Date_parse (prop req "dia")) as [d|] eqn:Hnd.
  - destruct (dataHora_from _ _ _ _) as [t|]; [|done].
    simpl. destruct (head _); [done|]. simpl.
    unfold consulta_of.
    destruct (prop req "detalhes") as [| |[]|x]; simpl; try done.
    all: repeat (rewrite ?Hu, ?Hu'; simpl).
    all: by destruct (bool_decide (consulta db !! cuid db = None)).
  - assert (dataHora_from Date_parse LocalTZA (prop req "dia") (JS.split ":" h)
            = None) as -> by (unfold dataHora_from; by rewrite Hnd).
    done.
Qed.

Lemma createExame_checked req db p m h u :
  JS.truthy (prop req "nome") = true →
  prop req "pacienteId" = JS.Str p → p ≠ "" →
  prop req "medicoId" = JS.Str m → m ≠ "" →
  JS.truthy (prop req "dia") = true →
  prop req "hora" = JS.Str h → h ≠ "" →
  is_PACIENTE req && negb (String.eqb p (userId req)) = false →
  usuario db !! m = Some u → Usuario.perfil u = "MEDICO" →
  is_Some (usuario db !! p) →
  createExame Date_parse LocalTZA cuid req db =
    match slot_time Date_parse LocalTZA (prop req "dia") (JS.Str h),
          JS.new_Date Date_parse (prop req "dia") with
    | Some t, Some d =>
        if head (filter (exame_slot m t) (map_to_list (exame db))) is Some _
        then (mkResponse 409
                (Error "SLOT_UNAVAILABLE"
                   "Horario indisponivel para este medico"), db)
        else
          match prop req "nome" with
          | JS.Str n =>
              if bool_decide
                   (prop req "detalhes" ∈ [JS.Bool true; JS.Bool false])
                 || negb (bool_decide (exame db !! cuid db = None))
              then (mkResponse 500
                      (Error "INTERNAL_SERVER_ERROR" "Erro ao criar exame"),
                    db)
              else
                let row := exame_of req n p m h d t in
                let db' := with_exame (<[cuid db := row]> (exame db)) db in
                (mkResponse 201
                   (OneExame (Some "Exame agendado com sucesso")
                      (exame_include false db' (cuid db, row))), db')
          | _ =>
              (mkResponse 500
                 (Error "INTERNAL_SERVER_ERROR" "Erro ao criar exame"), db)
          end
    | _, _ =>
        (mkResponse 500
           (Error "INTERNAL_SERVER_ERROR" "Erro ao criar exame"), db)
    end.
Proof.
  intros Hn Hp Hp' Hm Hm' Hd Hh Hh' Hperm Hu Hperfil [u' Hu'].
  unfold_create. rewrite Hn, Hp, Hm, Hh, Hd. simpl.
  apply String.eqb_neq in Hp', Hm', Hh'. rewrite Hp', Hm', Hh'. simpl.
  unfold JS.strict_ne, JS.strict_eq. rewrite bool_decide_Str, Hperm.
  simpl. rewrite Hu, Hperfil. simpl. rewrite Hu'. simpl.
  destruct (JS.new_Date Date_parse (prop req "dia")) as [d|] eqn:Hnd.
  - destruct (dataHora_from _ _ _ _) as [t|]; [|done].
    simpl. destruct (head _); [done|]. simpl.
    unfold exame_of.
    destruct (prop req "nome") as [| |[]|n]; simpl; try done.
    destruct (prop req "detalhes") as [| |[]|x]; simpl; try done.
    all: repeat (rewrite ?Hu, ?Hu'; simpl).
    all: by destruct (bool_decide (exame db !! cuid db = None)).
  - assert (dataHora_from Date_parse LocalTZA (prop req "dia") (JS.split ":" h)
            = None) as -> by (unfold dataHora_from; by rewrite Hnd).
    done.
Qed.

Lemma create_success k req db :
  status (create Date_parse LocalTZA cuid k req db).1 = 201 →
  ∃ p m h, checks k req db p m h.
Proof.
  destruct k; unfold create; unfold_create; simpl; intros H;
    unfold checks, complete, JS.strict_ne, JS.strict_eq in *; simpl.
  - branches; tidy.
    all: do 3 eexists; split_and!; eauto.
    all: rewrite ?andb_true_iff; split_and!; by try apply truthy_Str.
  - branches; tidy.
    all: do 3 eexists; split_and!; eauto.
    all: rewrite ?andb_true_iff; split_and!; by try apply truthy_Str.
Qed.

End Create.

(** ** Reading a booking back *)

Lemma getConsulta_found req db c :
  consulta db !! params_id req = Some c →
  getConsulta req db =
    if denied req (Consulta.pacienteId c) (Consulta.medicoId c)
    then (mkResponse 403
            (Error "AUTH_FORBIDDEN"
               "Voce nao tem permissao para acessar esta consulta"), db)
    else (mkResponse 200
            (OneConsulta None (consulta_include db (params_id req, c))), db).
Proof.
  intros Hc. unfold getConsulta, denied. async. simpl. rewrite Hc.
  destruct (is_PACIENTE req && _); [done|].
  by destruct (is_MEDICO req && _).
Qed.

Lemma getExame_found req db e :
  exame db !! params_id req = Some e →
  getExame req db =
    if denied req (Exame.pacienteId e) (Exame.medicoId e)
    then (mkResponse 403
            (Error "AUTH_FORBIDDEN"
               "Voce nao tem permissao para acessar este exame"), db)
    else (mkResponse 200
            (OneExame None (exame_include true db (params_id req, e))), db).
Proof.
  intros He. unfold getExame, denied. async. simpl. rewrite He.
  destruct (is_PACIENTE req && _); [done|].
  by destruct (is_MEDICO req && _).
Qed.

Lemma get_found k req db b :
  bookings k db !! params_id req = Some b →
  (get k req db).2 = db
  ∧ if denied req (b_pacienteId b) (b_medicoId b)
    then status (get k req db).1 = 403
         ∧ code_of (get k req db).1 = Some "AUTH_FORBIDDEN"
         ∧ returned (get k req db).1 = []
    else status (get k req db).1 = 200
         ∧ returned (get k req db).1 = [(params_id req, b)].
Proof.
  destruct k; intros Hb; unfold get.
  - apply bookings_consulta in Hb as (c & Hc & ->).
    rewrite (getConsulta_found _ _ _ Hc). simpl.
    by destruct (denied _ _ _).
  - apply bookings_exame in Hb as (e & He & ->).
    rewrite (getExame_found _ _ _ He). simpl.
    by destruct (denied _ _ _).
Qed.

Lemma head_filter_is_Some {A} (P : A → Prop) `{∀ x, Decision (P x)} l :
  is_Some (head (filter P l)) ↔ ∃ x, x ∈ l ∧ P x.
Proof.
  split.
  - intros [x Hx]. exists x. apply head_Some_elem_of in Hx.
    apply list_elem_of_filter in Hx. tauto.
  - intros (x & Hin & HP).
    assert (Hf : x ∈ filter P l) by (apply list_elem_of_filter; tauto).
    destruct (filter P l); [by apply elem_of_nil in Hf | by eexists].
Qed.

Lemma occupied_consulta db m t :
  occupied Appointment db m t
  ↔ is_Some (head (filter (consulta_slot m t) (map_to_list (consulta db)))).
Proof.
  rewrite head_filter_is_Some. split.
  - intros (id & b & Hb & Hm & Ht).
    apply bookings_consulta in Hb as (c & Hc & ->).
    exists (id, c). split; [by apply elem_of_map_to_list | done].
  - intros ([id c] & Hin & Hm & Ht). apply elem_of_map_to_list in Hin.
    exists id, (booking_of_consulta c). split_and!; try done.
    unfold bookings. by rewrite lookup_fmap, Hin.
Qed.

Lemma occupied_exame db m t :
  occupied Exam db m t
  ↔ is_Some (head (filter (exame_slot m t) (map_to_list (exame db)))).
Proof.
  rewrite head_filter_is_Some. split.
  - intros (id & b & Hb & Hm & Ht).
    apply bookings_exame in Hb as (e & He & ->).
    exists (id, e). split; [by apply elem_of_map_to_list | done].
  - intros ([id e] & Hin & Hm & Ht). apply elem_of_map_to_list in Hin.
    exists id, (booking_of_exame e). split_and!; try done.
    unfold bookings. by rewrite lookup_fmap, Hin.
Qed.

Section Created.
Variable Date_parse : string → option Z.
Variable LocalTZA : Z → bool → Z.
Variable cuid : DB → string.

#[local] Abbreviation create_ := (create Date_parse LocalTZA cuid).
#[local] Abbreviation slot_time_ := (slot_time Date_parse LocalTZA).

Lemma slot_time_new_Date dia hora t :
  slot_time_ dia hora = Some t → is_Some (JS.new_Date Date_parse dia).
Proof.
  unfold slot_time, dataHora_from, JS.setHours.
  destruct hora; try done. by destruct (JS.new_Date Date_parse dia).
Qed.

Lemma create_checked k req db p m h :
  checks k req db p m h →
  match slot_time_ (prop req "dia") (JS.Str h) with
  | None =>
      status (create_ k req db).1 = 500
      ∧ code_of (create_ k req db).1 = Some "INTERNAL_SERVER_ERROR"
      ∧ (create_ k req db).2 = db
  | Some t =>
      (occupied k db m t →
       create_ k req db
       = (mkResponse 409
            (Error "SLOT_UNAVAILABLE" "Horario indisponivel para este medico"),
          db))
      ∧ (¬ occupied k db m t →
         (status (create_ k req db).1 = 500
          ∧ code_of (create_ k req db).1 = Some "INTERNAL_SERVER_ERROR"
          ∧ (create_ k req db).2 = db)
         ∨ (status (create_ k req db).1 = 201
            ∧ ∃ d, JS.new_Date Date_parse (prop req "dia") = Some d
                ∧ returned (create_ k req db).1
                  = [(cuid db, booked_as k req p m h d t)]
                ∧ bookings k db !! cuid db = None
                ∧ bookings k (create_ k req db).2
                  = <[cuid db := booked_as k req p m h d t]> (bookings k db)))
  end.
Proof.
  intros (Hc & Hp & Hm & Hh & Hperm & (u & Hu & Hperfil) & Hpat).
  destruct k; unfold complete in Hc; simpl in Hc; tidy.
  - rewrite Hp, Hm, Hh in *.
    repeat match goal with
           | H : JS.truthy (JS.Str _) = true |- _ => apply truthy_Str in H
           end.
    unfold create.
    rewrite (createConsulta_checked _ _ _ req db p m h u) by done.
    destruct (slot_time_ _ _) as [t|] eqn:Ht; [|done].
    destruct (slot_time_new_Date _ _ _ Ht) as [d Hd]. rewrite Hd.
    rewrite occupied_consulta. split.
    + by intros [x ->].
    + intros Hfree. destruct (head _); [by destruct Hfree|].
      destruct (_ || _) eqn:Hbad; [by left|]. right. tidy.
      match goal with
      | H : bool_decide (_ !! _ = None) = true |- _ =>
          apply bool_decide_eq_true_1 in H; rename H into Hfresh
      end.
      simpl. split; [done|]. exists d. split_and!; try done.
      * unfold bookings. by rewrite lookup_fmap, Hfresh.
      * unfold bookings. simpl. by rewrite fmap_insert.
  - rewrite Hp, Hm, Hh in *.
    repeat match goal with
           | H : JS.truthy (JS.Str _) = true |- _ => apply truthy_Str in H
           end.
    unfold create.
    rewrite (createExame_checked _ _ _ req db p m h u) by done.
    destruct (slot_time_ _ _) as [t|] eqn:Ht; [|done].
    destruct (slot_time_new_Date _ _ _ Ht) as [d Hd]. rewrite Hd.
    rewrite occupied_exame. split.
    + by intros [x ->].
    + intros Hfree. destruct (head _); [by destruct Hfree|].
      destruct (prop req "nome") as [| |?|n] eqn:Hn; try by left.
      destruct (_ || _) eqn:Hbad; [by left|]. right. tidy.
      match goal with
      | H : bool_decide (_ !! _ = None) = true |- _ =>
          apply bool_decide_eq_true_1 in H; rename H into Hfresh
      end.
      simpl. split; [done|]. exists d. split_and!; try done.
      * unfold booked_as. by rewrite Hn.
      * unfold bookings. by rewrite lookup_fmap, Hfresh.
      * unfold bookings, booked_as. simpl. by rewrite fmap_insert, Hn.
Qed.


Lemma checks_intro k req db p m h u :
  complete k req = true →
  prop req "pacienteId" = JS.Str p →
  prop req "medicoId" = JS.Str m →
  prop req "hora" = JS.Str h →
  (userPerfil req = "PACIENTE" → p = userId req) →
  usuario db !! m = Some u → Usuario.perfil u = "MEDICO" →
  is_Some (usuario db !! p) →
  checks k req db p m h.
Proof.
  intros Hc Hp Hm Hh Hself Hu Hperfil Hpat.
  unfold checks. split_and!; try done; [|by eauto].
  unfold is_PACIENTE.
  destruct (String.eqb_spec (userPerfil req) "PACIENTE") as [HP|]; [|done].
  rewrite (Hself HP). simpl. by rewrite String.eqb_refl.
Qed.

(** C1, amended: when a create request has passed the checks that come
    first (required fields present, a patient booking for themselves,
    the doctor a stored user with profile MEDICO, the patient a stored
    user) and a booking of the same kind already has that doctor and that
    exact combined timestamp, whatever its status, the answer is 409
    SLOT_UNAVAILABLE and the database is left as it was. *)
Theorem occupied_slot_conflict k req db p m h u t id b :
  complete k req = true →
  prop req "pacienteId" = JS.Str p →
  prop req "medicoId" = JS.Str m →
  prop req "hora" = JS.Str h →
  (userPerfil req = "PACIENTE" → p = userId req) →
  usuario db !! m = Some u → Usuario.perfil u = "MEDICO" →
  is_Some (usuario db !! p) →
  slot_time_ (prop req "dia") (prop req "hora") = Some t →
  bookings k db !! id = Some b →
  b_medicoId b = m → b_dataHora b = t →
  create_ k req db
  = (mkResponse 409
       (Error "SLOT_UNAVAILABLE" "Horario indisponivel para este medico"),
     db).
Proof.
  intros Hc Hp Hm Hh Hself Hu Hperfil Hpat Ht Hb Hbm Hbt.
  assert (Hchecks : checks k req db p m h) by by eapply checks_intro.
  pose proof (create_checked k req db p m h Hchecks) as Hout.
  rewrite Hh in Ht. rewrite Ht in Hout. destruct Hout as [Hocc _].
  apply Hocc. by exists id, b.
Qed.

(** C3, amended: a create request that carries every required field,
    from a caller with profile PACIENTE, for a patient reference that is
    not the caller, is answered 403 AUTH_FORBIDDEN and the database is
    left as it was. *)
Theorem create_for_another_patient_forbidden k req db :
  complete k req = true →
  userPerfil req = "PACIENTE" →
  prop req "pacienteId" ≠ JS.Str (userId req) →
  status (create_ k req db).1 = 403
  ∧ code_of (create_ k req db).1 = Some "AUTH_FORBIDDEN"
  ∧ (create_ k req db).2 = db.
Proof.
  intros Hc HP Hother.
  assert (Hne : JS.strict_ne (prop req "pacienteId") (JS.Str (userId req))
                = true).
  { unfold JS.strict_ne, JS.strict_eq. by rewrite bool_decide_eq_false_2. }
  destruct k; unfold complete in Hc; simpl in Hc; tidy;
    unfold create; unfold_create; unfold is_PACIENTE; rewrite HP, Hne; simpl;
    repeat match goal with
           | H : JS.truthy _ = true |- _ => rewrite H; clear H
           end;
    done.
Qed.


End Created.

(** ** What a caller gets to see *)

Lemma whereClause_scoped req p m :
  where_field (whereClause req) "pacienteId" p →
  where_field (whereClause req) "medicoId" m →
  (userPerfil req = "PACIENTE" → p = userId req)
  ∧ (userPerfil req = "MEDICO" → m = userId req).
Proof.
  unfold whereClause, is_PACIENTE, is_MEDICO, where_field.
  destruct (String.eqb_spec (userPerfil req) "PACIENTE") as [HP|HP].
  - rewrite lookup_insert_eq. intros -> _. split; [done|].
    intros HM. rewrite HM in HP. done.
  - destruct (String.eqb_spec (userPerfil req) "MEDICO") as [HM|HM].
    + rewrite lookup_insert_eq. by intros _ ->.
    + done.
Qed.

Lemma denied_false req p m :
  denied req p m = false →
  (userPerfil req = "PACIENTE" → p = userId req)
  ∧ (userPerfil req = "MEDICO" → m = userId req).
Proof.
  unfold denied, is_PACIENTE, is_MEDICO. intros H.
  apply orb_false_elim in H as [HP HM]. split; intros Hrole.
  - rewrite Hrole in HP. simpl in HP. tidy. done.
  - rewrite Hrole in HM. simpl in HM. tidy. done.
Qed.

Lemma scoped_nil req : scoped req [].
Proof. intros p m H. by apply elem_of_nil in H. Qed.

Lemma scoped_singleton req p m :
  denied req p m = false → scoped req [(p, m)].
Proof.
  intros H p' m' Hin. apply list_elem_of_singleton in Hin as [= -> ->].
  by apply denied_false.
Qed.

Lemma listConsultas_scoped req db :
  scoped req (references (listConsultas req db).1).
Proof.
  unfold listConsultas. async. simpl. intros p m Hin.
  apply list_elem_of_fmap in Hin as (v & [= -> ->] & Hv).
  apply list_elem_of_fmap in Hv as (r & -> & Hr).
  rewrite merge_sort_Permutation in Hr.
  apply list_elem_of_filter in Hr as [[Hp Hm] _].
  by apply whereClause_scoped.
Qed.

Lemma listExames_scoped req db :
  scoped req (references (listExames req db).1).
Proof.
  unfold listExames. async. simpl. intros p m Hin.
  apply list_elem_of_bind in Hin as (v & Hin & Hv).
  apply list_elem_of_fmap in Hv as (r & -> & Hr).
  simpl in Hin. apply list_elem_of_singleton in Hin as [= -> ->].
  rewrite merge_sort_Permutation in Hr.
  apply list_elem_of_filter in Hr as [[Hp Hm] _].
  by apply whereClause_scoped.
Qed.

Lemma listResultados_scoped req db :
  scoped req (references (listResultados req db).1).
Proof.
  unfold listResultados. async. simpl. intros p m Hin.
  apply list_elem_of_fmap in Hin as (v & [= -> ->] & Hv).
  apply list_elem_of_fmap in Hv as (r & -> & Hr).
  rewrite merge_sort_Permutation in Hr.
  apply list_elem_of_filter in Hr as [[Hp Hm] _].
  by apply whereClause_scoped.
Qed.

(** Every list hands a patient only her own records and a doctor only
    his own. *)
Lemma list_all_scoped k req db :
  scoped req (references (list_all k req db).1).
Proof.
  destruct k; [apply listConsultas_scoped | apply listExames_scoped].
Qed.

Lemma getConsulta_scoped req db :
  scoped req (references (getConsulta req db).1).
Proof.
  destruct (consulta db !! params_id req) as [c|] eqn:Hc.
  - rewrite (getConsulta_found _ _ _ Hc).
    destruct (denied _ _ _) eqn:Hd; simpl.
    + apply scoped_nil.
    + by apply scoped_singleton.
  - unfold getConsulta. async. simpl. rewrite Hc. apply scoped_nil.
Qed.

Lemma getResultado_found req db r :
  resultadoExame db !! params_id req = Some r →
  getResultado req db =
    if denied req (ResultadoExame.pacienteId r) (ResultadoExame.medicoId r)
    then (mkResponse 403
            (Error "AUTH_FORBIDDEN"
               "Voce nao tem permissao para acessar este resultado"), db)
    else (mkResponse 200
            (OneResultado None (resultado_include true db (params_id req, r))),
          db).
Proof.
  intros Hr. unfold getResultado, denied. async. simpl. rewrite Hr.
  destruct (is_PACIENTE req && _); [done|].
  by destruct (is_MEDICO req && _).
Qed.

Lemma getResultado_scoped req db :
  scoped req (references (getResultado req db).1).
Proof.
  destruct (resultadoExame db !! params_id req) as [r|] eqn:Hr.
  - rewrite (getResultado_found _ _ _ Hr).
    destruct (denied _ _ _) eqn:Hd; simpl.
    + apply scoped_nil.
    + by apply scoped_singleton.
  - unfold getResultado. async. simpl. rewrite Hr. apply scoped_nil.
Qed.

(** The exam a get hands out belongs to the caller; the result rows
    joined to it are not looked at. *)
Lemma getExame_row_scoped req db :
  scoped req (take 1 (references (getExame req db).1)).
Proof.
  destruct (exame db !! params_id req) as [e|] eqn:He.
  - rewrite (getExame_found _ _ _ He).
    destruct (denied _ _ _) eqn:Hd; simpl.
    + apply scoped_nil.
    + by apply scoped_singleton.
  - unfold getExame. async. simpl. rewrite He. apply scoped_nil.
Qed.

(** C2: a patient who reads her own exam receives, joined to it, the
    result row that a doctor filed for that exam under another patient's
    name, although every list and every other get hands a patient only
    records of her own, and the get of that very result refuses her. *)
Theorem getExame_joins_result_of_another_patient :
  status (getExame (Runtime.request "ana" "PACIENTE" "c5" [])
            Runtime.exam_with_result).1 = 200
  ∧ ("bia", "dr-m")
    ∈ references (getExame (Runtime.request "ana" "PACIENTE" "c5" [])
                    Runtime.exam_with_result).1
  ∧ ¬ scoped (Runtime.request "ana" "PACIENTE" "c5" [])
        (references (getExame (Runtime.request "ana" "PACIENTE" "c5" [])
                       Runtime.exam_with_result).1)
  ∧ getResultado (Runtime.request "ana" "PACIENTE" "c6" [])
      Runtime.exam_with_result
    = (mkResponse 403
         (Error "AUTH_FORBIDDEN"
            "Voce nao tem permissao para acessar este resultado"),
       Runtime.exam_with_result).
Proof.
  assert (Hrefs :
    references (getExame (Runtime.request "ana" "PACIENTE" "c5" [])
                  Runtime.exam_with_result).1
    = [("ana", "dr-m"); ("bia", "dr-m")]) by (vm_compute; reflexivity).
  split_and!.
  - vm_compute. reflexivity.
  - rewrite Hrefs. apply elem_of_cons. right. apply elem_of_cons. by left.
  - rewrite Hrefs. intros Hs. destruct (Hs "bia" "dr-m") as [Hp _].
    + apply elem_of_cons. right. apply elem_of_cons. by left.
    + specialize (Hp eq_refl). discriminate Hp.
  - vm_compute. reflexivity.
Qed.

(** ** Push tokens *)

Lemma pushToken_findFirst_unique db id p :
  unique_tokens db →
  pushToken db !! id = Some p →
  head (filter (has_token (PushToken.token p)) (map_to_list (pushToken db)))
  = Some (id, p).
Proof.
  intros Huniq Hp.
  destruct (head _) as [[id' p']|] eqn:Hhead.
  - apply head_Some_elem_of, list_elem_of_filter in Hhead as [Htok Hin].
    apply elem_of_map_to_list in Hin. unfold has_token in Htok. simpl in Htok.
    assert (id' = id) as -> by (by eapply Huniq).
    congruence.
  - assert (Hsome : is_Some (head (filter (has_token (PushToken.token p))
                                     (map_to_list (pushToken db))))).
    { apply head_filter_is_Some. exists (id, p).
      split; [by apply elem_of_map_to_list | done]. }
    rewrite Hhead in Hsome. by destruct Hsome.
Qed.

(** C7, amended: registering a token that a row already holds, with a
    valid platform, answers 200, hands the row to the caller with the new
    platform and marks it active; after that a delete of the row by the
    owner it had before, when that is not the caller, is answered 403
    AUTH_FORBIDDEN. *)
Theorem register_existing_token_reassigns cuid req db id p t pl :
  unique_tokens db →
  pushToken db !! id = Some p →
  PushToken.token p = t → t ≠ "" →
  prop req "token" = JS.Str t →
  prop req "plataforma" = JS.Str pl → pl ∈ plataformasValidas →
  let out := registerPushToken cuid req db in
  let p' := PushToken.mk (userId req) t pl true in
  out.1 = mkResponse 200 (OnePushToken "Token atualizado com sucesso" id p')
  ∧ pushToken out.2 = <[id := p']> (pushToken db)
  ∧ ∀ del, params_id del = id →
           userId del = PushToken.usuarioId p →
           userId del ≠ userId req →
           deletePushToken del out.2
           = (mkResponse 403
                (Error "AUTH_FORBIDDEN"
                   "Voce nao tem permissao para remover este token"),
              out.2).
Proof.
  intros Huniq Hp Htok Hne Ht Hpl Hvalid out p'.
  pose proof (pushToken_findFirst_unique db id p Huniq Hp) as Hfind.
  rewrite Htok in Hfind.
  assert (Hout : out = (mkResponse 200
                          (OnePushToken "Token atualizado com sucesso" id p'),
                        with_pushToken (<[id := p']> (pushToken db)) db)).
  { assert (pl ≠ "") as Hpl'.
    { intros ->. unfold plataformasValidas in Hvalid.
      repeat (apply elem_of_cons in Hvalid as [?|Hvalid]; [done|]).
      by apply elem_of_nil in Hvalid. }
    subst out. unfold registerPushToken, pushToken_findUnique_token,
      pushToken_update_token. async. rewrite Ht, Hpl.
    remember plataformasValidas as valid eqn:Hv. simpl.
    apply String.eqb_neq in Hne. rewrite Hne. simpl.
    apply String.eqb_neq in Hpl'. rewrite Hpl'. simpl.
    destruct (bool_decide (pl ∈ valid)) eqn:E;
      [|by apply bool_decide_eq_false_1 in E].
    simpl. rewrite Hfind. simpl. rewrite Hfind. simpl.
    by rewrite Htok. }
  rewrite Hout. simpl. split_and!; try done.
  intros del Hid Howner Hother.
  unfold deletePushToken. async. simpl. rewrite Hid, lookup_insert_eq. simpl.
  apply not_eq_sym in Hother. apply String.eqb_neq in Hother.
  by rewrite Hother.
Qed.

(** ** Passwords *)

Section Passwords.
Variable bcrypt_hash : string → string.
Variable cuid : DB → string.
Variable now : DB → Z.

Lemma register_short_password req db s :
  prop req "senha" = JS.Str s →
  (String.length s < 8)%nat →
  status (register bcrypt_hash cuid now req db).1 = 400
  ∧ code_of (register bcrypt_hash cuid now req db).1 = Some "VALIDATION_ERROR"
  ∧ (register bcrypt_hash cuid now req db).2 = db.
Proof.
  intros Hs Hlen. unfold register, length_lt. async. rewrite Hs.
  destruct (negb _ || _ || _); [done|]. simpl.
  assert ((Z.of_nat (String.length s) <? 8) = true) as -> by lia.
  done.
Qed.

Lemma updateUser_short_password req db s :
  prop req "senha" = JS.Str s →
  (String.length s < 8)%nat →
  s ≠ "" →
  is_Some (usuario db !! params_id req) →
  status (updateUser bcrypt_hash now req db).1 = 400
  ∧ code_of (updateUser bcrypt_hash now req db).1 = Some "VALIDATION_ERROR"
  ∧ (updateUser bcrypt_hash now req db).2 = db.
Proof.
  intros Hs Hlen Hne [u Hu]. unfold updateUser, length_lt. async.
  rewrite Hs. simpl. rewrite Hu.
  destruct (JS.truthy (prop req "perfil") && _); [done|].
  apply String.eqb_neq in Hne. rewrite Hne. simpl.
  assert ((Z.of_nat (String.length s) <? 8) = true) as -> by lia.
  done.
Qed.

(** C8, amended: a register request whose password has fewer than 8
    characters is answered 400 VALIDATION_ERROR and creates no user; so
    is an update request for a stored user whose password is not empty
    and has fewer than 8 characters, and it changes no user. *)
Theorem short_password_rejected req db s :
  prop req "senha" = JS.Str s →
  (String.length s < 8)%nat →
  (status (register bcrypt_hash cuid now req db).1 = 400
   ∧ code_of (register bcrypt_hash cuid now req db).1
     = Some "VALIDATION_ERROR"
   ∧ (register bcrypt_hash cuid now req db).2 = db)
  ∧ (s ≠ "" → is_Some (usuario db !! params_id req) →
     status (updateUser bcrypt_hash now req db).1 = 400
     ∧ code_of (updateUser bcrypt_hash now req db).1
       = Some "VALIDATION_ERROR"
     ∧ (updateUser bcrypt_hash now req db).2 = db).
Proof.
  intros Hs Hlen. split.
  - by apply register_short_password with s.
  - intros Hne Hu. by apply updateUser_short_password with s.
Qed.

End Passwords.

(** ** The theorems at work *)



Lemma occupied_slot_conflict_witness :
  bookings Appointment Runtime.cancelled_slot !! "c5"
  = Some (cancelled Runtime.appointment)
  ∧ Runtime.create Appointment Runtime.bia_books Runtime.cancelled_slot
    = (mkResponse 409
         (Error "SLOT_UNAVAILABLE" "Horario indisponivel para este medico"),
       Runtime.cancelled_slot).
Proof.
  assert (Hb : bookings Appointment Runtime.cancelled_slot !! "c5"
               = Some (cancelled Runtime.appointment))
    by (vm_compute; reflexivity).
  split; [exact Hb|].
  apply (occupied_slot_conflict Runtime.Date_parse Runtime.LocalTZA
           Runtime.cuid Appointment Runtime.bia_books Runtime.cancelled_slot
           "bia" "dr-m" "10:30" (Runtime.user "dr-m" "MEDICO") 1704105000000
           "c5" (cancelled Runtime.appointment)).
  - vm_compute; reflexivity.
  - vm_compute; reflexivity.
  - vm_compute; reflexivity.
  - vm_compute; reflexivity.
  - intros _. vm_compute; reflexivity.
  - vm_compute; reflexivity.
  - vm_compute; reflexivity.
  - exists (Runtime.user "bia" "PACIENTE"). vm_compute; reflexivity.
  - vm_compute; reflexivity.
  - exact Hb.
  - vm_compute; reflexivity.
  - vm_compute; reflexivity.
Defined.

(** The slot of Ana's appointment is taken, and a create for that slot is
    answered 403, not 409: the caller is a patient booking in another
    patient's name. *)
Lemma occupied_slot_answered_403 :
  bookings Appointment Runtime.booked !! "c5" = Some Runtime.appointment
  ∧ prop Runtime.bia_books_for_ana "medicoId"
    = JS.Str (b_medicoId Runtime.appointment)
  ∧ slot_time Runtime.Date_parse Runtime.LocalTZA
      (prop Runtime.bia_books_for_ana "dia")
      (prop Runtime.bia_books_for_ana "hora")
    = Some (b_dataHora Runtime.appointment)
  ∧ Runtime.create Appointment Runtime.bia_books_for_ana Runtime.booked
    = (mkResponse 403
         (Error "AUTH_FORBIDDEN" "Voce so pode agendar consultas para si mesmo"),
       Runtime.booked).
Proof. split_and!; vm_compute; reflexivity. Qed.

Lemma create_for_another_patient_forbidden_witness :
  complete Appointment Runtime.bia_books_for_ana = true
  ∧ status (Runtime.create Appointment Runtime.bia_books_for_ana
              Runtime.clinic).1 = 403
  ∧ (Runtime.create Appointment Runtime.bia_books_for_ana Runtime.clinic).2
    = Runtime.clinic.
Proof.
  assert (Hc : complete Appointment Runtime.bia_books_for_ana = true)
    by (vm_compute; reflexivity).
  split; [exact Hc|].
  destruct (create_for_another_patient_forbidden Runtime.Date_parse
              Runtime.LocalTZA Runtime.cuid Appointment
              Runtime.bia_books_for_ana Runtime.clinic Hc eq_refl)
    as (Hs & _ & Hdb).
  - vm_compute. discriminate.
  - split; [exact Hs | exact Hdb].
Defined.

(** A patient asks for an appointment in another patient's name and
    leaves the time of day out: the answer is 400 VALIDATION_ERROR, not
    403. *)
Lemma create_for_another_patient_answered_400 :
  userPerfil Runtime.bia_books_for_ana_no_hora = "PACIENTE"
  ∧ prop Runtime.bia_books_for_ana_no_hora "pacienteId" = JS.Str "ana"
  ∧ userId Runtime.bia_books_for_ana_no_hora = "bia"
  ∧ Runtime.create Appointment Runtime.bia_books_for_ana_no_hora Runtime.clinic
    = (mkResponse 400
         (Error "VALIDATION_ERROR"
            "Paciente, medico, dia e hora sao obrigatorios"),
       Runtime.clinic).
Proof. split_and!; vm_compute; reflexivity. Qed.

Lemma update_keeps_unsupplied_fields_witness :
  bookings Appointment Runtime.booked !! "c5" = Some Runtime.appointment
  ∧ ∃ b', bookings Appointment
            (update Appointment
               (Runtime.request "adm" "ADMIN" "c5"
                  [("detalhes", JS.Str "em jejum")]) Runtime.booked).2 !! "c5"
          = Some b'
          ∧ b_status b' = "AGENDADA"
          ∧ b_dataHora b' = 1704105000000.
Proof.
  assert (Hb : bookings Appointment Runtime.booked
               !! params_id (Runtime.request "adm" "ADMIN" "c5"
                               [("detalhes", JS.Str "em jejum")])
               = Some Runtime.appointment) by (vm_compute; reflexivity).
  split; [exact Hb|].
  destruct (update_keeps_unsupplied_fields Appointment _ _ _ Hb)
    as (b' & Hb' & _ & _ & _ & _ & _ & Ht & Hs & _).
  exists b'. split; [exact Hb'|]. split; [|exact Ht].
  apply Hs. vm_compute; reflexivity.
Defined.


(** A time of day without a digit: parseInt gives NaN, the date is
    invalid, Prisma rejects it and the handler ends in its catch. *)
Example create_hora_abc :
  Runtime.create Appointment Runtime.ana_books_abc Runtime.clinic
  = (mkResponse 500 (Error "INTERNAL_SERVER_ERROR" "Erro ao criar consulta"),
     Runtime.clinic).
Proof. vm_compute. reflexivity. Qed.

(** An hour and a minute whose milliseconds are beyond 2^53: each product
    is rounded to a multiple of 256, and their sum is 128 ms after the
    00:04 that the integers give. *)
Example slot_time_rounded :
  slot_time Runtime.Date_parse Runtime.LocalTZA (JS.Str "2024-01-01")
    (JS.Str "320255973503:-19215358410176")
  = Some 1704067440128
  ∧ slot_time Runtime.Date_parse Runtime.LocalTZA (JS.Str "2024-01-01")
      (JS.Str "00:04")
    = Some 1704067440000
  ∧ 320255973503 * JS.msPerHour + -19215358410176 * JS.msPerMinute = 240000.
Proof. split_and!; vm_compute; reflexivity. Qed.

(** So with Ana's appointment at 00:04 stored, Bia's request for that
    doctor and that time of day in large numbers finds the slot free. *)
Example create_rounded_slot_free :
  let first :=
    Runtime.create Appointment
      (Runtime.request "ana" "PACIENTE" ""
         (Runtime.booking "ana" "dr-m" "2024-01-01" "00:04"))
      Runtime.clinic in
  let second :=
    Runtime.create Appointment
      (Runtime.request "bia" "PACIENTE" ""
         (Runtime.booking "bia" "dr-m" "2024-01-01"
            "320255973503:-19215358410176"))
      first.2 in
  status first.1 = 201
  ∧ (λ r, b_dataHora r.2) <$> returned first.1 = [1704067440000]
  ∧ status second.1 = 201
  ∧ (λ r, b_dataHora r.2) <$> returned second.1 = [1704067440128].
Proof. cbv zeta. split_and!; vm_compute; reflexivity. Qed.

Lemma unique_tokens_token_registered : unique_tokens Runtime.token_registered.
Proof.
  assert (H : pushToken Runtime.token_registered
              = {["c5" := Runtime.ana_token]}) by (vm_compute; reflexivity).
  intros i j p q Hi Hj _. rewrite H in Hi, Hj.
  apply lookup_singleton_Some in Hi as [<- _].
  by apply lookup_singleton_Some in Hj as [<- _].
Defined.

Lemma register_existing_token_reassigns_witness :
  pushToken Runtime.token_registered !! "c5" = Some Runtime.ana_token
  ∧ pushToken (Runtime.registerPushToken Runtime.bia_registers
                 Runtime.token_registered).2
    = <["c5" := PushToken.mk "bia" "ExponentPushToken[x]" "android" true]>
        (pushToken Runtime.token_registered)
  ∧ deletePushToken (Runtime.request "ana" "PACIENTE" "c5" [])
      (Runtime.registerPushToken Runtime.bia_registers
         Runtime.token_registered).2
    = (mkResponse 403
         (Error "AUTH_FORBIDDEN"
            "Voce nao tem permissao para remover este token"),
       (Runtime.registerPushToken Runtime.bia_registers
          Runtime.token_registered).2).
Proof.
  assert (Hp : pushToken Runtime.token_registered !! "c5"
               = Some Runtime.ana_token) by (vm_compute; reflexivity).
  split; [exact Hp|].
  destruct (register_existing_token_reassigns Runtime.cuid
              Runtime.bia_registers Runtime.token_registered "c5"
              Runtime.ana_token "ExponentPushToken[x]" "android"
              unique_tokens_token_registered Hp eq_refl)
    as (_ & Hdb & Hdel).
  - discriminate.
  - vm_compute; reflexivity.
  - vm_compute; reflexivity.
  - apply elem_of_cons. right. apply elem_of_cons. by left.
  - split; [exact Hdb|].
    apply (Hdel (Runtime.request "ana" "PACIENTE" "c5" []));
      [reflexivity | reflexivity | discriminate].
Defined.

(** Two registrations of a token that a row already holds.  With a
    platform that is not valid the answer is 400 and the row keeps its
    owner.  When the owner registers her own token again, she is the
    owner before and after, and her delete is answered 200. *)
Lemma register_existing_token_other_answers :
  pushToken Runtime.token_registered !! "c5" = Some Runtime.ana_token
  ∧ Runtime.registerPushToken Runtime.bia_registers_windows
      Runtime.token_registered
    = (mkResponse 400 (Error "VALIDATION_ERROR" "Plataforma invalida"),
       Runtime.token_registered)
  ∧ status (Runtime.registerPushToken Runtime.ana_registers
              Runtime.token_registered).1 = 200
  ∧ status (deletePushToken (Runtime.request "ana" "PACIENTE" "c5" [])
              (Runtime.registerPushToken Runtime.ana_registers
                 Runtime.token_registered).2).1 = 200.
Proof. split_and!; vm_compute; reflexivity. Qed.

Lemma short_password_rejected_witness :
  prop Runtime.update_short "senha" = JS.Str "1234567"
  ∧ status (Runtime.register Runtime.update_short Runtime.clinic).1 = 400
  ∧ status (Runtime.updateUser Runtime.update_short Runtime.clinic).1 = 400
  ∧ (Runtime.updateUser Runtime.update_short Runtime.clinic).2
    = Runtime.clinic.
Proof.
  assert (Hs : prop Runtime.update_short "senha" = JS.Str "1234567")
    by (vm_compute; reflexivity).
  split; [exact Hs|].
  destruct (short_password_rejected Runtime.bcrypt_hash Runtime.cuid
              Runtime.now Runtime.update_short Runtime.clinic "1234567" Hs)
    as [(Hr & _ & _) Hu].
  - simpl. lia.
  - split; [exact Hr|]. destruct Hu as (Hu1 & _ & Hu2).
    + discriminate.
    + exists (Runtime.user "ana" "PACIENTE"). vm_compute; reflexivity.
    + split; [exact Hu1 | exact Hu2].
Defined.

(** A registration with a password of seven characters. *)
Example register_short_answer :
  Runtime.register Runtime.register_short Runtime.clinic
  = (mkResponse 400
       (Error "VALIDATION_ERROR" "A senha deve ter no minimo 8 caracteres"),
     Runtime.clinic).
Proof. vm_compute. reflexivity. Qed.

(** Two update requests with a password of fewer than 8 characters.  The
    empty password is taken as no password: the answer is 200 and the
    name of the user changes.  For a user that is not stored the answer
    is 404. *)
Lemma short_password_other_answers :
  prop Runtime.update_empty "senha" = JS.Str ""
  ∧ status (Runtime.updateUser Runtime.update_empty Runtime.clinic).1 = 200
  ∧ Usuario.nome <$> usuario Runtime.clinic !! "ana" = Some "ana"
  ∧ Usuario.nome
      <$> usuario (Runtime.updateUser Runtime.update_empty Runtime.clinic).2
          !! "ana"
    = Some "Ana Maria"
  ∧ prop Runtime.update_nobody "senha" = JS.Str "1234567"
  ∧ Runtime.updateUser Runtime.update_nobody Runtime.clinic
    = (mkResponse 404 (Error "RESOURCE_NOT_FOUND" "Usuario nao encontrado"),
       Runtime.clinic).
Proof. split_and!; vm_compute; reflexivity. Qed.

Lemma cancel_twice_idempotent_witness :
  let req1 := Runtime.request "ana" "PACIENTE" "c5" [] in
  let req2 := Runtime.request "adm" "ADMIN" "c5" [] in
  bookings Appointment Runtime.booked !! "c5" = Some Runtime.appointment
  ∧ status (cancel Appointment req1 Runtime.booked).1 = 200
  ∧ (cancel Appointment req2 (cancel Appointment req1 Runtime.booked).2).2
    = (cancel Appointment req1 Runtime.booked).2.
Proof.
  intros req1 req2.
  assert (H : bookings Appointment Runtime.booked !! params_id req1
              = Some Runtime.appointment) by (vm_compute; reflexivity).
  split; [exact H|].
  pose proof (cancel_twice_idempotent Appointment req1 req2 Runtime.booked
                Runtime.appointment H eq_refl eq_refl eq_refl) as W.
  cbv zeta in W. destruct W as (W1 & _ & _ & _ & _ & _ & W2).
  split; [exact W1 | exact W2].
Defined.

Lemma deleteConsulta_permission_witness :
  let req := Runtime.request "dr-n" "MEDICO" "c5" [] in
  consulta Runtime.booked !! "c5"
  = Some (Consulta.mk "ana" "dr-m" 1704067200000 "10:30" 1704105000000 None
            "AGENDADA")
  ∧ status (deleteConsulta req Runtime.booked).1 = 200
  ∧ ∃ c', consulta (deleteConsulta req Runtime.booked).2 !! "c5" = Some c'
          ∧ Consulta.status c' = "CANCELADA"
          ∧ Consulta.medicoId c' = "dr-m".
Proof.
  intros req.
  assert (H : consulta Runtime.booked !! params_id req
              = Some (Consulta.mk "ana" "dr-m" 1704067200000 "10:30"
                        1704105000000 None "AGENDADA"))
    by (vm_compute; reflexivity).
  split; [exact H|].
  destruct (deleteConsulta_permission req Runtime.booked _ H)
    as (F & _ & W & K).
  assert (Hok : status (deleteConsulta req Runtime.booked).1 = 200)
    by (apply W; [reflexivity | discriminate]).
  split; [exact Hok|].
  destruct K as (_ & (c' & Hc' & Hs & _ & Hm & _) & _).
  - intros Hno. apply F in Hno as [HP _]. discriminate HP.
  - exists c'. split; [exact Hc'|]. split; [exact Hs | exact Hm].
Defined.

(** The appointment after that cancel, as stored. *)
Example deleteConsulta_stored :
  consulta (deleteConsulta (Runtime.request "dr-n" "MEDICO" "c5" [])
              Runtime.booked).2 !! "c5"
  = Some (Consulta.mk "ana" "dr-m" 1704067200000 "10:30" 1704105000000 None
            "CANCELADA").
Proof. vm_compute. reflexivity. Qed.

(** * Further properties of the handlers *)

(** ** What [findMany] returns *)

Lemma findMany_fst_NoDup {A} (table : gmap string A) (P : string * A → Prop)
    `{∀ r, Decision (P r)} (R : relation (string * A))
    `{∀ x y, Decision (R x y)} :
  NoDup (merge_sort R (filter P (map_to_list table))).*1.
Proof.
  rewrite merge_sort_Permutation.
  apply (sublist_NoDup _ (map_to_list table).*1);
    [apply NoDup_fst_map_to_list|].
  apply fmap_sublist, sublist_filter.
Qed.

Lemma findMany_elem_of {A} (table : gmap string A) (P : string * A → Prop)
    `{∀ r, Decision (P r)} (R : relation (string * A))
    `{∀ x y, Decision (R x y)} id a :
  (id, a) ∈ merge_sort R (filter P (map_to_list table))
  ↔ table !! id = Some a ∧ P (id, a).
Proof.
  rewrite merge_sort_Permutation, list_elem_of_filter, elem_of_map_to_list.
  tauto.
Qed.

(** The filter of a list is the permission check of a get. *)
Lemma whereClause_denied req p m :
  where_field (whereClause req) "pacienteId" p
  ∧ where_field (whereClause req) "medicoId" m
  ↔ denied req p m = false.
Proof.
  unfold whereClause, denied, is_PACIENTE, is_MEDICO, where_field.
  destruct (String.eqb (userPerfil req) "PACIENTE") eqn:Hp.
  - apply String.eqb_eq in Hp. rewrite Hp. simpl.
    rewrite lookup_insert_eq, lookup_insert_ne, lookup_empty by done.
    rewrite orb_false_r, negb_false_iff, String.eqb_eq. tauto.
  - destruct (String.eqb (userPerfil req) "MEDICO") eqn:Hm; simpl.
    + rewrite lookup_insert_eq, lookup_insert_ne, lookup_empty by done.
      rewrite negb_false_iff, String.eqb_eq. tauto.
    + rewrite !lookup_empty. tauto.
Qed.

Lemma consulta_dataHora_asc_total : Total consulta_dataHora_asc.
Proof. intros x y. unfold consulta_dataHora_asc. lia. Qed.

Lemma exame_dataHora_asc_total : Total exame_dataHora_asc.
Proof. intros x y. unfold exame_dataHora_asc. lia. Qed.

Lemma resultado_publicadoEm_desc_total : Total resultado_publicadoEm_desc.
Proof. intros x y. unfold resultado_publicadoEm_desc. lia. Qed.

Lemma usuario_criadoEm_desc_total : Total usuario_criadoEm_desc.
Proof. intros x y. unfold usuario_criadoEm_desc. lia. Qed.

(** X1: a list of appointments or of exams answers 200, leaves the
    database as it was, and carries exactly the stored bookings that a
    get would hand to the caller (all of them for a caller who is neither
    a patient nor a doctor), each once, in ascending order of the
    combined timestamp. *)
Theorem list_all_exact k req db :
  let out := list_all k req db in
  status out.1 = 200
  ∧ out.2 = db
  ∧ NoDup (returned out.1).*1
  ∧ (∀ id b, (id, b) ∈ returned out.1
             ↔ bookings k db !! id = Some b
               ∧ denied req (b_pacienteId b) (b_medicoId b) = false)
  ∧ Sorted Z.le (b_dataHora ∘ snd <$> returned out.1).
Proof.
  destruct k; cbv zeta; unfold list_all, listConsultas, listExames; async;
    unfold returned; simpl; rewrite <- !list_fmap_compose.
  - split_and!; [done|done| | |].
    + exact (findMany_fst_NoDup _ _ _).
    + intros id b. rewrite list_elem_of_fmap. unfold bookings.
      rewrite lookup_fmap, fmap_Some. split.
      * intros ([i c] & Heq & Hin). simpl in Heq. simplify_eq.
        apply findMany_elem_of in Hin.
        destruct Hin as [Hc Hw]. split; [by exists c|].
        by apply whereClause_denied.
      * intros [(c & Hc & ->) Hd]. exists (id, c). split; [done|].
        apply findMany_elem_of. split; [done|].
        by apply whereClause_denied in Hd.
    + eapply (Sorted_fmap _ consulta_dataHora_asc);
        [|apply Sorted_merge_sort, consulta_dataHora_asc_total].
      by intros x y.
  - split_and!; [done|done| | |].
    + exact (findMany_fst_NoDup _ _ _).
    + intros id b. rewrite list_elem_of_fmap. unfold bookings.
      rewrite lookup_fmap, fmap_Some. split.
      * intros ([i c] & Heq & Hin). simpl in Heq. simplify_eq.
        apply findMany_elem_of in Hin.
        destruct Hin as [Hc Hw]. split; [by exists c|].
        by apply whereClause_denied.
      * intros [(c & Hc & ->) Hd]. exists (id, c). split; [done|].
        apply findMany_elem_of. split; [done|].
        by apply whereClause_denied in Hd.
    + eapply (Sorted_fmap _ exame_dataHora_asc);
        [|apply Sorted_merge_sort, exame_dataHora_asc_total].
      by intros x y.
Qed.

(** ** What the handlers do to the store

    The rules below follow the shape of an [async] function: a sequence
    of awaits, the last of which may write. *)

Lemma reads_resolve {A} (a : A) : reads (resolve a).
Proof. by intros db. Qed.

Lemma reads_throw {A} e : reads (@throw A e).
Proof. by intros db. Qed.

Lemma reads_read : reads read.
Proof. by intros db. Qed.

Lemma reads_await {A B} (m : Async A) (k : A → Async B) :
  reads m → (∀ a, reads (k a)) → reads (await m k).
Proof.
  intros Hm Hk db. unfold await. specialize (Hm db).
  destruct (m db) as [[e|a] db']; simpl in *; subst; [done|]. apply Hk.
Qed.

Lemma atomic_reads {A} (m : Async A) : reads m → atomic m.
Proof. intros Hm db e db' H. specialize (Hm db). by rewrite H in Hm. Qed.

Lemma atomic_await {A B} (m : Async A) (k : A → Async B) :
  reads m → (∀ a, atomic (k a)) → atomic (await m k).
Proof.
  intros Hm Hk db e db'. unfold await. specialize (Hm db).
  destruct (m db) as [[e'|a] db'']; simpl in *; subst.
  - by intros [= _ <-].
  - apply Hk.
Qed.

Lemma atomic_write {A} db1 (a : A) :
  atomic (await (write db1) (λ _, resolve a)).
Proof. by intros db e db'. Qed.

Lemma atomic_including {A B} (view : DB → A → B) (m : Async A) :
  atomic m → atomic (including view m).
Proof.
  intros Hm db e db'. unfold including, await, read, resolve.
  specialize (Hm db). destruct (m db) as [[e'|a] db'']; [|done].
  intros [= _ <-]. by eapply Hm.
Qed.

Lemma answers_resolve {A} (good : A → Prop) (a : A) :
  good a → answers good (resolve a).
Proof. intros H db. by exists a. Qed.

Lemma settles_reads {A} (good : A → Prop) (m : Async A) :
  reads m → settles good m.
Proof. intros Hm db. left. apply Hm. Qed.

Lemma settles_await {A B} (good : B → Prop) (m : Async A) (k : A → Async B) :
  reads m → (∀ a, settles good (k a)) → settles good (await m k).
Proof.
  intros Hm Hk db. unfold await. specialize (Hm db).
  destruct (m db) as [[e|a] db']; simpl in *; subst; [by left|]. apply Hk.
Qed.

Lemma settles_last {A B} (good : B → Prop) (m : Async A) (k : A → Async B) :
  atomic m → (∀ a, answers good (k a)) → settles good (await m k).
Proof.
  intros Hm Hk db. unfold await. specialize (Hm db).
  destruct (m db) as [[e|a] db']; simpl in *.
  - left. by eapply Hm.
  - right. destruct (Hk a db') as (b & -> & Hb). by exists b.
Qed.

Lemma try_catch_settles block message db :
  settles success block →
  (try_catch block message db).2 = db ∨ success (try_catch block message db).1.
Proof.
  intros H. unfold try_catch. destruct (H db) as [Hdb|(r & Hr & Hgood)].
  - left. by destruct (block db) as [[e|r] db'].
  - right. destruct (block db) as [[e|r'] db']; simpl in *; by simplify_eq.
Qed.

Lemma try_catch_reads block message db :
  reads block → (try_catch block message db).2 = db.
Proof.
  intros H. unfold try_catch. specialize (H db).
  by destruct (block db) as [[e|r] db'].
Qed.

Lemma try_catch_reply_reads block message db :
  reads block → (try_catch_reply block message db).2 = db.
Proof.
  intros H. unfold try_catch_reply. specialize (H db).
  by destruct (block db) as [[e|r] db'].
Qed.

Lemma uncaught_reads block db : reads block → (uncaught block db).2 = db.
Proof.
  intros H. unfold uncaught. specialize (H db).
  by destruct (block db) as [[e|r] db'].
Qed.

Ltac unfold_operations :=
  unfold combine, consulta_findFirst_slot, exame_findFirst_slot,
    consulta_create, exame_create, resultadoExame_create, pushToken_create,
    usuario_create, usuario_update, usuario_delete, consulta_update,
    exame_update, pushToken_update_token, pushToken_delete,
    pushToken_findUnique_token, usuario_findUnique_email,
    usuario_findUnique_id, foreign_key, fresh_key, split_method, length_lt,
    bcrypt_hash_async, bcrypt_compare_async, sign, set_enum, set_String,
    set_Boolean, set_optional_String, optional_String_arg, DateTime_arg,
    findUnique, findFirst, findMany, require, String_arg, ok, respond, reply.

Ltac solve_reads :=
  unfold including; unfold_operations;
  repeat (cbv beta zeta;
          lazymatch goal with
          | |- reads (resolve _) => apply reads_resolve
          | |- reads (throw _) => apply reads_throw
          | |- reads read => apply reads_read
          | |- reads (await _ _) => apply reads_await; [|intros ?]
          | |- reads _ => case_match
          end).

Ltac solve_atomic :=
  unfold_operations;
  repeat (cbv beta zeta;
          lazymatch goal with
          | |- atomic (await (write _) _) => apply atomic_write
          | |- atomic (including _ _) => apply atomic_including
          | |- atomic (await _ _) =>
              apply atomic_await; [solve [solve_reads]|intros ?]
          | |- atomic (resolve _) => apply atomic_reads, reads_resolve
          | |- atomic (throw _) => apply atomic_reads, reads_throw
          | |- atomic _ => case_match
          end).

Ltac solve_settles :=
  repeat (cbv beta zeta;
          lazymatch goal with
          | |- settles _ (resolve _) => apply settles_reads, reads_resolve
          | |- settles _ (await _ _) =>
              first [ apply settles_await; [solve [solve_reads]|intros ?]
                    | apply settles_last;
                      [solve [solve_atomic]
                      |intros ?; apply answers_resolve; unfold success; simpl;
                       solve [auto]] ]
          | |- settles _ _ => case_match
          end).

Section Served.
Variable bcrypt_hash : string → string.
Variable bcrypt_compare : string → string → bool.
Variable jwt_sign : Payload → string → string → option string.
Variable jwt_verify : string → string → option Payload.
Variable env : Env.
Variable cuid : DB → string.
Variable now : DB → Z.
Variable on_delete_usuario : string → DB → exn + DB.
Variable Date_parse : string → option Z.
Variable LocalTZA : Z → bool → Z.

#[local] Abbreviation serve_ :=
  (serve bcrypt_hash bcrypt_compare jwt_sign jwt_verify env cuid now
     on_delete_usuario Date_parse LocalTZA).

Lemma answered_lift_settled (h : Handler) req db :
  (h req db).2 = db ∨ success (h req db).1 →
  succeeded (answered (lift h) req db).1 = false →
  (answered (lift h) req db).2 = db.
Proof.
  unfold answered, lift, succeeded, success. simpl.
  intros [H|H] Hs; [done|].
  apply bool_decide_eq_false_1 in Hs. destruct Hs.
  destruct H as [-> | ->]; [by left|right; by left].
Qed.

Lemma requireRole_settled roles (h : AccountHandler) req db :
  (succeeded (answered h req db).1 = false → (answered h req db).2 = db) →
  succeeded (answered (requireRole roles h) req db).1 = false →
  (answered (requireRole roles h) req db).2 = db.
Proof. unfold answered, requireRole. simpl. by repeat case_match. Qed.

Lemma login_reads req db :
  (login bcrypt_compare jwt_sign env req db).2 = db.
Proof. apply try_catch_reply_reads. solve_reads. Qed.

Lemma refresh_reads req db : (refresh jwt_sign jwt_verify env req db).2 = db.
Proof.
  unfold refresh. repeat case_match; try done.
  apply uncaught_reads. solve_reads.
Qed.

Lemma listUsers_reads req db : (listUsers req db).2 = db.
Proof. apply try_catch_reply_reads. solve_reads. Qed.

Lemma getUser_reads req db : (getUser req db).2 = db.
Proof. apply try_catch_reply_reads. solve_reads. Qed.

(** X9: a request that is not answered 200 or 201 (or is not answered at
    all) leaves the database as it was, whatever the handler: no handler
    writes before a step that can still fail. *)
Theorem failure_changes_nothing e req db :
  succeeded (serve_ e req db).1 = false → (serve_ e req db).2 = db.
Proof.
  destruct e as [| | | | | | | |k|k|k|k|k| | | | |]; try destruct k;
    unfold serve, create, list_all, get, update, cancel.
  all: try (apply requireRole_settled).
  all: try (apply answered_lift_settled, try_catch_settles;
            unfold ok, respond, set_if; solve_settles).
  - intros _. apply login_reads.
  - intros _. apply refresh_reads.
  - intros _. apply listUsers_reads.
  - intros _. apply getUser_reads.
Qed.

(** X10: the handlers of the GET routes, login and refresh never change
    the database, whatever they answer. *)
Theorem reading_changes_nothing e req db :
  reads_only e = true → (serve_ e req db).2 = db.
Proof.
  destruct e as [| | | | | | | |k|k|k|k|k| | | | |]; try destruct k;
    try done; intros _; unfold serve, answered, lift, list_all, get;
    cbn [fst snd];
    try (unfold requireRole; destruct (String.eqb _ _); [done|];
         destruct (negb _); [done|]).
  all: first [ apply login_reads | apply refresh_reads | apply listUsers_reads
             | apply getUser_reads
             | apply try_catch_reads; solve_reads ].
Qed.

(** X11: the five handlers of the users run for a caller whose profile is
    ADMIN and for nobody else: any other caller is answered 403
    AUTH_FORBIDDEN (401 when the request carries no profile), whatever
    the request asks for, and the database is left as it was. *)
Theorem users_routes_admin_only e req db :
  of_users e = true →
  userPerfil req ≠ "ADMIN" →
  serve_ e req db
  = (Some (if String.eqb (userPerfil req) ""
           then failure 401 "AUTH_FORBIDDEN" "Usuario nao autenticado"
           else failure 403 "AUTH_FORBIDDEN"
                  "Voce nao tem permissao para acessar este recurso"), db).
Proof.
  intros He Hperfil.
  assert (bool_decide (userPerfil req ∈ ["ADMIN"]) = false) as Hno.
  { apply bool_decide_eq_false_2. intros Hin.
    apply elem_of_cons in Hin as [?|Hin]; [done|by apply elem_of_nil in Hin]. }
  destruct e; try done; unfold serve, answered, requireRole;
    rewrite Hno; simpl; by destruct (String.eqb _ _).
Qed.

Lemma bookings_None k db id :
  bookings k db !! id = None
  ↔ match k with
    | Appointment => consulta db !! id = None
    | Exam => exame db !! id = None
    end.
Proof. destruct k; unfold bookings; by rewrite lookup_fmap, fmap_None. Qed.

(** X12: every handler that addresses a row by the id of the path
    answers 404 RESOURCE_NOT_FOUND when no such row is stored, and leaves
    the database as it was: get, update and cancel of a booking, get of a
    result, delete of a push token, and for an administrator get, update
    and delete of a user. *)
Theorem missing_id_404 e req db :
  addressed e db (params_id req) = Some false →
  (of_users e = true → userPerfil req = "ADMIN") →
  ∃ message,
    serve_ e req db = (Some (failure 404 "RESOURCE_NOT_FOUND" message), db).
Proof.
  intros Ha Hadmin.
  assert (∀ A (m : gmap string A) i,
            bool_decide (is_Some (m !! i)) = false → m !! i = None) as Hnone.
  { intros A m i H. apply bool_decide_eq_false_1 in H.
    by apply eq_None_not_Some. }
  destruct e as [| | | | | | | |k|k|k|k|k| | | | |]; try done;
    simpl in Ha; injection Ha as Ha; apply Hnone in Ha;
    try (rewrite bookings_None in Ha; destruct k);
    unfold serve, answered, lift, requireRole, get, update, cancel;
    try (rewrite (Hadmin eq_refl)); simpl; eexists.
  all: unfold getUser, updateUser, deleteUser, getConsulta, getExame,
         updateConsulta, updateExame, deleteConsulta, deleteExame,
         getResultado, deletePushToken, failure;
       unfold try_catch, try_catch_reply, findUnique, String_arg, reply,
         respond, await, read, resolve; simpl; rewrite Ha; simpl;
       reflexivity.
Qed.

End Served.

(** ** Updating a booking *)

Lemma denied_split req p m :
  denied req p m = false →
  is_PACIENTE req && negb (String.eqb p (userId req)) = false
  ∧ is_MEDICO req && negb (String.eqb m (userId req)) = false.
Proof. unfold denied. apply orb_false_elim. Qed.

Lemma status_cases s :
  s ∈ statusValidos →
  s = "AGENDADA" ∨ s = "REALIZADA" ∨ s = "CANCELADA" ∨ s = "NAO_COMPARECEU".
Proof.
  unfold statusValidos. intros H.
  repeat (apply elem_of_cons in H as [->|H]); auto.
  by apply elem_of_nil in H.
Qed.

Lemma updateConsulta_valid req db c s :
  consulta db !! params_id req = Some c →
  denied req (Consulta.pacienteId c) (Consulta.medicoId c) = false →
  prop req "status" = JS.Str s → s ∈ statusValidos →
  JS.typeof (prop req "detalhes") ≠ "boolean" →
  let c' := Consulta.set_detalhes
              (detalhes_after (prop req "detalhes") (Consulta.detalhes c))
              (Consulta.set_status s c) in
  let db' := with_consulta (<[params_id req := c']> (consulta db)) db in
  updateConsulta req db
  = (mkResponse 200
       (OneConsulta (Some "Consulta atualizada com sucesso")
          (consulta_include db' (params_id req, c'))), db').
Proof.
  intros Hc [Hp Hm]%denied_split Hs Hin Hd.
  unfold updateConsulta, try_catch, including, findUnique, String_arg.
  unfold await at 1 2 3. unfold read at 1. unfold resolve at 1 2.
  rewrite Hc, Hp, Hm, Hs.
  apply status_cases in Hin as [-> | [-> | [-> | ->]]];
    destruct (prop req "detalhes") as [| |?|x] eqn:Hdet; try done;
    unfold dadosAtualizacao, consulta_update; async; simpl; rewrite Hc;
    rewrite ?data_field_insert_eq, ?data_field_insert_ne, ?data_field_empty,
      ?data_field_insert_eq by done; simpl;
    rewrite ?data_field_insert_eq, ?data_field_insert_ne, ?data_field_empty,
      ?data_field_insert_eq by done; reflexivity.
Qed.

Lemma updateExame_valid req db e s :
  exame db !! params_id req = Some e →
  denied req (Exame.pacienteId e) (Exame.medicoId e) = false →
  prop req "status" = JS.Str s → s ∈ statusValidos →
  JS.typeof (prop req "detalhes") ≠ "boolean" →
  let e' := Exame.set_detalhes
              (detalhes_after (prop req "detalhes") (Exame.detalhes e))
              (Exame.set_status s e) in
  let db' := with_exame (<[params_id req := e']> (exame db)) db in
  updateExame req db
  = (mkResponse 200
       (OneExame (Some "Exame atualizado com sucesso")
          (exame_include false db' (params_id req, e'))), db').
Proof.
  intros Hc [Hp Hm]%denied_split Hs Hin Hd.
  unfold updateExame, try_catch, including, findUnique, String_arg.
  unfold await at 1 2 3. unfold read at 1. unfold resolve at 1 2.
  rewrite Hc, Hp, Hm, Hs.
  apply status_cases in Hin as [-> | [-> | [-> | ->]]];
    destruct (prop req "detalhes") as [| |?|x] eqn:Hdet; try done;
    unfold dadosAtualizacao, exame_update; async; simpl; rewrite Hc;
    rewrite ?data_field_insert_eq, ?data_field_insert_ne, ?data_field_empty,
      ?data_field_insert_eq by done; simpl;
    rewrite ?data_field_insert_eq, ?data_field_insert_ne, ?data_field_empty,
      ?data_field_insert_eq by done; reflexivity.
Qed.

(** X3: an update by a caller the permission check lets through, with one
    of the four statuses, answers 200 and stores that status whatever the
    status was before (a cancelled booking goes back to AGENDADA this
    way); the free text is replaced by a string, cleared by null and kept
    when the key is absent; the other bookings stay as they were, and a
    get of the booking then reads back what the update stored. *)
Theorem update_then_get k req db b s :
  bookings k db !! params_id req = Some b →
  denied req (b_pacienteId b) (b_medicoId b) = false →
  prop req "status" = JS.Str s → s ∈ statusValidos →
  JS.typeof (prop req "detalhes") ≠ "boolean" →
  let out := update k req db in
  let b' := amended s (prop req "detalhes") b in
  status out.1 = 200
  ∧ returned out.1 = [(params_id req, b')]
  ∧ bookings k out.2 = <[params_id req := b']> (bookings k db)
  ∧ returned (get k req out.2).1 = [(params_id req, b')].
Proof.
  intros Hb Hd Hs Hin Hdet. cbv zeta.
  assert (bookings k (update k req db).2
          = <[params_id req := amended s (prop req "detalhes") b]>
              (bookings k db)
          ∧ status (update k req db).1 = 200
          ∧ returned (update k req db).1
            = [(params_id req, amended s (prop req "detalhes") b)])
    as (Hdb & Hst & Hret).
  { destruct k; unfold update.
    - apply bookings_consulta in Hb as (c & Hc & ->).
      rewrite (updateConsulta_valid req db c s) by done.
      unfold bookings. simpl. by rewrite fmap_insert.
    - apply bookings_exame in Hb as (e & He & ->).
      rewrite (updateExame_valid req db e s) by done.
      unfold bookings. simpl. by rewrite fmap_insert. }
  split_and!; try done.
  pose proof (get_found k req (update k req db).2
                (amended s (prop req "detalhes") b)) as Hget.
  rewrite Hdb, lookup_insert_eq in Hget. specialize (Hget eq_refl).
  simpl in Hget. rewrite Hd in Hget. by destruct Hget as (_ & _ & ?).
Qed.

(** X4: an update of a stored booking by a patient who is not its patient
    or by a doctor who is not its doctor is answered 403 AUTH_FORBIDDEN,
    before the status is looked at; from a caller who is let through, a
    status that is none of the four is answered 400 VALIDATION_ERROR.
    Neither changes the database. *)
Theorem update_refused k req db b :
  bookings k db !! params_id req = Some b →
  let out := update k req db in
  (denied req (b_pacienteId b) (b_medicoId b) = true →
   status out.1 = 403 ∧ code_of out.1 = Some "AUTH_FORBIDDEN" ∧ out.2 = db)
  ∧ (denied req (b_pacienteId b) (b_medicoId b) = false →
     JS.truthy (prop req "status") = true →
     JS.includes statusValidos (prop req "status") = false →
     out.1 = mkResponse 400 (Error "VALIDATION_ERROR" "Status invalido")
     ∧ out.2 = db).
Proof.
  intros Hb. cbv zeta.
  destruct k; unfold update.
  - apply bookings_consulta in Hb as (c & Hc & ->). simpl. split.
    + intros Hd.
      assert (updateConsulta req db
              = (mkResponse 403
                   (Error "AUTH_FORBIDDEN"
                      "Voce nao tem permissao para atualizar esta consulta"),
                 db)) as ->; [|done].
      unfold updateConsulta, try_catch, findUnique, String_arg.
      unfold await at 1 2 3. unfold read at 1. unfold resolve at 1 2.
      rewrite Hc. unfold denied in Hd.
      apply orb_true_iff in Hd as [H|H]; rewrite H; [done|].
      by destruct (is_PACIENTE req && _).
    + intros [Hp Hm]%denied_split Ht Hi.
      unfold updateConsulta, try_catch, findUnique, String_arg.
      unfold await, read, resolve, dadosAtualizacao.
      by rewrite Hc, Hp, Hm, Ht, Hi.
  - apply bookings_exame in Hb as (e & He & ->). simpl. split.
    + intros Hd.
      assert (updateExame req db
              = (mkResponse 403
                   (Error "AUTH_FORBIDDEN"
                      "Voce nao tem permissao para atualizar este exame"),
                 db)) as ->; [|done].
      unfold updateExame, try_catch, findUnique, String_arg.
      unfold await at 1 2 3. unfold read at 1. unfold resolve at 1 2.
      rewrite He. unfold denied in Hd.
      apply orb_true_iff in Hd as [H|H]; rewrite H; [done|].
      by destruct (is_PACIENTE req && _).
    + intros [Hp Hm]%denied_split Ht Hi.
      unfold updateExame, try_catch, findUnique, String_arg.
      unfold await, read, resolve, dadosAtualizacao.
      by rewrite He, Hp, Hm, Ht, Hi.
Qed.

(** ** Slots *)

Lemma cancel_usuario k req db : usuario (cancel k req db).2 = usuario db.
Proof.
  destruct k; unfold cancel.
  - destruct (consulta db !! params_id req) as [c|] eqn:Hc.
    + rewrite (deleteConsulta_found _ _ _ Hc). by destruct (cancel_denied _ _).
    + by rewrite deleteConsulta_missing.
  - destruct (exame db !! params_id req) as [e|] eqn:He.
    + rewrite (deleteExame_found _ _ _ He). by destruct (cancel_denied _ _).
    + unfold deleteExame. async. simpl. by rewrite He.
Qed.

Section Slots.
Variable Date_parse : string → option Z.
Variable LocalTZA : Z → bool → Z.
Variable cuid : DB → string.

#[local] Abbreviation create' := (create Date_parse LocalTZA cuid).
#[local] Abbreviation slot_time' := (slot_time Date_parse LocalTZA).

(** What a create that answers 201 has stored. *)
Lemma create_201 k req db :
  status (create' k req db).1 = 201 →
  ∃ p m h d t,
    checks k req db p m h
    ∧ slot_time' (prop req "dia") (prop req "hora") = Some t
    ∧ bookings k db !! cuid db = None
    ∧ bookings k (create' k req db).2
      = <[cuid db := booked_as k req p m h d t]> (bookings k db).
Proof.
  intros H201.
  destruct (create_success _ _ _ _ _ _ H201) as (p & m & h & Hchecks).
  pose proof (create_checked Date_parse LocalTZA cuid k req db p m h Hchecks)
    as Hc.
  destruct Hchecks as (Hcomplete & Hp & Hm & Hh & Hrest).
  rewrite <- Hh in Hc.
  destruct (slot_time' _ _) as [t|] eqn:Ht.
  - destruct Hc as [Hocc Hfree].
    destruct (decide (occupied k db m t)) as [Ho|Ho].
    + rewrite (Hocc Ho) in H201. done.
    + destruct (Hfree Ho) as [(H500 & _)|(_ & d & _ & _ & Hnone & Hdb)];
        [rewrite H500 in H201; done|].
      exists p, m, h, d, t. by split_and!.
  - destruct Hc as (H500 & _). rewrite H500 in H201. done.
Qed.

(** X5: once a create has answered 201, a later create for the same
    doctor and the same combined timestamp, from a caller who passes the
    checks that come first, is answered 409 SLOT_UNAVAILABLE; it still is
    after the first booking has been cancelled. *)
Theorem created_slot_stays_taken k req1 req2 db p1 p m h u :
  status (create' k req1 db).1 = 201 →
  let db1 := (create' k req1 db).2 in
  prop req1 "pacienteId" = JS.Str p1 →
  prop req1 "medicoId" = JS.Str m →
  complete k req2 = true →
  prop req2 "pacienteId" = JS.Str p →
  prop req2 "medicoId" = JS.Str m →
  prop req2 "hora" = JS.Str h →
  (userPerfil req2 = "PACIENTE" → p = userId req2) →
  usuario db1 !! m = Some u → Usuario.perfil u = "MEDICO" →
  is_Some (usuario db1 !! p) →
  slot_time' (prop req2 "dia") (prop req2 "hora")
  = slot_time' (prop req1 "dia") (prop req1 "hora") →
  let refused db2 :=
    create' k req2 db2
    = (mkResponse 409
         (Error "SLOT_UNAVAILABLE" "Horario indisponivel para este medico"),
       db2) in
  refused db1
  ∧ ∀ reqc, params_id reqc = cuid db →
            cancel_denied reqc p1 = false →
            status (cancel k reqc db1).1 = 200
            ∧ refused (cancel k reqc db1).2.
Proof.
  intros H201 db1 Hp1 Hm1 Hcomplete Hp Hm Hh Hperm Hu Hperfil Hpat Hslot
    refused.
  destruct (create_201 _ _ _ H201)
    as (p1' & m' & h1 & d & t & Hchecks & Ht & Hnone & Hdb).
  destruct Hchecks as (_ & Hp1' & Hm' & _).
  rewrite Hp1 in Hp1'. rewrite Hm1 in Hm'. simplify_eq.
  fold db1 in Hdb. rewrite Ht in Hslot. rewrite Hh in Hslot.
  set (b := booked_as k req1 p1' m' h1 d t) in *.
  assert (∀ db2, usuario db2 = usuario db1 →
                 bookings k db2 !! cuid db = Some b ∨
                 bookings k db2 !! cuid db = Some (cancelled b) →
                 refused db2) as Hrefused.
  { intros db2 Husers Hb. unfold refused.
    assert (checks k req2 db2 p m' h) as Hchecks.
    { eapply checks_intro; try done; rewrite Husers; done. }
    pose proof (create_checked Date_parse LocalTZA cuid k req2 db2 p m' h
                  Hchecks) as Hc.
    rewrite Hslot in Hc. destruct Hc as [Hocc _]. apply Hocc.
    destruct Hb as [Hb|Hb]; eexists _, _; (split; [exact Hb|done]). }
  split.
  - apply Hrefused; [done|]. left. by rewrite Hdb, lookup_insert_eq.
  - intros reqc Hid Hallowed.
    assert (bookings k db1 !! params_id reqc = Some b) as Hb
      by (by rewrite Hid, Hdb, lookup_insert_eq).
    pose proof (cancel_found k reqc db1 b Hb) as Hcancel.
    assert (b_pacienteId b = p1') as Hpb by done.
    rewrite Hpb, Hallowed in Hcancel.
    destruct Hcancel as (H200 & _ & Hdb2). split; [done|].
    apply Hrefused; [apply cancel_usuario|].
    right. by rewrite Hdb2, Hid, lookup_insert_eq.
Qed.

End Slots.

(** ** The checks of a create *)

Lemma complete_false k req :
  complete k req = false →
  match k with
  | Appointment =>
      negb (JS.truthy (prop req "pacienteId"))
      || negb (JS.truthy (prop req "medicoId"))
      || negb (JS.truthy (prop req "dia")) || negb (JS.truthy (prop req "hora"))
      = true
  | Exam =>
      negb (JS.truthy (prop req "nome"))
      || negb (JS.truthy (prop req "pacienteId"))
      || negb (JS.truthy (prop req "medicoId"))
      || negb (JS.truthy (prop req "dia")) || negb (JS.truthy (prop req "hora"))
      = true
  end.
Proof.
  destruct k; unfold complete; simpl;
    repeat destruct (JS.truthy _); simpl; done.
Qed.

Lemma complete_true k req :
  complete k req = true →
  match k with
  | Appointment =>
      negb (JS.truthy (prop req "pacienteId"))
      || negb (JS.truthy (prop req "medicoId"))
      || negb (JS.truthy (prop req "dia")) || negb (JS.truthy (prop req "hora"))
      = false
  | Exam =>
      negb (JS.truthy (prop req "nome"))
      || negb (JS.truthy (prop req "pacienteId"))
      || negb (JS.truthy (prop req "medicoId"))
      || negb (JS.truthy (prop req "dia")) || negb (JS.truthy (prop req "hora"))
      = false
  end.
Proof.
  destruct k; unfold complete; simpl;
    repeat destruct (JS.truthy _); simpl; done.
Qed.

Section Create_checks.
Variable Date_parse : string → option Z.
Variable LocalTZA : Z → bool → Z.
Variable cuid : DB → string.

#[local] Abbreviation create' := (create Date_parse LocalTZA cuid).

(** X28: a create is answered 400 VALIDATION_ERROR, before the time of
    day and the slot are looked at and without a write, when a required
    field is missing or falsy, when the doctor reference is not a stored
    user with profile MEDICO, and when the patient reference is not a
    stored user.  The patient may be any stored user: no profile is asked
    of the patient. *)
Theorem create_refuses_bad_references k req db :
  let invalid message :=
    (mkResponse 400 (Error "VALIDATION_ERROR" message), db) in
  (complete k req = false →
   status (create' k req db).1 = 400
   ∧ code_of (create' k req db).1 = Some "VALIDATION_ERROR"
   ∧ (create' k req db).2 = db)
  ∧ ∀ p m,
      complete k req = true →
      prop req "pacienteId" = JS.Str p →
      prop req "medicoId" = JS.Str m →
      (userPerfil req = "PACIENTE" → p = userId req) →
      ((∀ u, usuario db !! m = Some u → Usuario.perfil u ≠ "MEDICO") →
       create' k req db = invalid "Medico invalido")
      ∧ (∀ u, usuario db !! m = Some u → Usuario.perfil u = "MEDICO" →
              usuario db !! p = None →
              create' k req db = invalid "Paciente nao encontrado").
Proof.
  intros invalid. split.
  - intros Hc%complete_false.
    destruct k; unfold create, createConsulta, createExame, try_catch, respond,
      resolve; rewrite Hc; done.
  - intros p m Hc%complete_true Hp Hm Hown.
    assert (is_PACIENTE req && JS.strict_ne (prop req "pacienteId")
                                 (JS.Str (userId req)) = false) as Hperm.
    { unfold is_PACIENTE, JS.strict_ne, JS.strict_eq.
      destruct (String.eqb_spec (userPerfil req) "PACIENTE") as [Hpac|];
        [|done].
      rewrite Hp, (Hown Hpac). simpl. by rewrite bool_decide_eq_true_2. }
    split.
    + intros Hbad.
      destruct k; unfold create, createConsulta, createExame, invalid;
        async; rewrite Hc, Hperm, Hm; simpl;
        destruct (usuario db !! m) as [u|] eqn:Hu; try done;
        destruct (String.eqb_spec (Usuario.perfil u) "MEDICO") as [Hmed|];
        try done; by destruct (Hbad u eq_refl).
    + intros u Hu Hmed Hnone.
      destruct k; unfold create, createConsulta, createExame, invalid;
        async; rewrite Hc, Hperm, Hm, Hp; simpl; rewrite Hu, Hmed; simpl;
        by rewrite Hnone.
Qed.

End Create_checks.

(** ** The time of day, once more *)

Lemma radix_digit_10 c : is_digit c = false → JS.radix_digit 10 c = None.
Proof.
  unfold is_digit, JS.radix_digit, JS.digit_value. intros H. rewrite H.
  destruct ((97 <=? JS.code c) && _) eqn:E1.
  { apply andb_prop in E1 as [?%Z.leb_le ?%Z.leb_le].
    destruct (_ <? 10) eqn:E; [apply Z.ltb_lt in E; lia|done]. }
  destruct ((65 <=? JS.code c) && _) eqn:E2; [|done].
  apply andb_prop in E2 as [?%Z.leb_le ?%Z.leb_le].
  destruct (_ <? 10) eqn:E; [apply Z.ltb_lt in E; lia|done].
Qed.

Lemma read_digits_stop x acc :
  no_leading_digit x = true → JS.read_digits 10 x acc = acc.
Proof.
  destruct x as [|c x]; [done|]. simpl. intros H%negb_true_iff.
  by rewrite (radix_digit_10 c H).
Qed.

Lemma trim_start_digit a s :
  is_digit a = true → JS.trim_start (String a s) = String a s.
Proof. intros Ha. digit_cases Ha; reflexivity. Qed.

Lemma strip_sign_digit a s :
  is_digit a = true → JS.strip_sign (String a s) = (1, String a s).
Proof. intros Ha. digit_cases Ha; reflexivity. Qed.

Lemma strip_prefix_digits a b s :
  is_digit b = true →
  JS.strip_prefix (String a (String b s)) = (10, String a (String b s)).
Proof.
  intros Hb. unfold JS.strip_prefix.
  destruct a as [[] [] [] [] [] [] [] []]; try reflexivity.
  digit_cases Hb; reflexivity.
Qed.

Lemma read_digits_digit a s acc :
  is_digit a = true →
  JS.read_digits 10 (String a s) acc
  = JS.read_digits 10 s (Some (10 * default 0 acc + (JS.code a - 48))).
Proof. intros Ha. digit_cases Ha; reflexivity. Qed.

Lemma parseInt_two_digits_then a b x :
  is_digit a = true → is_digit b = true → no_leading_digit x = true →
  JS.parseInt (JS.Str (String a (String b x)))
  = JS.Finite (two_digits a b).
Proof.
  intros Ha Hb Hx. unfold JS.parseInt, JS.ToString.
  rewrite trim_start_digit, strip_sign_digit, strip_prefix_digits by done.
  rewrite !read_digits_digit, read_digits_stop by done.
  pose proof (two_digits_range a b Ha Hb) as Hr.
  replace (1 * _) with (two_digits a b)
    by (unfold two_digits; simpl; lia).
  apply of_integer_exact. unfold JS.two53. lia.
Qed.

(** The first piece of a split goes on with a digit only if the string
    does. *)
Lemma split_first x :
  ∃ piece pieces,
    JS.split ":" x = piece :: pieces
    ∧ (no_leading_digit x = true → no_leading_digit piece = true).
Proof.
  destruct x as [|c x]; [by exists "", []|]. cbn [JS.split].
  destruct (Ascii.eqb c ":"); [by eexists _, _|].
  destruct (JS.split ":" x); by eexists _, _.
Qed.

Section Times_again.
Variable Date_parse : string → option Z.
Variable LocalTZA : Z → bool → Z.

#[local] Abbreviation slot_time' := (slot_time Date_parse LocalTZA).

Lemma slot_time_HH_MM_eq dia h :
  HH_MM h = true →
  slot_time' dia (JS.Str h)
  = JS.new_Date Date_parse dia
      ≫= λ d, JS.TimeClip (date_at LocalTZA d (hour_of h) (minute_of h)).
Proof.
  intros Hh. apply HH_MM_inv in Hh as (a & b & c & d & -> & Ha & Hb & Hc & Hd).
  unfold slot_time, dataHora_from. rewrite (split_HH_MM a b c d) by done.
  change (JS.element [?x; ?y] 0) with (JS.Str x).
  change (JS.element [?x; ?y] 1) with (JS.Str y).
  rewrite (parseInt_two_digits a b), (parseInt_two_digits c d) by done.
  unfold JS.setHours. destruct (JS.new_Date Date_parse dia) as [t0|]; [|done].
  rewrite MakeTime_exact by by apply two_digits_range.
  simpl. f_equal. unfold date_at. f_equal. lia.
Qed.

(** X6: whatever follows an HH:MM time of day without going on with a
    digit is ignored: seconds, a time zone, AM or PM.  The request gets
    the combined timestamp of the bare HH:MM, so "10:30 PM" and
    "10:30:59" ask for the slot of "10:30". *)
Theorem hora_suffix_ignored dia h x :
  HH_MM h = true →
  no_leading_digit x = true →
  slot_time' dia (JS.Str (h +:+ x)) = slot_time' dia (JS.Str h).
Proof.
  intros Hh Hx.
  apply HH_MM_inv in Hh as (a & b & c & d & -> & Ha & Hb & Hc & Hd).
  unfold slot_time, dataHora_from. rewrite (split_HH_MM a b c d) by done.
  change (String a (String b (String ":" (String c (String d "")))) +:+ x)
    with (String a (String b (String ":" (String c (String d x))))).
  cbn [JS.split].
  rewrite (digit_not_colon a Ha), (digit_not_colon b Hb),
    (digit_not_colon c Hc), (digit_not_colon d Hd).
  cbn [Ascii.eqb Bool.eqb].
  destruct (split_first x) as (piece & pieces & -> & Hpiece).
  change (JS.element (?x :: ?y :: _) 0) with (JS.Str x).
  change (JS.element (?x :: ?y :: _) 1) with (JS.Str y).
  rewrite (parseInt_two_digits a b), (parseInt_two_digits c d) by done.
  by rewrite (parseInt_two_digits_then c d piece) by auto.
Qed.

(** X7: the hour and the minute are not held to their ranges.  Two
    requests whose local day, hour and minute add up to the same minute
    get the same combined timestamp: "24:30" on one day is "00:30" on
    the next, and "10:75" is "11:15". *)
Theorem slot_time_rolls_over dia dia' h h' d d' :
  HH_MM h = true → HH_MM h' = true →
  JS.new_Date Date_parse dia = Some d →
  JS.new_Date Date_parse dia' = Some d' →
  JS.Day (JS.LocalTime LocalTZA d) * 1440 + hour_of h * 60 + minute_of h
  = JS.Day (JS.LocalTime LocalTZA d') * 1440 + hour_of h' * 60 + minute_of h' →
  slot_time' dia (JS.Str h) = slot_time' dia' (JS.Str h').
Proof.
  intros Hh Hh' Hd Hd' Hsum.
  rewrite !slot_time_HH_MM_eq, Hd, Hd' by done. simpl. f_equal.
  unfold date_at. f_equal.
  unfold JS.msPerDay, JS.msPerHour, JS.msPerMinute. lia.
Qed.

End Times_again.

(** X8: the date is read as midnight UTC and the time of day is set on
    the local day of that instant.  On a server west of UTC that local
    day is the day before: the stored timestamp, read in local time,
    shows the hour and the minute of the request on the eve of the date
    of the request.  At UTC and east of it, it shows them on the date
    itself. *)
Theorem slot_day_west_of_UTC Date_parse offset dia h d t :
  HH_MM h = true → hour_of h < 24 → minute_of h < 60 →
  Date_parse dia = Some d → d `mod` JS.msPerDay = 0 →
  let zone : Z → bool → Z := λ _ _, offset in
  slot_time Date_parse zone (JS.Str dia) (JS.Str h) = Some t →
  JS.getHours zone t = hour_of h
  ∧ JS.getMinutes zone t = minute_of h
  ∧ (- JS.msPerDay ≤ offset < 0 →
     JS.Day (JS.LocalTime zone t) = JS.Day d - 1)
  ∧ (0 ≤ offset < JS.msPerDay → JS.Day (JS.LocalTime zone t) = JS.Day d).
Proof.
  intros Hh Hhour Hmin Hd Hmid zone Ht.
  destruct (slot_time_HH_MM _ _ _ _ _ Hh Ht) as (d0 & Hd0 & ->).
  simpl in Hd0. rewrite Hd in Hd0. simpl in Hd0.
  unfold JS.TimeClip in Hd0. case_match; simplify_eq.
  assert (0 ≤ hour_of h ∧ 0 ≤ minute_of h) as [Hh0 Hm0].
  { apply HH_MM_inv in Hh as (a & b & c & e & -> & Ha & Hb & Hc & He).
    unfold hour_of, minute_of, two_digits, is_digit in *. lia. }
  destruct (date_at_fields offset d0 (hour_of h) (minute_of h))
    as (Hgh & Hgm & _ & _ & Hday); [lia..|].
  fold zone in Hgh, Hgm, Hday. split_and!; [done|done| |].
  - intros Ho. rewrite Hday.
    unfold JS.Day, JS.LocalTime, zone, JS.msPerDay in *.
    Z.div_mod_to_equations. lia.
  - intros Ho. rewrite Hday.
    unfold JS.Day, JS.LocalTime, zone, JS.msPerDay in *.
    Z.div_mod_to_equations. lia.
Qed.

(** ** Push tokens, once more *)

Lemma head_filter_None {A} (P : A → Prop) `{∀ x, Decision (P x)} l :
  head (filter P l) = None ↔ ∀ x, x ∈ l → ¬ P x.
Proof.
  split.
  - intros Hnone x Hin HP.
    assert (is_Some (head (filter P l))) as [y Hy]
      by (apply head_filter_is_Some; eauto).
    congruence.
  - intros Hall. apply eq_None_not_Some.
    intros (x & Hin & HP)%head_filter_is_Some. by eapply Hall.
Qed.

Lemma unique_tokens_insert db id row :
  unique_tokens db →
  (∀ j q, j ≠ id → pushToken db !! j = Some q →
          PushToken.token q ≠ PushToken.token row) →
  unique_tokens (with_pushToken (<[id := row]> (pushToken db)) db).
Proof.
  intros Huniq Hother i j p q. simpl.
  destruct (decide (i = id)) as [->|Hi], (decide (j = id)) as [->|Hj];
    rewrite ?lookup_insert_eq, ?lookup_insert_ne by done; try done.
  - intros [= <-] Hq Heq. destruct (Hother j q); auto.
  - intros Hp [= <-] Heq. destruct (Hother i p); auto.
  - apply Huniq.
Qed.

Lemma unique_tokens_delete db id :
  unique_tokens db →
  unique_tokens (with_pushToken (delete id (pushToken db)) db).
Proof.
  intros Huniq i j p q. simpl.
  intros [_ Hp]%lookup_delete_Some [_ Hq]%lookup_delete_Some.
  by apply Huniq.
Qed.

(** X14: the two handlers of the push tokens keep every token on one row:
    a registration finds the row that holds the token and rewrites it, or
    finds none and adds one. *)
Theorem push_tokens_stay_unique cuid req db :
  unique_tokens db →
  unique_tokens (registerPushToken cuid req db).2
  ∧ unique_tokens (deletePushToken req db).2.
Proof.
  intros Huniq. split.
  - unfold registerPushToken, pushToken_update_token,
      pushToken_findUnique_token, pushToken_create, fresh_key, set_enum,
      set_String, set_Boolean.
    async. unfold respond, resolve. simpl. branches.
    + match goal with
      | H : head _ = Some _ |- _ =>
          apply head_Some_elem_of, list_elem_of_filter in H as [Htok Hin];
          apply elem_of_map_to_list in Hin
      end.
      apply unique_tokens_insert; [done|]. simpl. intros j q Hj Hq Heq.
      destruct Hj. by eapply Huniq.
    + match goal with
      | H : bool_decide (head _ = None) = true |- _ =>
          apply bool_decide_eq_true_1 in H;
          pose proof (proj1 (head_filter_None _ _) H) as Hnone
      end.
      apply unique_tokens_insert; [done|]. simpl. intros j q Hj Hq Heq.
      apply (Hnone (j, q)); [by apply elem_of_map_to_list|done].
  - unfold deletePushToken, pushToken_delete. async.
    unfold respond, resolve. simpl. branches.
    by apply unique_tokens_delete.
Qed.

(** X13: registering a token that no row holds, with a valid platform,
    answers 201 and adds one active row owned by the caller.  Only a
    caller with the owner's id can delete that row, whatever the
    caller's profile: anybody else is answered 403.  The owner's delete
    puts the database back as it was before the registration, and a
    second delete is answered 404. *)
Theorem register_then_delete cuid req db t pl :
  prop req "token" = JS.Str t → t ≠ "" →
  prop req "plataforma" = JS.Str pl → pl ∈ plataformasValidas →
  (∀ id p, pushToken db !! id = Some p → PushToken.token p ≠ t) →
  pushToken db !! cuid db = None →
  let out := registerPushToken cuid req db in
  let p := PushToken.mk (userId req) t pl true in
  out.1 = mkResponse 201
            (OnePushToken "Token registrado com sucesso" (cuid db) p)
  ∧ out.2 = with_pushToken (<[cuid db := p]> (pushToken db)) db
  ∧ ∀ del, params_id del = cuid db →
      (userId del ≠ userId req →
       deletePushToken del out.2
       = (mkResponse 403
            (Error "AUTH_FORBIDDEN"
               "Voce nao tem permissao para remover este token"), out.2))
      ∧ (userId del = userId req →
         deletePushToken del out.2
         = (mkResponse 200 (Message "Token removido com sucesso"), db)
         ∧ deletePushToken del db
           = (mkResponse 404
                (Error "RESOURCE_NOT_FOUND" "Token nao encontrado"), db)).
Proof.
  intros Ht Hne Hpl Hvalid Hnew Hfresh out p.
  assert (head (filter (has_token t) (map_to_list (pushToken db))) = None)
    as Hfind.
  { apply head_filter_None. intros [j q] Hin%elem_of_map_to_list Htok.
    by apply (Hnew j q). }
  assert (Hout : out = (mkResponse 201
                          (OnePushToken "Token registrado com sucesso"
                             (cuid db) p),
                        with_pushToken (<[cuid db := p]> (pushToken db)) db)).
  { assert (pl ≠ "") as Hpl'.
    { intros ->. unfold plataformasValidas in Hvalid.
      repeat (apply elem_of_cons in Hvalid as [?|Hvalid]; [done|]).
      by apply elem_of_nil in Hvalid. }
    subst out. unfold registerPushToken, pushToken_findUnique_token,
      pushToken_create, fresh_key, set_enum. async. rewrite Ht, Hpl.
    remember plataformasValidas as valid eqn:Hv. simpl.
    apply String.eqb_neq in Hne. rewrite Hne. simpl.
    apply String.eqb_neq in Hpl'. rewrite Hpl'. simpl.
    destruct (bool_decide (pl ∈ valid)) eqn:E;
      [|by apply bool_decide_eq_false_1 in E].
    simpl. rewrite Hfind. simpl. rewrite Hfind. simpl.
    by rewrite Hfresh. }
  rewrite Hout. simpl. split_and!; try done.
  intros del Hid. split.
  - intros Hother. unfold deletePushToken. async. simpl.
    rewrite Hid, lookup_insert_eq. simpl.
    apply String.eqb_neq in Hother. rewrite String.eqb_sym in Hother.
    by rewrite Hother.
  - intros Howner. split.
    + unfold deletePushToken, pushToken_delete. async. simpl.
      rewrite Hid, lookup_insert_eq. simpl.
      rewrite Howner, String.eqb_refl. simpl.
      rewrite lookup_insert_eq. simpl.
      rewrite delete_insert_id by done. by destruct db.
    + unfold deletePushToken. async. simpl. by rewrite Hid, Hfresh.
Qed.

(** ** Results *)

(** X2: the list of results answers 200, leaves the database as it was,
    and carries exactly the stored results that a get would hand to the
    caller, each once, the latest publication first. *)
Theorem listResultados_exact req db :
  let out := listResultados req db in
  status out.1 = 200
  ∧ out.2 = db
  ∧ NoDup (returned_resultados out.1).*1
  ∧ (∀ id r, (id, r) ∈ returned_resultados out.1
             ↔ resultadoExame db !! id = Some r
               ∧ denied req (ResultadoExame.pacienteId r)
                   (ResultadoExame.medicoId r) = false)
  ∧ Sorted (λ x y, y ≤ x)
      (ResultadoExame.publicadoEm ∘ snd <$> returned_resultados out.1).
Proof.
  cbv zeta; unfold listResultados; async; unfold returned_resultados; simpl;
    rewrite <- !list_fmap_compose.
  split_and!; [done|done| | |].
  - exact (findMany_fst_NoDup _ _ _).
  - intros id r. rewrite list_elem_of_fmap. split.
    + intros ([i c] & Heq & Hin). simpl in Heq. simplify_eq.
      apply findMany_elem_of in Hin. destruct Hin as [Hc Hw].
      split; [done|]. by apply whereClause_denied.
    + intros [Hr Hd]. exists (id, r). split; [done|].
      apply findMany_elem_of. split; [done|].
      by apply whereClause_denied in Hd.
  - eapply (Sorted_fmap _ resultado_publicadoEm_desc);
      [|apply Sorted_merge_sort, resultado_publicadoEm_desc_total].
    by intros x y.
Qed.

Section Results.
Variable cuid : DB → string.
Variable now : DB → Z.

#[local] Abbreviation createResultado' := (createResultado cuid now).

(** X15: a doctor or an administrator files a result for a stored exam by
    naming a stored patient and a stored doctor; the answer is 201 and
    one row is added, published at the time of the call.  Nothing ties
    the names to the exam or to the caller.  A get of the new result then
    hands it to every caller but a patient who is not the patient named
    and a doctor who is not the doctor named. *)
Theorem createResultado_then_get req db e p m ex u v :
  prop req "exameId" = JS.Str e → e ≠ "" →
  prop req "pacienteId" = JS.Str p → p ≠ "" →
  prop req "medicoId" = JS.Str m → m ≠ "" →
  userPerfil req ∈ ["MEDICO"; "ADMIN"] →
  exame db !! e = Some ex →
  usuario db !! p = Some u → usuario db !! m = Some v →
  JS.typeof (prop req "detalhes") ≠ "boolean" →
  JS.typeof (prop req "arquivoUrl") ≠ "boolean" →
  resultadoExame db !! cuid db = None →
  let out := createResultado' req db in
  let row := ResultadoExame.mk e p m (detalhes_of (prop req "detalhes"))
               (detalhes_of (prop req "arquivoUrl")) (now db) in
  status out.1 = 201
  ∧ returned_resultados out.1 = [(cuid db, row)]
  ∧ out.2 = with_resultadoExame (<[cuid db := row]> (resultadoExame db)) db
  ∧ ∀ read, params_id read = cuid db →
      if denied read p m
      then status (getResultado read out.2).1 = 403
      else returned_resultados (getResultado read out.2).1 = [(cuid db, row)].
Proof.
  intros He He' Hp Hp' Hm Hm' Hperfil Hex Hu Hv Hd Ha Hfresh out row.
  assert (out = (mkResponse 201
                   (OneResultado (Some "Resultado criado com sucesso")
                      (resultado_include false
                         (with_resultadoExame
                            (<[cuid db := row]> (resultadoExame db)) db)
                         (cuid db, row))),
                 with_resultadoExame
                   (<[cuid db := row]> (resultadoExame db)) db)) as Hout.
  { subst out row. unfold createResultado, resultadoExame_create, foreign_key,
      fresh_key, optional_String_arg. async. rewrite He, Hp, Hm. simpl.
    apply String.eqb_neq in He', Hp', Hm'. rewrite He', Hp', Hm'. simpl.
    assert (bool_decide (userPerfil req ∈ ["MEDICO"; "ADMIN"]) = true) as ->
      by (by apply bool_decide_eq_true_2).
    simpl. rewrite Hex. simpl.
    destruct (prop req "detalhes") as [| |?|x] eqn:Hdet; try done;
      destruct (prop req "arquivoUrl") as [| |?|y] eqn:Harq; try done;
      simpl; rewrite Hex; simpl; rewrite Hu; simpl; rewrite Hv; simpl;
      by rewrite Hfresh. }
  rewrite Hout. simpl. split_and!; try done.
  intros read Hid.
  rewrite (getResultado_found read _ row)
    by (simpl; by rewrite Hid, lookup_insert_eq).
  simpl. destruct (denied read p m); [done|]. simpl. by rewrite Hid.
Qed.

(** X16: a caller whose profile is neither MEDICO nor ADMIN cannot file a
    result: once the three references are there, the answer is 403
    AUTH_FORBIDDEN, whether the exam exists or not.  From a doctor or an
    administrator, a reference to an exam that is not stored is answered
    404.  Neither changes the database. *)
Theorem createResultado_refused req db :
  JS.truthy (prop req "exameId") = true →
  JS.truthy (prop req "pacienteId") = true →
  JS.truthy (prop req "medicoId") = true →
  (userPerfil req ∉ ["MEDICO"; "ADMIN"] →
   createResultado' req db
   = (mkResponse 403
        (Error "AUTH_FORBIDDEN"
           "Apenas medicos e administradores podem criar resultados"), db))
  ∧ (userPerfil req ∈ ["MEDICO"; "ADMIN"] →
     ∀ e, prop req "exameId" = JS.Str e → exame db !! e = None →
          createResultado' req db
          = (mkResponse 404
               (Error "RESOURCE_NOT_FOUND" "Exame nao encontrado"), db)).
Proof.
  intros He Hp Hm. split.
  - intros Hperfil. unfold createResultado. async. rewrite He, Hp, Hm. simpl.
    by rewrite bool_decide_eq_false_2.
  - intros Hperfil e Hid Hnone. unfold createResultado. async.
    rewrite He, Hp, Hm. simpl. rewrite bool_decide_eq_true_2 by done.
    rewrite Hid. simpl. by rewrite Hnone.
Qed.

End Results.

(** ** Accounts *)

Lemma findFirst_the_one {A} (table : gmap string A) (P : string * A → Prop)
    `{∀ r, Decision (P r)} id a :
  table !! id = Some a → P (id, a) →
  (∀ j b, table !! j = Some b → P (j, b) → j = id) →
  head (filter P (map_to_list table)) = Some (id, a).
Proof.
  intros Ha HP Hone.
  destruct (head _) as [[j b]|] eqn:Hhead.
  - apply head_Some_elem_of, list_elem_of_filter in Hhead as [HPj Hin].
    apply elem_of_map_to_list in Hin.
    assert (j = id) as -> by (by eapply Hone). congruence.
  - assert (is_Some (head (filter P (map_to_list table)))) as [x Hx].
    { apply head_filter_is_Some. exists (id, a).
      split; [by apply elem_of_map_to_list|done]. }
    congruence.
Qed.

Lemma unique_emails_insert db id row :
  unique_emails db →
  (∀ j u, j ≠ id → usuario db !! j = Some u →
          Usuario.email u ≠ Usuario.email row) →
  unique_emails (with_usuario (<[id := row]> (usuario db)) db).
Proof.
  intros Huniq Hother i j p q. simpl.
  destruct (decide (i = id)) as [->|Hi], (decide (j = id)) as [->|Hj];
    rewrite ?lookup_insert_eq, ?lookup_insert_ne by done; try done.
  - intros [= <-] Hq Heq. destruct (Hother j q); auto.
  - intros Hp [= <-] Heq. destruct (Hother i p); auto.
  - apply Huniq.
Qed.

Lemma length_ge_8 s : (8 ≤ String.length s)%nat → s ≠ "".
Proof. by destruct s; simpl; [lia|]. Qed.

Section Registering.
Variable bcrypt_hash : string → string.
Variable cuid : DB → string.
Variable now : DB → Z.

#[local] Abbreviation register' := (register bcrypt_hash cuid now).
#[local] Abbreviation createUser' := (createUser bcrypt_hash cuid now).

(** X17: a registration with a name, an email no user has and a password
    of 8 characters or more answers 201 and adds one user: active, with
    the hash of the password and with profile PACIENTE, whatever profile
    the body asks for.  Every email still belongs to one user, and a
    second registration with that email is answered 409
    RESOURCE_CONFLICT. *)
Theorem register_creates_patient req db n e s :
  prop req "nome" = JS.Str n → n ≠ "" →
  prop req "email" = JS.Str e → e ≠ "" →
  prop req "senha" = JS.Str s → (8 ≤ String.length s)%nat →
  (∀ id u, usuario db !! id = Some u → Usuario.email u ≠ e) →
  usuario db !! cuid db = None →
  let out := register' req db in
  let row := Usuario.mk n e (bcrypt_hash s) "PACIENTE" true (now db) (now db) in
  out.1 = mkResponse 201
            (OneUsuario "Usuario criado com sucesso"
               (mkUsuarioView (cuid db) n e "PACIENTE" None (Some (now db))
                  None))
  ∧ out.2 = with_usuario (<[cuid db := row]> (usuario db)) db
  ∧ (unique_emails db → unique_emails out.2)
  ∧ ∀ again s', prop again "nome" = JS.Str n →
                prop again "email" = JS.Str e →
                prop again "senha" = JS.Str s' → (8 ≤ String.length s')%nat →
                register' again out.2
                = (mkResponse 409
                     (Error "RESOURCE_CONFLICT" "Email ja cadastrado"), out.2).
Proof.
  intros Hn Hn' He He' Hs Hlen Hnew Hfresh out row.
  assert (head (filter (has_email e) (map_to_list (usuario db))) = None)
    as Hfind.
  { apply head_filter_None. intros [j q] Hin%elem_of_map_to_list Hq.
    by apply (Hnew j q). }
  pose proof (length_ge_8 s Hlen) as Hs'.
  assert ((Z.of_nat (String.length s) <? 8) = false) as Hlong
    by (apply Z.ltb_ge; lia).
  assert (out = (mkResponse 201
                   (OneUsuario "Usuario criado com sucesso"
                      (mkUsuarioView (cuid db) n e "PACIENTE" None
                         (Some (now db)) None)),
                 with_usuario (<[cuid db := row]> (usuario db)) db)) as Hout.
  { subst out row. unfold register, usuario_findUnique_email, usuario_create,
      bcrypt_hash_async, length_lt, fresh_key, set_enum. async.
    rewrite Hn, He, Hs. simpl.
    apply String.eqb_neq in Hn', He', Hs'. rewrite Hn', He', Hs'. simpl.
    rewrite Hlong. simpl. rewrite Hfind. simpl. rewrite Hfind. simpl.
    by rewrite Hfresh. }
  rewrite Hout. simpl. split_and!; try done.
  - intros Huniq. apply unique_emails_insert; [done|].
    intros j u _ Hu. by apply (Hnew j u).
  - intros again s' Hn2 He2 Hs2 Hlen2.
    pose proof (length_ge_8 s' Hlen2) as Hs2'.
    assert ((Z.of_nat (String.length s') <? 8) = false) as Hlong2
      by (apply Z.ltb_ge; lia).
    unfold register, usuario_findUnique_email, length_lt. async.
    rewrite Hn2, He2, Hs2. simpl.
    apply String.eqb_neq in Hn', He', Hs2'. rewrite Hn', He', Hs2'. simpl.
    rewrite Hlong2. simpl.
    rewrite (findFirst_the_one _ (has_email e) (cuid db) row); try done.
    + by rewrite lookup_insert_eq.
    + intros j b Hb Hmail. destruct (decide (j = cuid db)) as [|Hj]; [done|].
      rewrite lookup_insert_ne in Hb by done. by destruct (Hnew j b).
Qed.

End Registering.

(** ** Sessions *)

Lemma usuario_by_email db id u :
  unique_emails db →
  usuario db !! id = Some u →
  head (filter (has_email (Usuario.email u)) (map_to_list (usuario db)))
  = Some (id, u).
Proof.
  intros Huniq Hu. apply findFirst_the_one; [done|done|].
  intros j b Hb Hmail. by eapply Huniq.
Qed.

Lemma or_else_nonempty a k :
  k ≠ "" → ∃ k', or_else a (Some k) = Some k' ∧ k' ≠ "".
Proof.
  intros Hk. destruct a as [s|]; simpl; [|by exists k].
  destruct (String.eqb_spec s ""); [by exists k|by exists s].
Qed.

Lemma split_nonempty sep s : JS.split sep s ≠ [].
Proof.
  destruct s as [|c s]; [done|]. cbn [JS.split].
  destruct (Ascii.eqb c sep); [done|]. by destruct (JS.split sep s).
Qed.

Lemma split_no_space s : has_space s = false → JS.split " " s = [s].
Proof.
  induction s as [|c s IH]; [done|]. cbn [has_space JS.split].
  intros [Hc Hs]%orb_false_elim. rewrite Hc, (IH Hs). done.
Qed.

Lemma split_at_space a s :
  has_space a = false →
  JS.split " " (a +:+ String " " s) = a :: JS.split " " s.
Proof.
  induction a as [|c a IH]; [done|]. cbn [has_space].
  intros [Hc Ha]%orb_false_elim.
  change (String c a +:+ String " " s) with (String c (a +:+ String " " s)).
  cbn [JS.split]. by rewrite Hc, (IH Ha).
Qed.

Lemma split_space_one s a : JS.split " " s = [a] → s = a ∧ has_space a = false.
Proof.
  revert a. induction s as [|c s IH]; intros a.
  - by intros [= <-].
  - cbn [JS.split]. destruct (Ascii.eqb c " ") eqn:Hc.
    + intros [= _ H]. by apply split_nonempty in H.
    + destruct (JS.split " " s) as [|p ps] eqn:Hs;
        [by apply split_nonempty in Hs|].
      intros [= <- ->]. destruct (IH p eq_refl) as [-> Hp].
      split; [done|]. cbn [has_space]. by rewrite Hc, Hp.
Qed.

Lemma split_space_two s a b :
  JS.split " " s = [a; b] →
  s = a +:+ String " " b ∧ has_space a = false ∧ has_space b = false.
Proof.
  revert a. induction s as [|c s IH]; intros a; [done|].
  cbn [JS.split]. destruct (Ascii.eqb_spec c " ") as [->|Hc].
  - intros [= <- H]. apply split_space_one in H as [-> Hb]. done.
  - destruct (JS.split " " s) as [|p ps] eqn:Hs;
      [by apply split_nonempty in Hs|].
    intros [= <- ->]. destruct (IH p eq_refl) as (-> & Hp & Hb).
    split_and!; [done| |done]. cbn [has_space]. rewrite Hp.
    by apply Ascii.eqb_neq in Hc as ->.
Qed.

Lemma upper_space c : upper c ≠ " "%char → c ≠ " "%char.
Proof. by intros H ->. Qed.

Lemma test_Bearer_no_space scheme :
  test_Bearer scheme = true → has_space scheme = false ∧ scheme ≠ "".
Proof.
  unfold test_Bearer. intros H%String.eqb_eq.
  destruct scheme as [|c1 [|c2 [|c3 [|c4 [|c5 [|c6 [|]]]]]]]; try done.
  simpl in H. injection H as H1 H2 H3 H4 H5 H6.
  split; [|done]. cbn [has_space].
  repeat match goal with
         | H : upper ?c = _ |- _ =>
             assert (Ascii.eqb c " " = false) as ->
               by (apply Ascii.eqb_neq, upper_space; by rewrite H);
             clear H
         end.
  done.
Qed.

Section Sessions.
Variable bcrypt_compare : string → string → bool.
Variable jwt_sign : Payload → string → string → option string.
Variable jwt_verify : string → string → option Payload.
Variable env : Env.

#[local] Abbreviation login' := (login bcrypt_compare jwt_sign env).
#[local] Abbreviation refresh' := (refresh jwt_sign jwt_verify env).
#[local] Abbreviation authMiddleware' := (authMiddleware jwt_verify env).

(** X18: login tells an account that is switched off from a wrong
    password before it looks at the password: for the email of an
    inactive user the answer is 401 AUTH_FORBIDDEN whatever the password.
    An email no user has and a password bcrypt does not accept for an
    active user get one and the same answer, 401
    AUTH_INVALID_CREDENTIALS. *)
Theorem login_refused req db e s :
  prop req "email" = JS.Str e → e ≠ "" →
  prop req "senha" = JS.Str s → s ≠ "" →
  unique_emails db →
  let invalid :=
    (failure 401 "AUTH_INVALID_CREDENTIALS" "Email ou senha invalidos", db) in
  ((∀ id u, usuario db !! id = Some u → Usuario.email u ≠ e) →
   login' req db = invalid)
  ∧ ∀ id u, usuario db !! id = Some u → Usuario.email u = e →
      if Usuario.ativo u
      then bcrypt_compare s (Usuario.senhaHash u) = false →
           login' req db = invalid
      else login' req db
           = (failure 401 "AUTH_FORBIDDEN" "Usuario inativo", db).
Proof.
  intros He He' Hs Hs' Huniq invalid.
  apply String.eqb_neq in He', Hs'. split.
  - intros Hnew.
    assert (head (filter (has_email e) (map_to_list (usuario db))) = None)
      as Hfind.
    { apply head_filter_None. intros [j q] Hin%elem_of_map_to_list Hq.
      by apply (Hnew j q). }
    unfold login, usuario_findUnique_email, try_catch_reply, reply. async.
    rewrite He, Hs. simpl. rewrite He', Hs'. simpl. by rewrite Hfind.
  - intros id u Hu Hmail.
    pose proof (usuario_by_email db id u Huniq Hu) as Hfind.
    rewrite Hmail in Hfind.
    unfold login, usuario_findUnique_email, bcrypt_compare_async,
      try_catch_reply, reply. async.
    rewrite He, Hs. simpl. rewrite He', Hs'. simpl. rewrite Hfind. simpl.
    destruct (Usuario.ativo u); simpl; [|done].
    by intros ->.
Qed.

Lemma authMiddleware_accepts scheme token k d :
  test_Bearer scheme = true →
  has_space token = false →
  JWT_SECRET env = Some k → k ≠ "" →
  jwt_verify token k = Some d →
  authMiddleware' (Some (scheme +:+ String " " token))
  = inr (data_field d "id", data_field d "perfil").
Proof.
  intros Hscheme Htoken Hk Hk' Hd.
  destruct (test_Bearer_no_space _ Hscheme) as [Hns Hne].
  unfold authMiddleware.
  destruct (scheme +:+ String " " token) as [|c h] eqn:Hh;
    [by destruct scheme|].
  rewrite <- Hh, split_at_space, (split_no_space token) by done.
  cbn [length Nat.eqb negb lookup list_lookup default].
  change (JS.element [scheme; token] 1) with (JS.Str token).
  change (negb (Datatypes.length [scheme; token] =? 2)%nat) with false.
  cbv iota. unfold id, verify.
  rewrite Hscheme. simpl. rewrite Hk.
  apply String.eqb_neq in Hk'. by rewrite Hk', Hd.
Qed.

(** X19: [authMiddleware] lets a request through in one case only: the
    header is a scheme, one space and a token without a space; the
    scheme is Bearer in any mix of upper and lower case; and
    [jwt.verify] accepts the token under a JWT_SECRET that is set.  The
    request then carries the [id] and the [perfil] of the decoded
    payload, whatever they are.  Every other request is answered 401. *)
Theorem authMiddleware_passes header uid perfil :
  (authMiddleware' header = inr (uid, perfil)
   ↔ ∃ scheme token k d,
       header = Some (scheme +:+ String " " token)
       ∧ test_Bearer scheme = true
       ∧ has_space token = false
       ∧ JWT_SECRET env = Some k ∧ k ≠ ""
       ∧ jwt_verify token k = Some d
       ∧ uid = data_field d "id" ∧ perfil = data_field d "perfil")
  ∧ ∀ r, authMiddleware' header = inl r → status r = 401.
Proof.
  split.
  - split.
    + unfold authMiddleware. destruct header as [[|c h]|]; try done.
      destruct (JS.split " " (String c h)) as [|a [|b [|]]] eqn:Hsplit;
        try done.
      apply split_space_two in Hsplit as (Hh & Ha & Hb).
      cbn [length Nat.eqb negb lookup list_lookup default JS.element].
      change (JS.element [a; b] 1) with (JS.Str b).
      change (negb (Datatypes.length [a; b] =? 2)%nat) with false.
      cbv iota. unfold id, verify.
      destruct (test_Bearer a) eqn:Hscheme; [|done]. simpl.
      destruct (JWT_SECRET env) as [k|] eqn:Hk; [|done].
      destruct (String.eqb_spec k "") as [|Hk']; [done|].
      destruct (jwt_verify b k) as [d|] eqn:Hd; [|done].
      intros [= <- <-]. exists a, b, k, d. by rewrite Hh.
    + intros (scheme & token & k & d & -> & Hscheme & Htoken & Hk & Hk'
               & Hd & -> & ->).
      by apply (authMiddleware_accepts scheme token k d).
  - intros r. unfold authMiddleware.
    repeat case_match; by intros [= <-].
Qed.

(** X20: what login hands out and what the gates make of it, when no
    REFRESH_JWT_SECRET of its own is set.  For the email of an active
    user and a password bcrypt accepts, login answers 200 with an access
    token signed for the id and the profile of the user and a refresh
    token signed for the id alone, both under JWT_SECRET.  As long as
    [jwt.verify] reads back what was signed, [authMiddleware] lets the
    access token through with that id and profile; it lets the refresh
    token through as well, with that id and no profile at all; and
    refresh takes the access token for a refresh token and answers 200
    with a new access token. *)
Theorem session_tokens_at_the_gates req db id u s k accessToken refreshToken
    da dr :
  unique_emails db →
  usuario db !! id = Some u → Usuario.ativo u = true →
  prop req "email" = JS.Str (Usuario.email u) → Usuario.email u ≠ "" →
  prop req "senha" = JS.Str s → s ≠ "" →
  bcrypt_compare s (Usuario.senhaHash u) = true →
  JWT_SECRET env = Some k → k ≠ "" →
  or_else (REFRESH_JWT_SECRET env) (JWT_SECRET env) = Some k →
  jwt_sign {[ "id" := JS.Str id; "perfil" := JS.Str (Usuario.perfil u) ]} k
    (or_literal (JWT_EXPIRES_IN env) "15m") = Some accessToken →
  jwt_sign {[ "id" := JS.Str id ]} k
    (or_literal (REFRESH_JWT_EXPIRES_IN env) "7d") = Some refreshToken →
  jwt_verify accessToken k = Some da →
  data_field da "id" = JS.Str id →
  data_field da "perfil" = JS.Str (Usuario.perfil u) →
  jwt_verify refreshToken k = Some dr →
  data_field dr "id" = JS.Str id →
  data_field dr "perfil" = JS.Undefined →
  has_space accessToken = false → has_space refreshToken = false →
  accessToken ≠ "" →
  login' req db
  = (mkReply 200
       (Session "Login realizado com sucesso" accessToken refreshToken
          (mkUsuarioView id (Usuario.nome u) (Usuario.email u)
             (Usuario.perfil u) None None None)), db)
  ∧ authMiddleware' (Some ("Bearer " +:+ accessToken))
    = inr (JS.Str id, JS.Str (Usuario.perfil u))
  ∧ authMiddleware' (Some ("Bearer " +:+ refreshToken))
    = inr (JS.Str id, JS.Undefined)
  ∧ ∀ again, prop again "refreshToken" = JS.Str accessToken →
      ∃ t, refresh' again db
           = (Some (mkReply 200 (Renewed "Token renovado com sucesso" t)), db).
Proof.
  intros Huniq Hu Hativo He He' Hs Hs' Hpw Hk Hk' Hshared Hat Hrt
    Hda Hda1 Hda2 Hdr Hdr1 Hdr2 Hsa Hsr Hne.
  pose proof (usuario_by_email db id u Huniq Hu) as Hfind.
  pose proof Hk' as Hkb. apply String.eqb_neq in Hkb.
  split_and!.
  - apply String.eqb_neq in He', Hs'.
    unfold login, usuario_findUnique_email, bcrypt_compare_async, sign,
      try_catch_reply, reply. async.
    rewrite He, Hs. simpl. rewrite He', Hs'. simpl. rewrite Hfind. simpl.
    rewrite Hativo. simpl. rewrite Hpw. simpl.
    rewrite Hshared, Hk, Hkb, Hat. simpl. by rewrite Hrt.
  - pose proof (authMiddleware_accepts "Bearer" accessToken k da eq_refl
                  Hsa Hk Hk' Hda) as H.
    rewrite Hda1, Hda2 in H. exact H.
  - pose proof (authMiddleware_accepts "Bearer" refreshToken k dr eq_refl
                  Hsr Hk Hk' Hdr) as H.
    rewrite Hdr1, Hdr2 in H. exact H.
  - intros again Htoken. exists accessToken.
    apply String.eqb_neq in Hne.
    unfold refresh, verify, uncaught, usuario_findUnique_id, sign, failure,
      reply. async.
    rewrite Htoken. simpl. rewrite Hne. simpl.
    rewrite Hshared, Hkb, Hda. rewrite Hda1. simpl. rewrite Hu. simpl.
    rewrite Hativo. simpl. by rewrite Hk, Hkb, Hat.
Qed.

(** X21: refresh reads the profile from the database, not from the
    token.  For a token [jwt.verify] accepts and whose payload carries
    the id of an active user, the new access token is signed for the
    profile the user has now; for the id of no user or of an inactive
    user the answer is 401 AUTH_FORBIDDEN.  When the payload carries no
    id that is a string, the lookup rejects inside the callback of
    [jwt.verify], where nothing catches it: the request gets no answer.
    The database is never changed. *)
Theorem refresh_answers req db t k d :
  prop req "refreshToken" = JS.Str t → t ≠ "" →
  or_else (REFRESH_JWT_SECRET env) (JWT_SECRET env) = Some k → k ≠ "" →
  jwt_verify t k = Some d →
  match data_field d "id" with
  | JS.Str id =>
      match usuario db !! id with
      | Some u =>
          if Usuario.ativo u
          then ∀ ka new,
                 JWT_SECRET env = Some ka → ka ≠ "" →
                 jwt_sign {[ "id" := JS.Str id;
                             "perfil" := JS.Str (Usuario.perfil u) ]} ka
                   (or_literal (JWT_EXPIRES_IN env) "15m") = Some new →
                 refresh' req db
                 = (Some (mkReply 200
                            (Renewed "Token renovado com sucesso" new)), db)
          else refresh' req db
               = (Some (failure 401 "AUTH_FORBIDDEN"
                          "Usuario nao encontrado ou inativo"), db)
      | None =>
          refresh' req db
          = (Some (failure 401 "AUTH_FORBIDDEN"
                     "Usuario nao encontrado ou inativo"), db)
      end
  | _ => refresh' req db = (None, db)
  end.
Proof.
  intros Ht Ht' Hk Hk' Hd.
  apply String.eqb_neq in Ht', Hk'.
  unfold refresh, verify, uncaught, usuario_findUnique_id, sign, failure,
    reply. async.
  rewrite Ht. simpl. rewrite Ht'. simpl. rewrite Hk, Hk', Hd.
  destruct (data_field d "id") as [| |?|id]; try done. simpl.
  destruct (usuario db !! id) as [u|]; [|done]. simpl.
  destruct (Usuario.ativo u); [|done]. simpl.
  intros ka new Hka Hka' Hnew. apply String.eqb_neq in Hka'.
  by rewrite Hka, Hka', Hnew.
Qed.

End Sessions.

(** ** Users *)

Section Users.
Variable bcrypt_hash : string → string.
Variable cuid : DB → string.
Variable now : DB → Z.
Variable on_delete_usuario : string → DB → exn + DB.

#[local] Abbreviation createUser' := (createUser bcrypt_hash cuid now).
#[local] Abbreviation updateUser' := (updateUser bcrypt_hash now).
#[local] Abbreviation deleteUser' := (deleteUser on_delete_usuario).

(** X22: the handler that creates a user checks the password before the
    profile: a password of fewer than 8 characters is answered 400 even
    with a profile that is valid, and a profile that is none of the four
    is answered 400 once the password is long enough.  With a valid
    profile, an email no user has and a password of 8 characters or more
    the answer is 201 and one active user is added with that profile and
    the hash of the password. *)
Theorem createUser_creates req db n e s pf :
  prop req "nome" = JS.Str n → n ≠ "" →
  prop req "email" = JS.Str e → e ≠ "" →
  prop req "senha" = JS.Str s → s ≠ "" →
  prop req "perfil" = JS.Str pf → pf ≠ "" →
  let out := createUser' req db in
  let invalid message :=
    (mkResponse 400 (Error "VALIDATION_ERROR" message), db) in
  ((String.length s < 8)%nat →
   out = invalid "A senha deve ter no minimo 8 caracteres")
  ∧ ((8 ≤ String.length s)%nat → pf ∉ perfisValidos →
     out = invalid "Perfil invalido")
  ∧ ((8 ≤ String.length s)%nat → pf ∈ perfisValidos →
     (∀ id u, usuario db !! id = Some u → Usuario.email u ≠ e) →
     usuario db !! cuid db = None →
     let row := Usuario.mk n e (bcrypt_hash s) pf true (now db) (now db) in
     out = (mkResponse 201
              (OneUsuario "Usuario criado com sucesso"
                 (mkUsuarioView (cuid db) n e pf (Some true) (Some (now db))
                    None)),
            with_usuario (<[cuid db := row]> (usuario db)) db)).
Proof.
  intros Hn Hn' He He' Hs Hs' Hpf Hpf' out invalid.
  apply String.eqb_neq in Hn', He', Hs', Hpf'.
  subst out invalid. cbv beta.
  unfold createUser, usuario_findUnique_email, usuario_create,
    bcrypt_hash_async, length_lt, fresh_key, set_enum. async.
  rewrite Hn, He, Hs, Hpf. remember perfisValidos as valid eqn:Hv. simpl.
  rewrite Hn', He', Hs', Hpf'. simpl. split_and!.
  - intros Hshort.
    assert ((Z.of_nat (String.length s) <? 8) = true) as ->
      by (apply Z.ltb_lt; lia).
    done.
  - intros Hlong Hbad.
    assert ((Z.of_nat (String.length s) <? 8) = false) as ->
      by (apply Z.ltb_ge; lia).
    simpl. by rewrite bool_decide_eq_false_2.
  - intros Hlong Hgood Hnew Hfresh.
    assert ((Z.of_nat (String.length s) <? 8) = false) as ->
      by (apply Z.ltb_ge; lia).
    assert (head (filter (has_email e) (map_to_list (usuario db))) = None)
      as Hfind.
    { apply head_filter_None. intros [j q] Hin%elem_of_map_to_list Hq.
      by apply (Hnew j q). }
    simpl. rewrite bool_decide_eq_true_2 by done. simpl.
    rewrite Hfind. simpl. rewrite ?bool_decide_eq_true_2 by done. simpl.
    rewrite ?Hfind. simpl. by rewrite Hfresh.
Qed.

(** X23: an update that sets the email of a user to the email of another
    user runs into the unique constraint of the store; the handler's own
    catch turns that into 500 INTERNAL_SERVER_ERROR, not into a 409, and
    the database is left as it was. *)
Theorem updateUser_email_taken req db u j v e :
  usuario db !! params_id req = Some u →
  usuario db !! j = Some v → j ≠ params_id req →
  Usuario.email v = e → e ≠ "" →
  body req = {[ "email" := JS.Str e ]} →
  updateUser bcrypt_hash now req db
  = (mkResponse 500
       (Error "INTERNAL_SERVER_ERROR" "Erro ao atualizar usuario"), db).
Proof.
  intros Hu Hv Hj Hmail He Hbody.
  assert (prop req "email" = JS.Str e) as Hpe
    by (unfold prop; by rewrite Hbody, lookup_singleton_eq).
  assert (∀ key, key ≠ "email" → prop req key = JS.Undefined) as Hother
    by (intros key Hkey; unfold prop; by rewrite Hbody, lookup_singleton_ne).
  assert (is_Some (head (filter (other_with_email (params_id req) e)
                           (map_to_list (usuario db))))) as [x Hx].
  { apply head_filter_is_Some. exists (j, v).
    split; [by apply elem_of_map_to_list|done]. }
  apply String.eqb_neq in He.
  unfold updateUser, usuario_update, set_if, set_String, set_enum,
    set_Boolean. async.
  rewrite Hpe, !Hother by done. simpl. rewrite Hu, He. simpl.
  rewrite Hu. simpl.
  rewrite data_field_insert_ne, data_field_empty by done.
  rewrite data_field_insert_eq. simpl.
  rewrite !data_field_insert_ne, !data_field_empty by done. simpl.
  by rewrite Hx.
Qed.

(** X24: deleting a user removes the row for good when the store lets go
    of it, and answers 500 and removes nothing when the store refuses;
    after the removal a get of the user is answered 404 and the other
    users are as they were. *)
Theorem deleteUser_then_gone req db u :
  usuario db !! params_id req = Some u →
  let out := deleteUser' req db in
  (∀ e, on_delete_usuario (params_id req) db = inl e →
        out = (mkResponse 500
                 (Error "INTERNAL_SERVER_ERROR" "Erro ao remover usuario"),
               db))
  ∧ (on_delete_usuario (params_id req) db = inr db →
     out = (mkResponse 200 (Message "Usuario removido com sucesso"),
            with_usuario (delete (params_id req) (usuario db)) db)
     ∧ (∀ id, id ≠ params_id req → usuario out.2 !! id = usuario db !! id)
     ∧ ∀ read, params_id read = params_id req →
         getUser read out.2
         = (failure 404 "RESOURCE_NOT_FOUND" "Usuario nao encontrado", out.2)).
Proof.
  intros Hu out. subst out. split.
  - intros e He. unfold deleteUser, usuario_delete. async. simpl.
    rewrite Hu. simpl. rewrite Hu. by rewrite He.
  - intros Hgo.
    assert (deleteUser' req db
            = (mkResponse 200 (Message "Usuario removido com sucesso"),
               with_usuario (delete (params_id req) (usuario db)) db)) as ->.
    { unfold deleteUser, usuario_delete. async. simpl.
      rewrite Hu. simpl. rewrite Hu. by rewrite Hgo. }
    simpl. split_and!; [done| |].
    + intros id Hid. by rewrite lookup_delete_ne.
    + intros read Hid. unfold getUser, try_catch_reply, reply, failure.
      async. simpl. by rewrite Hid, lookup_delete_eq.
Qed.

End Users.

(** X25: the list of users carries every stored user once, inactive ones
    included, the latest created first, and leaves the database as it
    was. *)
Theorem listUsers_exact req db :
  ∃ rows,
    listUsers req db = (mkReply 200 (Usuarios (usuario_select <$> rows)), db)
    ∧ rows ≡ₚ map_to_list (usuario db)
    ∧ Sorted (λ x y, Usuario.criadoEm y.2 ≤ Usuario.criadoEm x.2) rows.
Proof.
  exists (merge_sort usuario_criadoEm_desc
            (filter every_row (map_to_list (usuario db)))).
  split_and!.
  - done.
  - rewrite merge_sort_Permutation.
    assert (∀ l : list (string * Usuario.t), filter every_row l = l) as ->;
      [|done].
    induction l as [|x l IH]; [done|]. by rewrite filter_cons_True, IH.
  - apply Sorted_merge_sort, usuario_criadoEm_desc_total.
Qed.

(** ** From the account to the session *)

Lemma or_else_secret a k kr :
  k ≠ "" → or_else a (Some k) = Some kr → kr ≠ "".
Proof.
  intros Hk. destruct a as [s|]; simpl; [|by intros [= <-]].
  destruct (String.eqb_spec s ""); by intros [= <-].
Qed.

Section Round_trips.
Variable bcrypt_hash : string → string.
Variable bcrypt_compare : string → string → bool.
Variable jwt_sign : Payload → string → string → option string.
Variable jwt_verify : string → string → option Payload.
Variable env : Env.
Variable cuid : DB → string.
Variable now : DB → Z.

#[local] Abbreviation register' := (register bcrypt_hash cuid now).
#[local] Abbreviation updateUser' := (updateUser bcrypt_hash now).
#[local] Abbreviation login' := (login bcrypt_compare jwt_sign env).
#[local] Abbreviation refresh' := (refresh jwt_sign jwt_verify env).

(** X26: after a registration that went through, a login with the same
    email and a password that bcrypt accepts against the stored hash
    opens a session for the new user, with profile PACIENTE in the access
    token; a password bcrypt does not accept is answered 401
    AUTH_INVALID_CREDENTIALS. *)
Theorem register_then_login req db n e s :
  prop req "nome" = JS.Str n → n ≠ "" →
  prop req "email" = JS.Str e → e ≠ "" →
  prop req "senha" = JS.Str s → (8 ≤ String.length s)%nat →
  (∀ id u, usuario db !! id = Some u → Usuario.email u ≠ e) →
  usuario db !! cuid db = None →
  let db' := (register' req db).2 in
  ∀ again s', prop again "email" = JS.Str e →
              prop again "senha" = JS.Str s' → s' ≠ "" →
    if bcrypt_compare s' (bcrypt_hash s)
    then ∀ k kr accessToken refreshToken,
           JWT_SECRET env = Some k → k ≠ "" →
           or_else (REFRESH_JWT_SECRET env) (JWT_SECRET env) = Some kr →
           jwt_sign {[ "id" := JS.Str (cuid db);
                       "perfil" := JS.Str "PACIENTE" ]} k
             (or_literal (JWT_EXPIRES_IN env) "15m") = Some accessToken →
           jwt_sign {[ "id" := JS.Str (cuid db) ]} kr
             (or_literal (REFRESH_JWT_EXPIRES_IN env) "7d")
           = Some refreshToken →
           login' again db'
           = (mkReply 200
                (Session "Login realizado com sucesso" accessToken
                   refreshToken
                   (mkUsuarioView (cuid db) n e "PACIENTE" None None None)),
              db')
    else login' again db'
         = (failure 401 "AUTH_INVALID_CREDENTIALS" "Email ou senha invalidos",
            db').
Proof.
  intros Hn Hn' He He' Hs Hlen Hnew Hfresh db' again s' He2 Hs2 Hs2'.
  set (row := Usuario.mk n e (bcrypt_hash s) "PACIENTE" true (now db) (now db)).
  assert (db' = with_usuario (<[cuid db := row]> (usuario db)) db) as ->.
  { assert (head (filter (has_email e) (map_to_list (usuario db))) = None)
      as Hfind.
    { apply head_filter_None. intros [j q] Hin%elem_of_map_to_list Hq.
      by apply (Hnew j q). }
    pose proof (length_ge_8 s Hlen) as Hs'.
    assert ((Z.of_nat (String.length s) <? 8) = false) as Hlong
      by (apply Z.ltb_ge; lia).
    subst db' row. unfold register, usuario_findUnique_email, usuario_create,
      bcrypt_hash_async, length_lt, fresh_key, set_enum. async.
    rewrite Hn, He, Hs. simpl.
    apply String.eqb_neq in Hn', He', Hs'. rewrite Hn', He', Hs'. simpl.
    rewrite Hlong. simpl. rewrite Hfind. simpl. rewrite Hfind. simpl.
    by rewrite Hfresh. }
  assert (head (filter (has_email e)
                  (map_to_list (<[cuid db := row]> (usuario db))))
          = Some (cuid db, row)) as Hfind.
  { apply findFirst_the_one; simpl.
    - by rewrite lookup_insert_eq.
    - done.
    - intros j b Hb Hmail. destruct (decide (j = cuid db)) as [|Hj]; [done|].
      rewrite lookup_insert_ne in Hb by done. by destruct (Hnew j b). }
  apply String.eqb_neq in He', Hs2'.
  unfold login, usuario_findUnique_email, bcrypt_compare_async, sign,
    try_catch_reply, reply. async.
  rewrite He2, Hs2. simpl. rewrite He', Hs2'. simpl. rewrite Hfind. simpl.
  destruct (bcrypt_compare s' (bcrypt_hash s)); simpl; [|done].
  intros k kr accessToken refreshToken Hk Hk' Hkr Hat Hrt.
  pose proof (or_else_secret _ _ _ Hk' (eq_trans (f_equal _ (eq_sym Hk)) Hkr))
    as Hkr'.
  apply String.eqb_neq in Hk', Hkr'.
  rewrite Hkr, Hk, Hk', Hat. simpl. by rewrite Hkr', Hrt.
Qed.

(** X27: when an administrator switches a user off, with a body that
    carries [ativo: false] and nothing else, the update answers 200 and
    changes that flag and the time of the update only; from then on a
    login with the email of the user is answered 401 AUTH_FORBIDDEN
    whatever the password, and so is a refresh with a token of the
    user. *)
Theorem switched_off_user_is_locked_out req db u :
  unique_emails db →
  usuario db !! params_id req = Some u →
  body req = {[ "ativo" := JS.Bool false ]} →
  let out := updateUser' req db in
  let u' := Usuario.mk (Usuario.nome u) (Usuario.email u)
              (Usuario.senhaHash u) (Usuario.perfil u) false
              (Usuario.criadoEm u) (now db) in
  status out.1 = 200
  ∧ out.2 = with_usuario (<[params_id req := u']> (usuario db)) db
  ∧ (∀ again s, prop again "email" = JS.Str (Usuario.email u) →
                Usuario.email u ≠ "" →
                prop again "senha" = JS.Str s → s ≠ "" →
                login' again out.2
                = (failure 401 "AUTH_FORBIDDEN" "Usuario inativo", out.2))
  ∧ ∀ again t k d,
      prop again "refreshToken" = JS.Str t → t ≠ "" →
      or_else (REFRESH_JWT_SECRET env) (JWT_SECRET env) = Some k → k ≠ "" →
      jwt_verify t k = Some d →
      data_field d "id" = JS.Str (params_id req) →
      refresh' again out.2
      = (Some (failure 401 "AUTH_FORBIDDEN"
                 "Usuario nao encontrado ou inativo"), out.2).
Proof.
  intros Huniq Hu Hbody out u'.
  assert (prop req "ativo" = JS.Bool false) as Hativo
    by (unfold prop; by rewrite Hbody, lookup_singleton_eq).
  assert (∀ key, key ≠ "ativo" → prop req key = JS.Undefined) as Hother
    by (intros key Hkey; unfold prop; by rewrite Hbody, lookup_singleton_ne).
  assert (head (filter (other_with_email (params_id req) (Usuario.email u))
                  (map_to_list (usuario db))) = None) as Hfree.
  { apply head_filter_None. intros [j v] Hin%elem_of_map_to_list [Hmail Hj].
    simpl in *. apply Hj. by eapply Huniq. }
  assert (out = (mkResponse 200
                   (OneUsuario "Usuario atualizado com sucesso"
                      (mkUsuarioView (params_id req) (Usuario.nome u)
                         (Usuario.email u) (Usuario.perfil u) (Some false)
                         None (Some (now db)))),
                 with_usuario (<[params_id req := u']> (usuario db)) db))
    as Hout.
  { subst out u'. unfold updateUser, usuario_update, set_if, set_String,
      set_enum, set_Boolean. async.
    rewrite Hativo, !Hother by done. simpl. rewrite Hu. simpl.
    rewrite Hu. simpl.
    rewrite data_field_insert_eq.
    rewrite !data_field_insert_ne, !data_field_empty by done.
    simpl. by rewrite Hfree. }
  rewrite Hout. simpl. split_and!; [done|done| |].
  - intros again s He He' Hs Hs'.
    assert (head (filter (has_email (Usuario.email u))
                    (map_to_list (<[params_id req := u']> (usuario db))))
            = Some (params_id req, u')) as Hfind.
    { apply findFirst_the_one.
      - by rewrite lookup_insert_eq.
      - done.
      - intros j b Hb Hmail.
        destruct (decide (j = params_id req)) as [|Hj]; [done|].
        rewrite lookup_insert_ne in Hb by done. by eapply Huniq. }
    apply String.eqb_neq in He', Hs'.
    unfold login, usuario_findUnique_email, try_catch_reply, reply, failure.
    async. rewrite He, Hs. simpl. rewrite He', Hs'. simpl.
    by rewrite Hfind.
  - intros again t k d Ht Ht' Hk Hk' Hd Hid.
    apply String.eqb_neq in Ht', Hk'.
    unfold refresh, verify, uncaught, usuario_findUnique_id, failure, reply.
    async. rewrite Ht. simpl. rewrite Ht'. simpl. rewrite Hk, Hk', Hd, Hid.
    simpl. by rewrite lookup_insert_eq.
Qed.

End Round_trips.

(** ** The further theorems at work *)

Lemma usuario_clinic id u :
  usuario Runtime.clinic !! id = Some u →
  (id, u) ∈ [("ana", Runtime.user "ana" "PACIENTE");
             ("bia", Runtime.user "bia" "PACIENTE");
             ("dr-m", Runtime.user "dr-m" "MEDICO");
             ("dr-n", Runtime.user "dr-n" "MEDICO");
             ("adm", Runtime.user "adm" "ADMIN")].
Proof.
  intros H. apply elem_of_list_to_map_2 in H. exact H.
Defined.

Lemma unique_emails_clinic : unique_emails Runtime.clinic.
Proof.
  intros i j u v Hi%usuario_clinic Hj%usuario_clinic.
  repeat (apply elem_of_cons in Hi as [[= -> ->]|Hi]);
    [..|by apply elem_of_nil in Hi].
  all: repeat (apply elem_of_cons in Hj as [[= -> ->]|Hj]);
    [..|by apply elem_of_nil in Hj].
  all: by vm_compute.
Defined.

Lemma update_then_get_witness :
  b_status <$> bookings Appointment Runtime.cancelled_slot !! "c5"
  = Some "CANCELADA"
  ∧ status (update Appointment Scenario.adm_reopens
              Runtime.cancelled_slot).1 = 200
  ∧ returned (get Appointment Scenario.adm_reopens
                (update Appointment Scenario.adm_reopens
                   Runtime.cancelled_slot).2).1
    = [("c5", Runtime.appointment)].
Proof.
  assert (Hb : bookings Appointment Runtime.cancelled_slot !! "c5"
               = Some (cancelled Runtime.appointment))
    by (vm_compute; reflexivity).
  split; [by rewrite Hb|].
  destruct (update_then_get Appointment Scenario.adm_reopens
              Runtime.cancelled_slot (cancelled Runtime.appointment)
              "AGENDADA" Hb) as (H200 & _ & _ & Hget).
  - vm_compute; reflexivity.
  - vm_compute; reflexivity.
  - apply elem_of_cons. by left.
  - vm_compute. discriminate.
  - split; [exact H200|exact Hget].
Defined.

Lemma update_refused_witness :
  bookings Appointment Runtime.booked !! "c5" = Some Runtime.appointment
  ∧ status (update Appointment
              (Runtime.request "bia" "PACIENTE" "c5"
                 [("status", JS.Str "CANCELADA")]) Runtime.booked).1 = 403
  ∧ update Appointment
      (Runtime.request "adm" "ADMIN" "c5" [("status", JS.Str "ADIADA")])
      Runtime.booked
    = (mkResponse 400 (Error "VALIDATION_ERROR" "Status invalido"),
       Runtime.booked).
Proof.
  assert (Hb : bookings Appointment Runtime.booked !! "c5"
               = Some Runtime.appointment) by (vm_compute; reflexivity).
  split; [exact Hb|]. split.
  - destruct (update_refused Appointment
                (Runtime.request "bia" "PACIENTE" "c5"
                   [("status", JS.Str "CANCELADA")])
                Runtime.booked Runtime.appointment Hb) as [H403 _].
    destruct H403 as (H & _ & _); [vm_compute; reflexivity|exact H].
  - destruct (update_refused Appointment
                (Runtime.request "adm" "ADMIN" "c5"
                   [("status", JS.Str "ADIADA")])
                Runtime.booked Runtime.appointment Hb) as [_ H400].
    destruct H400 as [H1 H2];
      [vm_compute; reflexivity|vm_compute; reflexivity
      |vm_compute; reflexivity|].
    destruct (update Appointment _ Runtime.booked) as [r db'].
    simpl in H1, H2. by rewrite H1, H2.
Defined.

Lemma created_slot_stays_taken_witness :
  status (Runtime.create Appointment Runtime.ana_books Runtime.clinic).1 = 201
  ∧ Runtime.create Appointment Runtime.bia_books Runtime.booked
    = (mkResponse 409
         (Error "SLOT_UNAVAILABLE" "Horario indisponivel para este medico"),
       Runtime.booked)
  ∧ Runtime.create Appointment Runtime.bia_books
      (cancel Appointment (Runtime.request "ana" "PACIENTE" "c5" [])
         Runtime.booked).2
    = (mkResponse 409
         (Error "SLOT_UNAVAILABLE" "Horario indisponivel para este medico"),
       (cancel Appointment (Runtime.request "ana" "PACIENTE" "c5" [])
          Runtime.booked).2).
Proof.
  assert (H201 : status (Runtime.create Appointment Runtime.ana_books
                           Runtime.clinic).1 = 201)
    by (vm_compute; reflexivity).
  split; [exact H201|].
  destruct (created_slot_stays_taken Runtime.Date_parse Runtime.LocalTZA
              Runtime.cuid Appointment Runtime.ana_books Runtime.bia_books
              Runtime.clinic "ana" "bia" "dr-m" "10:30"
              (Runtime.user "dr-m" "MEDICO") H201) as [Hfirst Hthen].
  - vm_compute; reflexivity.
  - vm_compute; reflexivity.
  - vm_compute; reflexivity.
  - vm_compute; reflexivity.
  - vm_compute; reflexivity.
  - vm_compute; reflexivity.
  - reflexivity.
  - vm_compute; reflexivity.
  - vm_compute; reflexivity.
  - exists (Runtime.user "bia" "PACIENTE"). vm_compute; reflexivity.
  - vm_compute; reflexivity.
  - split; [exact Hfirst|].
    destruct (Hthen (Runtime.request "ana" "PACIENTE" "c5" [])) as [_ H];
      [vm_compute; reflexivity|vm_compute; reflexivity|exact H].
Defined.

Lemma hora_suffix_ignored_witness :
  HH_MM "10:30" = true
  ∧ slot_time Runtime.Date_parse Runtime.LocalTZA (JS.Str "2024-01-01")
      (JS.Str "10:30 PM")
    = slot_time Runtime.Date_parse Runtime.LocalTZA (JS.Str "2024-01-01")
        (JS.Str "10:30").
Proof.
  split; [vm_compute; reflexivity|].
  apply (hora_suffix_ignored Runtime.Date_parse Runtime.LocalTZA
           (JS.Str "2024-01-01") "10:30" " PM");
    vm_compute; reflexivity.
Defined.

Lemma slot_time_rolls_over_witness :
  HH_MM "24:30" = true
  ∧ slot_time Runtime.Date_parse Runtime.LocalTZA (JS.Str "2024-01-01")
      (JS.Str "24:30")
    = slot_time Runtime.Date_parse Runtime.LocalTZA (JS.Str "2024-01-02")
        (JS.Str "00:30").
Proof.
  split; [vm_compute; reflexivity|].
  apply (slot_time_rolls_over Runtime.Date_parse Runtime.LocalTZA
           (JS.Str "2024-01-01") (JS.Str "2024-01-02") "24:30" "00:30"
           1704067200000 1704153600000);
    vm_compute; reflexivity.
Defined.

Lemma slot_day_west_of_UTC_witness :
  slot_time Runtime.Date_parse Scenario.west (JS.Str "2024-01-01")
    (JS.Str "10:30") = Some 1704029400000
  ∧ JS.Day 1704067200000 = 19723
  ∧ JS.Day (JS.LocalTime Scenario.west 1704029400000) = 19723 - 1.
Proof.
  assert (Ht : slot_time Runtime.Date_parse Scenario.west
                 (JS.Str "2024-01-01") (JS.Str "10:30") = Some 1704029400000)
    by (vm_compute; reflexivity).
  split; [exact Ht|]. split; [vm_compute; reflexivity|].
  destruct (slot_day_west_of_UTC Runtime.Date_parse (-10800000) "2024-01-01"
              "10:30" 1704067200000 1704029400000) as (_ & _ & Hwest & _).
  - vm_compute; reflexivity.
  - vm_compute; reflexivity.
  - vm_compute; reflexivity.
  - vm_compute; reflexivity.
  - vm_compute; reflexivity.
  - exact Ht.
  - apply Hwest. unfold JS.msPerDay. lia.
Defined.

Lemma failure_changes_nothing_witness :
  succeeded (Scenario.serve (Create Appointment) Runtime.bia_books_for_ana
               Runtime.booked).1 = false
  ∧ (Scenario.serve (Create Appointment) Runtime.bia_books_for_ana
       Runtime.booked).2 = Runtime.booked.
Proof.
  assert (H : succeeded (Scenario.serve (Create Appointment)
                           Runtime.bia_books_for_ana Runtime.booked).1
              = false) by (vm_compute; reflexivity).
  split; [exact H|].
  exact (failure_changes_nothing Runtime.bcrypt_hash Scenario.bcrypt_compare
           Scenario.jwt_sign Scenario.jwt_verify Scenario.env Runtime.cuid
           Runtime.now Scenario.on_delete_usuario Runtime.Date_parse
           Runtime.LocalTZA (Create Appointment) Runtime.bia_books_for_ana
           Runtime.booked H).
Defined.

Lemma reading_changes_nothing_witness :
  reads_only (ListAll Appointment) = true
  ∧ (Scenario.serve (ListAll Appointment)
       (Runtime.request "ana" "PACIENTE" "" []) Runtime.booked).2
    = Runtime.booked.
Proof.
  split; [reflexivity|].
  exact (reading_changes_nothing Runtime.bcrypt_hash Scenario.bcrypt_compare
           Scenario.jwt_sign Scenario.jwt_verify Scenario.env Runtime.cuid
           Runtime.now Scenario.on_delete_usuario Runtime.Date_parse
           Runtime.LocalTZA (ListAll Appointment)
           (Runtime.request "ana" "PACIENTE" "" []) Runtime.booked eq_refl).
Defined.

Lemma users_routes_admin_only_witness :
  of_users DeleteUser = true
  ∧ Scenario.serve DeleteUser (Runtime.request "dr-m" "MEDICO" "ana" [])
      Runtime.clinic
    = (Some (failure 403 "AUTH_FORBIDDEN"
               "Voce nao tem permissao para acessar este recurso"),
       Runtime.clinic).
Proof.
  split; [reflexivity|].
  exact (users_routes_admin_only Runtime.bcrypt_hash Scenario.bcrypt_compare
           Scenario.jwt_sign Scenario.jwt_verify Scenario.env Runtime.cuid
           Runtime.now Scenario.on_delete_usuario Runtime.Date_parse
           Runtime.LocalTZA DeleteUser
           (Runtime.request "dr-m" "MEDICO" "ana" []) Runtime.clinic eq_refl
           ltac:(discriminate)).
Defined.

Lemma missing_id_404_witness :
  addressed (Cancel Exam) Runtime.clinic "zz" = Some false
  ∧ ∃ message,
      Scenario.serve (Cancel Exam) (Runtime.request "ana" "PACIENTE" "zz" [])
        Runtime.clinic
      = (Some (failure 404 "RESOURCE_NOT_FOUND" message), Runtime.clinic).
Proof.
  assert (H : addressed (Cancel Exam) Runtime.clinic "zz" = Some false)
    by (vm_compute; reflexivity).
  split; [exact H|].
  apply (missing_id_404 Runtime.bcrypt_hash Scenario.bcrypt_compare
           Scenario.jwt_sign Scenario.jwt_verify Scenario.env Runtime.cuid
           Runtime.now Scenario.on_delete_usuario Runtime.Date_parse
           Runtime.LocalTZA (Cancel Exam)
           (Runtime.request "ana" "PACIENTE" "zz" []) Runtime.clinic H).
  discriminate.
Defined.

Lemma register_then_delete_witness :
  pushToken Runtime.clinic = ∅
  ∧ pushToken Runtime.token_registered !! "c5" = Some Runtime.ana_token
  ∧ deletePushToken (Runtime.request "ana" "PACIENTE" "c5" [])
      Runtime.token_registered
    = (mkResponse 200 (Message "Token removido com sucesso"), Runtime.clinic)
  ∧ status (deletePushToken (Runtime.request "adm" "ADMIN" "c5" [])
              Runtime.token_registered).1 = 403.
Proof.
  split; [reflexivity|]. split; [vm_compute; reflexivity|].
  destruct (register_then_delete Runtime.cuid Runtime.ana_registers
              Runtime.clinic "ExponentPushToken[x]" "ios")
    as (_ & Hdb & Hdel).
  - vm_compute; reflexivity.
  - discriminate.
  - vm_compute; reflexivity.
  - apply elem_of_cons. by left.
  - intros id p Hp.
    change (pushToken Runtime.clinic) with (∅ : gmap string PushToken.t) in Hp.
    by rewrite lookup_empty in Hp.
  - vm_compute; reflexivity.
  - split.
    + destruct (Hdel (Runtime.request "ana" "PACIENTE" "c5" []) eq_refl)
        as [_ Howner].
      destruct (Howner eq_refl) as [H _]. exact H.
    + destruct (Hdel (Runtime.request "adm" "ADMIN" "c5" []) eq_refl)
        as [Hother _].
      change Runtime.token_registered
        with (registerPushToken Runtime.cuid Runtime.ana_registers
                Runtime.clinic).2.
      rewrite Hother; [reflexivity|discriminate].
Defined.

Lemma push_tokens_stay_unique_witness :
  unique_tokens Runtime.token_registered
  ∧ unique_tokens (Runtime.registerPushToken Runtime.bia_registers
                     Runtime.token_registered).2.
Proof.
  split; [exact unique_tokens_token_registered|].
  exact (proj1 (push_tokens_stay_unique Runtime.cuid Runtime.bia_registers
                  Runtime.token_registered unique_tokens_token_registered)).
Defined.

Lemma createResultado_then_get_witness :
  exame Scenario.exam_booked !! "c5"
  = Some (Exame.mk "Hemograma" "ana" "dr-m" 1704153600000 "08:00"
            1704182400000 None "AGENDADA")
  ∧ status (Runtime.createResultado Runtime.result_for_bia
              Scenario.exam_booked).1 = 201
  ∧ returned_resultados
      (getResultado (Runtime.request "bia" "PACIENTE" "c6" [])
         (Runtime.createResultado Runtime.result_for_bia
            Scenario.exam_booked).2).1
    = [("c6", Scenario.result_row)]
  ∧ status (getResultado (Runtime.request "ana" "PACIENTE" "c6" [])
              (Runtime.createResultado Runtime.result_for_bia
                 Scenario.exam_booked).2).1 = 403.
Proof.
  assert (Hex : exame Scenario.exam_booked !! "c5"
                = Some (Exame.mk "Hemograma" "ana" "dr-m" 1704153600000
                          "08:00" 1704182400000 None "AGENDADA"))
    by (vm_compute; reflexivity).
  split; [exact Hex|].
  destruct (createResultado_then_get Runtime.cuid Runtime.now
              Runtime.result_for_bia Scenario.exam_booked "c5" "bia" "dr-m"
              (Exame.mk "Hemograma" "ana" "dr-m" 1704153600000 "08:00"
                 1704182400000 None "AGENDADA")
              (Runtime.user "bia" "PACIENTE") (Runtime.user "dr-m" "MEDICO"))
    as (H201 & _ & _ & Hget).
  - vm_compute; reflexivity.
  - discriminate.
  - vm_compute; reflexivity.
  - discriminate.
  - vm_compute; reflexivity.
  - discriminate.
  - apply elem_of_cons. by left.
  - exact Hex.
  - vm_compute; reflexivity.
  - vm_compute; reflexivity.
  - vm_compute. discriminate.
  - vm_compute. discriminate.
  - vm_compute; reflexivity.
  - split; [exact H201|]. split.
    + exact (Hget (Runtime.request "bia" "PACIENTE" "c6" []) eq_refl).
    + exact (Hget (Runtime.request "ana" "PACIENTE" "c6" []) eq_refl).
Defined.

Lemma createResultado_refused_witness :
  JS.truthy (prop Scenario.ana_files_result "exameId") = true
  ∧ Runtime.createResultado Scenario.ana_files_result Scenario.exam_booked
    = (mkResponse 403
         (Error "AUTH_FORBIDDEN"
            "Apenas medicos e administradores podem criar resultados"),
       Scenario.exam_booked).
Proof.
  split; [vm_compute; reflexivity|].
  destruct (createResultado_refused Runtime.cuid Runtime.now
              Scenario.ana_files_result Scenario.exam_booked) as [H403 _].
  - vm_compute; reflexivity.
  - vm_compute; reflexivity.
  - vm_compute; reflexivity.
  - apply H403. intros Hin.
    apply elem_of_cons in Hin as [Hin|Hin]; [discriminate|].
    apply elem_of_cons in Hin as [Hin|Hin]; [discriminate|].
    by apply elem_of_nil in Hin.
Defined.

Lemma no_email_in_clinic e :
  e ∉ ["ana@clinica.test"; "bia@clinica.test"; "dr-m@clinica.test";
       "dr-n@clinica.test"; "adm@clinica.test"] →
  ∀ id u, usuario Runtime.clinic !! id = Some u → Usuario.email u ≠ e.
Proof.
  intros He id u Hu%usuario_clinic <-. apply He.
  repeat (apply elem_of_cons in Hu as [[= -> ->]|Hu]);
    [..|by apply elem_of_nil in Hu].
  all: vm_compute; repeat (first [by left|right]).
Defined.

Lemma register_creates_patient_witness :
  prop Scenario.caio_registers "perfil" = JS.Str "ADMIN"
  ∧ status (Runtime.register Scenario.caio_registers Runtime.clinic).1 = 201
  ∧ Usuario.perfil
      <$> usuario (Runtime.register Scenario.caio_registers
                     Runtime.clinic).2 !! "c5" = Some "PACIENTE"
  ∧ unique_emails (Runtime.register Scenario.caio_registers Runtime.clinic).2.
Proof.
  split; [vm_compute; reflexivity|].
  destruct (register_creates_patient Runtime.bcrypt_hash Runtime.cuid
              Runtime.now Scenario.caio_registers Runtime.clinic "Caio"
              "caio@clinica.test" "12345678") as (H201 & Hdb & Huniq & _).
  - vm_compute; reflexivity.
  - discriminate.
  - vm_compute; reflexivity.
  - discriminate.
  - vm_compute; reflexivity.
  - simpl. lia.
  - apply no_email_in_clinic. intros Hin.
    repeat (apply elem_of_cons in Hin as [Hin|Hin]; [discriminate|]).
    by apply elem_of_nil in Hin.
  - vm_compute; reflexivity.
  - split_and!.
    + change (Runtime.register Scenario.caio_registers Runtime.clinic)
        with (register Runtime.bcrypt_hash Runtime.cuid Runtime.now
                Scenario.caio_registers Runtime.clinic).
      by rewrite H201.
    + change (Runtime.register Scenario.caio_registers Runtime.clinic)
        with (register Runtime.bcrypt_hash Runtime.cuid Runtime.now
                Scenario.caio_registers Runtime.clinic).
      rewrite Hdb. simpl. by rewrite lookup_insert_eq.
    + exact (Huniq unique_emails_clinic).
Defined.

Lemma login_refused_witness :
  prop Scenario.zed_logs_in "email" = JS.Str "zed@clinica.test"
  ∧ Scenario.login Scenario.zed_logs_in Runtime.clinic
    = (failure 401 "AUTH_INVALID_CREDENTIALS" "Email ou senha invalidos",
       Runtime.clinic).
Proof.
  assert (He : prop Scenario.zed_logs_in "email" = JS.Str "zed@clinica.test")
    by (vm_compute; reflexivity).
  split; [exact He|].
  destruct (login_refused Scenario.bcrypt_compare Scenario.jwt_sign
              Scenario.env Scenario.zed_logs_in Runtime.clinic
              "zed@clinica.test" "12345678" He) as [Hunknown _].
  - discriminate.
  - vm_compute; reflexivity.
  - discriminate.
  - exact unique_emails_clinic.
  - apply Hunknown, no_email_in_clinic. intros Hin.
    repeat (apply elem_of_cons in Hin as [Hin|Hin]; [discriminate|]).
    by apply elem_of_nil in Hin.
Defined.

Lemma session_tokens_at_the_gates_witness :
  usuario Runtime.clinic !! "ana" = Some (Runtime.user "ana" "PACIENTE")
  ∧ Scenario.authMiddleware (Some "Bearer segredo.ana.PACIENTE")
    = inr (JS.Str "ana", JS.Str "PACIENTE")
  ∧ Scenario.authMiddleware (Some "Bearer segredo.ana")
    = inr (JS.Str "ana", JS.Undefined)
  ∧ ∃ t, Scenario.refresh
           (Runtime.request "" "" ""
              [("refreshToken", JS.Str Scenario.ana_access)]) Runtime.clinic
         = (Some (mkReply 200 (Renewed "Token renovado com sucesso" t)),
            Runtime.clinic).
Proof.
  assert (Hu : usuario Runtime.clinic !! "ana"
               = Some (Runtime.user "ana" "PACIENTE"))
    by (vm_compute; reflexivity).
  split; [exact Hu|].
  destruct (session_tokens_at_the_gates Scenario.bcrypt_compare
              Scenario.jwt_sign Scenario.jwt_verify Scenario.env
              Scenario.ana_logs_in Runtime.clinic "ana"
              (Runtime.user "ana" "PACIENTE") "12345678" "segredo"
              Scenario.ana_access Scenario.ana_refresh
              {[ "id" := JS.Str "ana"; "perfil" := JS.Str "PACIENTE" ]}
              {[ "id" := JS.Str "ana" ]} unique_emails_clinic Hu)
    as (_ & Haccess & Hrefresh & Hagain).
  - reflexivity.
  - vm_compute; reflexivity.
  - discriminate.
  - vm_compute; reflexivity.
  - discriminate.
  - vm_compute; reflexivity.
  - reflexivity.
  - discriminate.
  - reflexivity.
  - vm_compute; reflexivity.
  - vm_compute; reflexivity.
  - vm_compute; reflexivity.
  - vm_compute; reflexivity.
  - vm_compute; reflexivity.
  - vm_compute; reflexivity.
  - vm_compute; reflexivity.
  - vm_compute; reflexivity.
  - vm_compute; reflexivity.
  - vm_compute; reflexivity.
  - discriminate.
  - split; [exact Haccess|]. split; [exact Hrefresh|].
    apply Hagain. vm_compute; reflexivity.
Defined.

Lemma refresh_answers_witness :
  Scenario.jwt_verify Scenario.ana_refresh "segredo"
  = Some {[ "id" := JS.Str "ana" ]}
  ∧ Scenario.refresh
      (Runtime.request "" "" ""
         [("refreshToken", JS.Str Scenario.ana_refresh)]) Runtime.clinic
    = (Some (mkReply 200
               (Renewed "Token renovado com sucesso" Scenario.ana_access)),
       Runtime.clinic).
Proof.
  assert (Hd : Scenario.jwt_verify Scenario.ana_refresh "segredo"
               = Some {[ "id" := JS.Str "ana" ]})
    by (vm_compute; reflexivity).
  split; [exact Hd|].
  pose proof (refresh_answers Scenario.jwt_sign Scenario.jwt_verify
                Scenario.env
                (Runtime.request "" "" ""
                   [("refreshToken", JS.Str Scenario.ana_refresh)])
                Runtime.clinic Scenario.ana_refresh "segredo"
                {[ "id" := JS.Str "ana" ]}) as H.
  change (data_field {[ "id" := JS.Str "ana" ]} "id") with (JS.Str "ana") in H.
  change (usuario Runtime.clinic !! "ana")
    with (Some (Runtime.user "ana" "PACIENTE")) in H.
  cbv iota beta in H.
  change (Usuario.ativo (Runtime.user "ana" "PACIENTE")) with true in H.
  cbv iota in H.
  apply (H ltac:(vm_compute; reflexivity) ltac:(discriminate) eq_refl
           ltac:(discriminate) Hd "segredo" Scenario.ana_access eq_refl
           ltac:(discriminate)).
  vm_compute; reflexivity.
Defined.

Lemma createUser_creates_witness :
  prop Scenario.adm_creates "perfil" = JS.Str "MEDICO"
  ∧ status (Scenario.createUser Scenario.adm_creates Runtime.clinic).1 = 201
  ∧ Usuario.perfil
      <$> usuario (Scenario.createUser Scenario.adm_creates
                     Runtime.clinic).2 !! "c5" = Some "MEDICO".
Proof.
  assert (Hpf : prop Scenario.adm_creates "perfil" = JS.Str "MEDICO")
    by (vm_compute; reflexivity).
  split; [exact Hpf|].
  destruct (createUser_creates Runtime.bcrypt_hash Runtime.cuid Runtime.now
              Scenario.adm_creates Runtime.clinic "Davi" "dr-d@clinica.test"
              "12345678" "MEDICO") as (_ & _ & Hok).
  - vm_compute; reflexivity.
  - discriminate.
  - vm_compute; reflexivity.
  - discriminate.
  - vm_compute; reflexivity.
  - discriminate.
  - exact Hpf.
  - discriminate.
  - change (Scenario.createUser Scenario.adm_creates Runtime.clinic)
      with (createUser Runtime.bcrypt_hash Runtime.cuid Runtime.now
              Scenario.adm_creates Runtime.clinic).
    rewrite Hok.
    + split; [reflexivity|]. simpl. by rewrite lookup_insert_eq.
    + simpl. lia.
    + apply elem_of_cons. right. apply elem_of_cons. right.
      apply elem_of_cons. right. apply elem_of_cons. by left.
    + apply no_email_in_clinic. intros Hin.
      repeat (apply elem_of_cons in Hin as [Hin|Hin]; [discriminate|]).
      by apply elem_of_nil in Hin.
    + vm_compute; reflexivity.
Defined.

Lemma updateUser_email_taken_witness :
  Usuario.email <$> usuario Runtime.clinic !! "bia" = Some "bia@clinica.test"
  ∧ Runtime.updateUser Scenario.adm_moves_ana Runtime.clinic
    = (mkResponse 500
         (Error "INTERNAL_SERVER_ERROR" "Erro ao atualizar usuario"),
       Runtime.clinic).
Proof.
  split; [vm_compute; reflexivity|].
  apply (updateUser_email_taken Runtime.bcrypt_hash Runtime.now
           Scenario.adm_moves_ana Runtime.clinic
           (Runtime.user "ana" "PACIENTE") "bia"
           (Runtime.user "bia" "PACIENTE") "bia@clinica.test").
  - vm_compute; reflexivity.
  - vm_compute; reflexivity.
  - discriminate.
  - vm_compute; reflexivity.
  - discriminate.
  - reflexivity.
Defined.

Lemma deleteUser_then_gone_witness :
  usuario Runtime.clinic !! "bia" = Some (Runtime.user "bia" "PACIENTE")
  ∧ Scenario.on_delete_usuario "bia" Runtime.clinic = inr Runtime.clinic
  ∧ status (Scenario.deleteUser Scenario.adm_deletes_bia Runtime.clinic).1
    = 200
  ∧ getUser Scenario.adm_deletes_bia
      (Scenario.deleteUser Scenario.adm_deletes_bia Runtime.clinic).2
    = (failure 404 "RESOURCE_NOT_FOUND" "Usuario nao encontrado",
       (Scenario.deleteUser Scenario.adm_deletes_bia Runtime.clinic).2).
Proof.
  assert (Hu : usuario Runtime.clinic !! "bia"
               = Some (Runtime.user "bia" "PACIENTE"))
    by (vm_compute; reflexivity).
  assert (Hgo : Scenario.on_delete_usuario "bia" Runtime.clinic
                = inr Runtime.clinic) by (vm_compute; reflexivity).
  split; [exact Hu|]. split; [exact Hgo|].
  destruct (deleteUser_then_gone Scenario.on_delete_usuario
              Scenario.adm_deletes_bia Runtime.clinic
              (Runtime.user "bia" "PACIENTE") Hu) as [_ Hgone].
  destruct (Hgone Hgo) as (Hout & _ & Hget).
  change (Scenario.deleteUser Scenario.adm_deletes_bia Runtime.clinic)
    with (deleteUser Scenario.on_delete_usuario Scenario.adm_deletes_bia
            Runtime.clinic).
  split.
  - by rewrite Hout.
  - exact (Hget Scenario.adm_deletes_bia eq_refl).
Defined.

Lemma register_then_login_witness :
  status (Runtime.register Scenario.caio_registers Runtime.clinic).1 = 201
  ∧ Scenario.bcrypt_compare "12345678" (Runtime.bcrypt_hash "12345678") = true
  ∧ Scenario.login Scenario.caio_logs_in
      (Runtime.register Scenario.caio_registers Runtime.clinic).2
    = (mkReply 200
         (Session "Login realizado com sucesso" "segredo.c5.PACIENTE"
            "segredo.c5"
            (mkUsuarioView "c5" "Caio" "caio@clinica.test" "PACIENTE" None
               None None)),
       (Runtime.register Scenario.caio_registers Runtime.clinic).2).
Proof.
  split; [vm_compute; reflexivity|]. split; [vm_compute; reflexivity|].
  pose proof (register_then_login Runtime.bcrypt_hash Scenario.bcrypt_compare
                Scenario.jwt_sign Scenario.env Runtime.cuid Runtime.now
                Scenario.caio_registers Runtime.clinic "Caio"
                "caio@clinica.test" "12345678") as H.
  cbv zeta in H.
  specialize (H ltac:(vm_compute; reflexivity) ltac:(discriminate)
                ltac:(vm_compute; reflexivity) ltac:(discriminate)
                ltac:(vm_compute; reflexivity) ltac:(simpl; lia)).
  assert (Hnew : ∀ id u, usuario Runtime.clinic !! id = Some u →
                         Usuario.email u ≠ "caio@clinica.test").
  { apply no_email_in_clinic. intros Hin.
    repeat (apply elem_of_cons in Hin as [Hin|Hin]; [discriminate|]).
    by apply elem_of_nil in Hin. }
  specialize (H Hnew ltac:(vm_compute; reflexivity) Scenario.caio_logs_in
                "12345678" ltac:(vm_compute; reflexivity)
                ltac:(vm_compute; reflexivity) ltac:(discriminate)).
  change (Scenario.bcrypt_compare "12345678" (Runtime.bcrypt_hash "12345678"))
    with true in H.
  cbv iota in H.
  exact (H "segredo" "segredo" "segredo.c5.PACIENTE" "segredo.c5" eq_refl
           ltac:(discriminate) eq_refl ltac:(vm_compute; reflexivity)
           ltac:(vm_compute; reflexivity)).
Defined.

Lemma switched_off_user_is_locked_out_witness :
  usuario Runtime.clinic !! "ana" = Some (Runtime.user "ana" "PACIENTE")
  ∧ status (Runtime.updateUser Scenario.adm_switches_ana_off
              Runtime.clinic).1 = 200
  ∧ Scenario.login Scenario.ana_logs_in
      (Runtime.updateUser Scenario.adm_switches_ana_off Runtime.clinic).2
    = (failure 401 "AUTH_FORBIDDEN" "Usuario inativo",
       (Runtime.updateUser Scenario.adm_switches_ana_off Runtime.clinic).2).
Proof.
  assert (Hu : usuario Runtime.clinic !! "ana"
               = Some (Runtime.user "ana" "PACIENTE"))
    by (vm_compute; reflexivity).
  split; [exact Hu|].
  destruct (switched_off_user_is_locked_out Runtime.bcrypt_hash
              Scenario.bcrypt_compare Scenario.jwt_sign Scenario.jwt_verify
              Scenario.env Runtime.now Scenario.adm_switches_ana_off
              Runtime.clinic (Runtime.user "ana" "PACIENTE")
              unique_emails_clinic Hu) as (H200 & _ & Hlogin & _).
  - vm_compute; reflexivity.
  - split; [exact H200|].
    apply (Hlogin Scenario.ana_logs_in "12345678").
    + vm_compute; reflexivity.
    + discriminate.
    + vm_compute; reflexivity.
    + discriminate.
Defined.

Lemma create_refuses_bad_references_witness :
  complete Appointment Scenario.ana_books_bia = true
  ∧ Usuario.perfil <$> usuario Runtime.clinic !! "bia" = Some "PACIENTE"
  ∧ Runtime.create Appointment Scenario.ana_books_bia Runtime.clinic
    = (mkResponse 400 (Error "VALIDATION_ERROR" "Medico invalido"),
       Runtime.clinic).
Proof.
  assert (Hc : complete Appointment Scenario.ana_books_bia = true)
    by (vm_compute; reflexivity).
  split; [exact Hc|]. split; [vm_compute; reflexivity|].
  destruct (create_refuses_bad_references Runtime.Date_parse Runtime.LocalTZA
              Runtime.cuid Appointment Scenario.ana_books_bia Runtime.clinic)
    as [_ H].
  destruct (H "ana" "bia" Hc) as [Hbad _].
  - vm_compute; reflexivity.
  - vm_compute; reflexivity.
  - reflexivity.
  - apply Hbad. intros u Hu.
    assert (Some u = Some (Runtime.user "bia" "PACIENTE")) as [= ->]
      by (rewrite <- Hu; vm_compute; reflexivity).
    discriminate.
Defined.
